(** * Collaborative whiteboard: the session synchronisation engine

    A shallow embedding of the server side of the whiteboard
    (the Socket.IO event handlers of the server entry point and
    [DatabaseManager]), and the properties of its specification.

    Conventions of the embedding:
    - an SQLite table is the list of its rows in rowid order; a plain
      [INSERT] appends, [INSERT OR REPLACE] deletes the rows that clash on
      the primary key and appends, [DELETE ... WHERE] filters;
    - foreign keys are declared by the schema but SQLite does not enforce
      them unless [PRAGMA foreign_keys] is switched on, which the code never
      does: they are not part of the model;
    - [Date.now()] and [Math.random()] are read from an explicit [Env];
    - an async function is a program in a state, error and trace monad:
      the trace records, in program order, the SQL statements that have
      completed and everything sent to a client;
    - each handler runs to completion: its awaits are not interleaved with
      other handlers. *)

From Stdlib Require Import ZArith.
From stdpp Require Import base option list gmap sets strings sorting pretty.

(** ** Values *)

(** An optional string property of a JavaScript object, as it arrives at
    run time: missing, [null], or a string.  [===] on such values is
    constructor equality. *)
Inductive jsopt : Type :=
  | JsUndefined
  | JsNull
  | JsStr (s : string).

#[global] Instance jsopt_eq_dec : EqDecision jsopt.
Proof. solve_decision. Defined.

(** JavaScript truthiness of such a value: [!v] holds for [undefined],
    [null] and the empty string. *)
Definition truthy (v : option string) : bool :=
  match v with
  | None => false
  | Some s => negb (bool_decide (s = ""))
  end.

(** What sqlite3 binds for an optional string parameter: [undefined] and
    [null] both become SQL [NULL]. *)
Definition bind_text (v : jsopt) : option string :=
  match v with
  | JsStr s => Some s
  | _ => None
  end.

(** What a nullable TEXT column reads back as. *)
Definition read_text (c : option string) : jsopt :=
  match c with
  | Some s => JsStr s
  | None => JsNull
  end.

Record Point := { px : Z; py : Z }.

Record User := {
  user_id : string;
  user_name : string;
  user_color : string;
  user_socketId : jsopt;
}.

(** [DrawingElement] (declared in types/whiteboard): the server only reads
    [id] and [timestamp]; the variant tag and the geometry, content and
    style are carried along untouched. *)
Record DrawingElement := {
  el_id : string;
  el_type : string;
  el_payload : string;
  el_userId : string;
  el_timestamp : Z;
}.

#[global] Instance Point_eq_dec : EqDecision Point.
Proof. solve_decision. Defined.
#[global] Instance User_eq_dec : EqDecision User.
Proof. solve_decision. Defined.
#[global] Instance DrawingElement_eq_dec : EqDecision DrawingElement.
Proof. solve_decision. Defined.

Record Room := {
  r_id : string;
  r_name : string;
  r_isPrivate : bool;
  r_password : jsopt;
  r_permissions : string;
  r_createdAt : Z;
  r_users : list User;
}.

Record CreateRoomData := {
  crd_name : string;
  crd_isPrivate : bool;
  crd_password : jsopt;
  crd_permissions : string;
}.

(** The readings of the clock and of the random source that one call
    consumes. *)
Record Env := {
  now : Z;              (* Date.now() *)
  rand_suffix : string; (* Math.random().toString(36).substr(2, 9) *)
  rand_raw : nat;       (* Math.floor(Math.random() * n) is rand_raw mod n *)
}.

(** ** The SQLite tables *)

Record RoomRow := {
  room_id : string;
  room_name : string;
  room_isPrivate : Z;
  room_password : option string;
  room_permissions : string;
  room_createdAt : Z;
}.

Record UserRow := {
  ur_id : string;
  ur_name : string;
  ur_color : string;
  ur_socketId : option string;
  ur_createdAt : Z;
}.

Record RoomUserRow := {
  ru_roomId : string;
  ru_userId : string;
  ru_joinedAt : Z;
}.

(** [elementData] holds [JSON.stringify element]; [JSON.parse] gives the
    element back, so the column is modelled by the element itself. *)
Record ElementRow := {
  er_id : string;
  er_roomId : string;
  er_elementData : DrawingElement;
  er_timestamp : Z;
}.

Record Tables := {
  rooms : list RoomRow;
  users : list UserRow;
  room_users : list RoomUserRow;
  whiteboard_elements : list ElementRow;
}.

(** [createTables] on a new database file. *)
Definition empty_tables : Tables :=
  {| rooms := []; users := []; room_users := []; whiteboard_elements := [] |}.

(** The statements that [DatabaseManager] passes to [db.run]. *)
Inductive Statement : Type :=
  | InsertRoom (r : RoomRow)
  | InsertUser (u : UserRow)
  | UpdateUserSocketId (socketId : string) (userId : string)
  | InsertOrReplaceRoomUser (r : RoomUserRow)
  | DeleteRoomUser (roomId userId : string)
  | InsertOrReplaceElement (e : ElementRow)
  | DeleteElements (roomId : string).

Inductive result (A : Type) : Type :=
  | Ok (a : A)
  | Throw (e : string).
Arguments Ok {A} a.
Arguments Throw {A} e.

Definition same_member (roomId userId : string) (r : RoomUserRow) : bool :=
  bool_decide (ru_roomId r = roomId) && bool_decide (ru_userId r = userId).

Definition with_elements (t : Tables) (l : list ElementRow) : Tables :=
  {| rooms := rooms t; users := users t; room_users := room_users t;
     whiteboard_elements := l |}.

Definition with_room_users (t : Tables) (l : list RoomUserRow) : Tables :=
  {| rooms := rooms t; users := users t; room_users := l;
     whiteboard_elements := whiteboard_elements t |}.

(** [db.run(sql, params)]: the effect of one statement on the tables. *)
Definition exec (s : Statement) (t : Tables) : result Tables :=
  match s with
  | InsertRoom r =>
      if existsb (fun x => bool_decide (room_id x = room_id r)) (rooms t)
      then Throw "SQLITE_CONSTRAINT: UNIQUE constraint failed: rooms.id"
      else Ok {| rooms := rooms t ++ [r]; users := users t;
                 room_users := room_users t;
                 whiteboard_elements := whiteboard_elements t |}
  | InsertUser u =>
      if existsb (fun x => bool_decide (ur_id x = ur_id u)) (users t)
      then Throw "SQLITE_CONSTRAINT: UNIQUE constraint failed: users.id"
      else Ok {| rooms := rooms t; users := users t ++ [u];
                 room_users := room_users t;
                 whiteboard_elements := whiteboard_elements t |}
  | UpdateUserSocketId socketId userId =>
      Ok {| rooms := rooms t;
            users := map (fun x =>
                       if bool_decide (ur_id x = userId)
                       then {| ur_id := ur_id x; ur_name := ur_name x;
                               ur_color := ur_color x;
                               ur_socketId := Some socketId;
                               ur_createdAt := ur_createdAt x |}
                       else x) (users t);
            room_users := room_users t;
            whiteboard_elements := whiteboard_elements t |}
  | InsertOrReplaceRoomUser r =>
      Ok (with_room_users t
            (List.filter (fun x => negb (same_member (ru_roomId r) (ru_userId r) x))
                         (room_users t) ++ [r]))
  | DeleteRoomUser roomId userId =>
      Ok (with_room_users t
            (List.filter (fun x => negb (same_member roomId userId x))
                         (room_users t)))
  | InsertOrReplaceElement e =>
      Ok (with_elements t
            (List.filter (fun x => negb (bool_decide (er_id x = er_id e)))
                         (whiteboard_elements t) ++ [e]))
  | DeleteElements roomId =>
      Ok (with_elements t
            (List.filter (fun x => negb (bool_decide (er_roomId x = roomId)))
                         (whiteboard_elements t)))
  end.

(** [ORDER BY timestamp].  SQL fixes the order of rows only up to their
    sort key; the model sorts the rows of the scan with a merge sort, and
    the theorems below depend on the order of equal timestamps nowhere. *)
Definition timestamp_le (a b : ElementRow) : Prop :=
  (er_timestamp a <= er_timestamp b)%Z.

#[global] Instance timestamp_le_dec a b : Decision (timestamp_le a b).
Proof. unfold timestamp_le. apply _. Defined.

#[global] Instance timestamp_le_total : Total timestamp_le.
Proof. intros a b. unfold timestamp_le. lia. Qed.

#[global] Instance timestamp_le_trans : Transitive timestamp_le.
Proof. intros a b c. unfold timestamp_le. lia. Qed.

Definition order_by_timestamp (l : list ElementRow) : list ElementRow :=
  merge_sort timestamp_le l.

(** SELECT elementData FROM whiteboard_elements WHERE roomId = ? ORDER BY timestamp *)
Definition select_elements (roomId : string) (t : Tables) : list ElementRow :=
  order_by_timestamp
    (List.filter (fun x => bool_decide (er_roomId x = roomId))
                 (whiteboard_elements t)).

(** SELECT * FROM rooms WHERE id = ? *)
Definition select_room (roomId : string) (t : Tables) : option RoomRow :=
  List.find (fun x => bool_decide (room_id x = roomId)) (rooms t).

(** SELECT * FROM users WHERE id = ? *)
Definition select_user (userId : string) (t : Tables) : option UserRow :=
  List.find (fun x => bool_decide (ur_id x = userId)) (users t).

(** SELECT u.* FROM users u JOIN room_users ru ON u.id = ru.userId
    WHERE ru.roomId = ? *)
Definition select_room_users (roomId : string) (t : Tables) : list UserRow :=
  flat_map (fun ru =>
              if bool_decide (ru_roomId ru = roomId)
              then List.filter (fun u => bool_decide (ur_id u = ru_userId ru)) (users t)
              else [])
           (room_users t).

Definition user_of_row (u : UserRow) : User :=
  {| user_id := ur_id u; user_name := ur_name u; user_color := ur_color u;
     user_socketId := read_text (ur_socketId u) |}.

(** The descriptor [getRoom] builds from a row and the users joined to it. *)
Definition room_of_row (row : RoomRow) (joined_users : list UserRow) : Room :=
  {| r_id := room_id row;
     r_name := room_name row;
     r_isPrivate := negb (room_isPrivate row =? 0)%Z;
     r_password := read_text (room_password row);
     r_permissions := room_permissions row;
     r_createdAt := room_createdAt row;
     r_users := map user_of_row joined_users |}.

(** ** What a handler sends, and the trace of a run *)

Inductive ServerEvent : Type :=
  | user_joined (u : User)
  | user_left (userId : string)
  | room_users_updated (l : list User)
  | drawing_start (element : DrawingElement) (userId : string)
  | drawing_update (element : DrawingElement) (userId : string)
  | drawing_end (element : DrawingElement) (userId : string)
  | text_added (element : DrawingElement) (userId : string)
  | canvas_cleared
  | cursor_moved (userId : string) (position : Point).

(** The argument of the acknowledgment callback of [join-room]. *)
Inductive JoinResponse : Type :=
  | JoinSuccess (room : Room) (user : User) (elements : list DrawingElement)
  | JoinFailure (error : string).

(** The body of the response to [POST /api/rooms]. *)
Inductive ApiResponse : Type :=
  | RoomCreated (room : Room)
  | ApiFailure (error : string).

Inductive Effect : Type :=
  | SqlRun (s : Statement)
      (* a [db.run] whose promise has resolved *)
  | Callback (socket : string) (r : JoinResponse)
      (* the acknowledgment, delivered to the requesting socket *)
  | Emit (recipients : gset string) (ev : ServerEvent)
      (* an event handed to the transport for these sockets *)
  | Respond (status : Z) (body : ApiResponse)
      (* the HTTP response of a REST endpoint *)
  | ConsoleError (msg : string)
  | UnhandledRejection (msg : string).
      (* an exception that escaped an async handler *)

(** ** Programs: state, exceptions and the trace *)

Definition Prog (St A : Type) : Type := St -> result A * St * list Effect.

Definition ret {St A} (a : A) : Prog St A := fun s => (Ok a, s, []).

Definition throw {St A} (e : string) : Prog St A := fun s => (Throw e, s, []).

Definition bind {St A B} (m : Prog St A) (k : A -> Prog St B) : Prog St B :=
  fun s =>
    match m s with
    | (Ok a, s1, tr1) =>
        match k a s1 with
        | (r, s2, tr2) => (r, s2, tr1 ++ tr2)
        end
    | (Throw e, s1, tr1) => (Throw e, s1, tr1)
    end.

Notation "'let*' x ':=' m 'in' k" := (bind m (fun x => k))
  (at level 10, x pattern, m at level 100, k at level 200).

Definition get_state {St} : Prog St St := fun s => (Ok s, s, []).

Definition modify {St} (f : St -> St) : Prog St unit := fun s => (Ok tt, f s, []).

Definition tell {St} (e : Effect) : Prog St unit := fun s => (Ok tt, s, [e]).

(** [try { body } catch (error) { handler }] *)
Definition try_catch {St A} (body : Prog St A) (handler : string -> Prog St A)
  : Prog St A :=
  fun s =>
    match body s with
    | (Ok a, s1, tr1) => (Ok a, s1, tr1)
    | (Throw e, s1, tr1) =>
        match handler e s1 with
        | (r, s2, tr2) => (r, s2, tr1 ++ tr2)
        end
    end.

(** Run a program of a component inside a larger state. *)
Definition zoom {St Sub A} (proj : St -> Sub) (upd : Sub -> St -> St)
    (m : Prog Sub A) : Prog St A :=
  fun s =>
    match m (proj s) with
    | (r, sub, tr) => (r, upd sub s, tr)
    end.

(** ** DatabaseManager *)

Module DatabaseManager.

(** [private db: sqlite3.Database | null = null] *)
Record t := { db : option Tables }.

Definition M := Prog t.


(** [initialize]: opens the database file ([stored] is what the file
    held, [None] for a new file) and creates the tables that are
    missing. *)
Definition initialize (stored : option Tables) : M unit :=
  modify (fun _ => {| db := Some (default empty_tables stored) |}).

(** [if (!this.db) throw new Error('Database not initialized')] *)
Definition connection : M Tables :=
  fun d =>
    match db d with
    | Some tb => (Ok tb, d, [])
    | None => (Throw "Database not initialized", d, [])
    end.

(** [await run(sql, params)] *)
Definition run (s : Statement) : M unit :=
  fun d =>
    match db d with
    | Some tb =>
        match exec s tb with
        | Ok tb' => (Ok tt, {| db := Some tb' |}, [SqlRun s])
        | Throw e => (Throw e, d, [])
        end
    | None => (Throw "Database not initialized", d, [])
    end.

Definition createRoom (env : Env) (data : CreateRoomData) : M Room :=
  let* _ := connection in
  let roomId := "room-" +:+ pretty (now env) +:+ "-" +:+ rand_suffix env in
  let* _ := run (InsertRoom
                   {| room_id := roomId;
                      room_name := crd_name data;
                      room_isPrivate := if crd_isPrivate data then 1 else 0;
                      room_password := bind_text (crd_password data);
                      room_permissions := crd_permissions data;
                      room_createdAt := now env |}) in
  ret {| r_id := roomId;
         r_name := crd_name data;
         r_isPrivate := crd_isPrivate data;
         r_password := crd_password data;
         r_permissions := crd_permissions data;
         r_createdAt := now env;
         r_users := [] |}.

Definition getRoom (roomId : string) : M (option Room) :=
  let* tb := connection in
  match select_room roomId tb with
  | None => ret None
  | Some room => ret (Some (room_of_row room (select_room_users roomId tb)))
  end.

Definition colors : list string :=
  ["#3B82F6"; "#8B5CF6"; "#10B981"; "#F59E0B"; "#EF4444"; "#6B7280"].

Definition createUser (env : Env) (socketId name : string) : M User :=
  let* _ := connection in
  let userId := "user-" +:+ pretty (now env) +:+ "-" +:+ rand_suffix env in
  let color := nth (rand_raw env mod length colors) colors "" in
  let* _ := run (InsertUser
                   {| ur_id := userId; ur_name := name; ur_color := color;
                      ur_socketId := Some socketId;
                      ur_createdAt := now env |}) in
  ret {| user_id := userId; user_name := name; user_color := color;
         user_socketId := JsStr socketId |}.

Definition getUser (userId : string) : M (option User) :=
  let* tb := connection in
  ret (user_of_row <$> select_user userId tb).

Definition updateUserSocketId (userId socketId : string) : M unit :=
  let* _ := connection in
  run (UpdateUserSocketId socketId userId).

Definition addUserToRoom (env : Env) (roomId userId : string) : M unit :=
  let* _ := connection in
  run (InsertOrReplaceRoomUser
         {| ru_roomId := roomId; ru_userId := userId; ru_joinedAt := now env |}).

Definition removeUserFromRoom (roomId userId : string) : M unit :=
  let* _ := connection in
  run (DeleteRoomUser roomId userId).

Definition getRoomUsers (roomId : string) : M (list User) :=
  let* tb := connection in
  ret (map user_of_row (select_room_users roomId tb)).

Definition saveElement (roomId : string) (element : DrawingElement) : M unit :=
  let* _ := connection in
  run (InsertOrReplaceElement
         {| er_id := el_id element; er_roomId := roomId;
            er_elementData := element;
            er_timestamp := el_timestamp element |}).

Definition getRoomElements (roomId : string) : M (list DrawingElement) :=
  let* tb := connection in
  ret (map er_elementData (select_elements roomId tb)).

Definition clearRoomElements (roomId : string) : M unit :=
  let* _ := connection in
  run (DeleteElements roomId).

End DatabaseManager.

(** ** The server: its state *)

(** [socket.data] of one connection. *)
Record SocketData := {
  sd_roomId : option string;
  sd_userId : option string;
}.

Definition no_data : SocketData := {| sd_roomId := None; sd_userId := None |}.

(** The value of a string that has passed a truthiness test. *)
Definition str (v : option string) : string := default "" v.

Record World := {
  dbManager : DatabaseManager.t;
  (* AuthManager: the user created for each connection *)
  auth_users : gmap string User;
  (* RoomManager: the active users of each room, in insertion order *)
  presence : gmap string (list User);
  (* socket.data of every connection; a connection without an entry has
     the empty object *)
  socket_data : gmap string SocketData;
  (* the rooms of the Socket.IO adapter: room name to socket ids *)
  adapter_rooms : gmap string (gset string);
}.

Definition Handler := Prog World.

Definition set_dbManager (d : DatabaseManager.t) (w : World) : World :=
  {| dbManager := d; auth_users := auth_users w; presence := presence w;
     socket_data := socket_data w; adapter_rooms := adapter_rooms w |}.

Definition set_auth_users (m : gmap string User) (w : World) : World :=
  {| dbManager := dbManager w; auth_users := m; presence := presence w;
     socket_data := socket_data w; adapter_rooms := adapter_rooms w |}.

Definition set_presence (m : gmap string (list User)) (w : World) : World :=
  {| dbManager := dbManager w; auth_users := auth_users w; presence := m;
     socket_data := socket_data w; adapter_rooms := adapter_rooms w |}.

Definition set_socket_data (m : gmap string SocketData) (w : World) : World :=
  {| dbManager := dbManager w; auth_users := auth_users w; presence := presence w;
     socket_data := m; adapter_rooms := adapter_rooms w |}.

Definition set_adapter_rooms (m : gmap string (gset string)) (w : World) : World :=
  {| dbManager := dbManager w; auth_users := auth_users w; presence := presence w;
     socket_data := socket_data w; adapter_rooms := m |}.

(** [await dbManager.method(...)] from the server. *)
Definition db_call {A} (m : DatabaseManager.M A) : Handler A :=
  zoom dbManager set_dbManager m.

(** The server once [dbManager.initialize()] has resolved and before any
    connection. *)
Definition initial_world (stored : option Tables) : World :=
  {| dbManager := {| DatabaseManager.db := Some (default empty_tables stored) |};
     auth_users := ∅; presence := ∅; socket_data := ∅; adapter_rooms := ∅ |}.

(** ** Socket.IO *)

Definition data_of (w : World) (socket : string) : SocketData :=
  default no_data (socket_data w !! socket).

(** The sockets currently in a room.  (The room that every socket has
    under its own id is left out: the handlers only name rooms of the
    store, whose ids are [room-...].) *)
Definition members (w : World) (room : string) : gset string :=
  default ∅ (adapter_rooms w !! room).

Definition get_data (socket : string) : Handler SocketData :=
  fun w => (Ok (data_of w socket), w, []).

Definition put_data (socket : string) (d : SocketData) : Handler unit :=
  modify (fun w => set_socket_data (<[socket := d]> (socket_data w)) w).

(** The adapter once [socket] has been added to [room]. *)
Definition joined (socket room : string) (w : World) : World :=
  set_adapter_rooms (<[room := {[socket]} ∪ members w room]> (adapter_rooms w)) w.

(** [socket.join(room)] *)
Definition socket_join (socket room : string) : Handler unit :=
  modify (joined socket room).

(** What remains of a room when a socket goes; the adapter drops a room
    that has become empty. *)
Definition without (socket : string) (m : gset string) : option (gset string) :=
  if decide (m ∖ {[socket]} = ∅) then None else Some (m ∖ {[socket]}).

(** The adapter once [socket] has been taken out of [room]. *)
Definition parted (socket room : string) (w : World) : World :=
  match adapter_rooms w !! room with
  | None => w
  | Some m =>
      set_adapter_rooms
        (match without socket m with
         | None => delete room (adapter_rooms w)
         | Some m' => <[room := m']> (adapter_rooms w)
         end) w
  end.

(** [socket.leave(room)] *)
Definition socket_leave (socket room : string) : Handler unit :=
  modify (parted socket room).

(** What the transport does before it fires [disconnect]: the socket
    leaves every room. *)
Definition socket_leave_all (socket : string) : Handler unit :=
  modify (fun w => set_adapter_rooms (omap (without socket) (adapter_rooms w)) w).

(** [socket.to(room).emit(ev)]: to the sockets of the room, the sender
    excepted. *)
Definition socket_to_emit (socket room : string) (ev : ServerEvent) : Handler unit :=
  fun w => (Ok tt, w, [Emit (members w room ∖ {[socket]}) ev]).

(** [io.to(room).emit(ev)]: to every socket of the room. *)
Definition io_to_emit (room : string) (ev : ServerEvent) : Handler unit :=
  fun w => (Ok tt, w, [Emit (members w room) ev]).

Definition callback (socket : string) (r : JoinResponse) : Handler unit :=
  tell (Callback socket r).

Definition console_error (msg : string) : Handler unit := tell (ConsoleError msg).

(** ** The managers *)

Module AuthManager.

(** Modelled from the spec: the class [AuthManager] (managers/AuthManager)
    is missing from the source files.  The spec: a user has a unique id,
    a display name, a colour picked pseudo-randomly from a fixed palette
    and the identifier of its connection.  The id and the palette are those
    of [DatabaseManager.createUser]. *)
Definition new_user (env : Env) (socketId userName : string) : User :=
  {| user_id := "user-" +:+ pretty (now env) +:+ "-" +:+ rand_suffix env;
     user_name := userName;
     user_color := nth (rand_raw env mod length DatabaseManager.colors)
                       DatabaseManager.colors "";
     user_socketId := JsStr socketId |}.

(** Modelled from the spec: the method [AuthManager.createOrGetUser] is
    missing from the source files; the manager is built without a database
    handle.  The spec: a user is created on the first successful join of
    its connection. *)
Definition createOrGetUser (env : Env) (socketId userName : string)
  : Handler User :=
  fun w =>
    match auth_users w !! socketId with
    | Some u => (Ok u, w, [])
    | None =>
        let u := new_user env socketId userName in
        (Ok u, set_auth_users (<[socketId := u]> (auth_users w)) w, [])
    end.

End AuthManager.

Module RoomManager.

(** Modelled from the spec: the class [RoomManager] (managers/RoomManager),
    built on the database manager, is missing from the source files.  The
    spec: room lookup returns the stored descriptor or not-found. *)
Definition getRoom (roomId : string) : Handler (option Room) :=
  db_call (DatabaseManager.getRoom roomId).

(** Modelled from the spec: the method [RoomManager.createRoom] is missing
    from the source files.  The spec: creating a room generates a fresh id
    and persists the descriptor. *)
Definition createRoom (env : Env) (data : CreateRoomData) : Handler Room :=
  db_call (DatabaseManager.createRoom env data).

(** Modelled from the spec: the presence list of [RoomManager] is missing
    from the source files.  The spec: an insertion-ordered list of the
    active users of each room; adding a user who is present is a no-op. *)
Definition present (roomId : string) (user : User) (w : World) : World :=
  let l := default [] (presence w !! roomId) in
  if existsb (fun u => bool_decide (user_id u = user_id user)) l then w
  else set_presence (<[roomId := l ++ [user]]> (presence w)) w.

(** Modelled from the spec: the removal from the presence list of
    [RoomManager] is missing from the source files.  The spec: removing an
    absent user is a no-op. *)
Definition absent (roomId userId : string) (w : World) : World :=
  match presence w !! roomId with
  | None => w
  | Some l =>
      set_presence
        (<[roomId := List.filter (fun u => negb (bool_decide (user_id u = userId))) l]>
           (presence w)) w
  end.

(** Modelled from the spec: the method [RoomManager.addUserToRoom] is
    missing from the source files.  The spec: joining registers the
    membership pair in the store and records the user among the active
    users of the room. *)
Definition addUserToRoom (env : Env) (roomId : string) (user : User)
  : Handler unit :=
  let* _ := db_call (DatabaseManager.addUserToRoom env roomId (user_id user)) in
  modify (present roomId user).

(** Modelled from the spec: the method [RoomManager.removeUserFromRoom] is
    missing from the source files.  The spec: leaving removes the
    membership pair from the store and the user from the active users of
    the room. *)
Definition removeUserFromRoom (roomId userId : string) : Handler unit :=
  let* _ := db_call (DatabaseManager.removeUserFromRoom roomId userId) in
  modify (absent roomId userId).

(** Modelled from the spec: the method [RoomManager.getRoomUsers] is
    missing from the source files.  The spec: the ordered list of the
    active users of the room. *)
Definition getRoomUsers (roomId : string) : Handler (list User) :=
  fun w => (Ok (default [] (presence w !! roomId)), w, []).

End RoomManager.

Module WhiteboardManager.

(** Modelled from the spec: the class [WhiteboardManager]
    (managers/WhiteboardManager), built on the database manager, is
    missing from the source files.  The spec: append is a durable upsert
    keyed by the element id. *)
Definition addElement (roomId : string) (element : DrawingElement) : Handler unit :=
  db_call (DatabaseManager.saveElement roomId element).

(** Modelled from the spec: the method [WhiteboardManager.updateElement]
    is missing from the source files.  The spec: update is the same
    upsert, overwriting any prior version. *)
Definition updateElement (roomId : string) (element : DrawingElement) : Handler unit :=
  db_call (DatabaseManager.saveElement roomId element).

(** Modelled from the spec: the method [WhiteboardManager.getRoomElements]
    is missing from the source files.  The spec: list is the ordered
    snapshot of the room. *)
Definition getRoomElements (roomId : string) : Handler (list DrawingElement) :=
  db_call (DatabaseManager.getRoomElements roomId).

(** Modelled from the spec: the method [WhiteboardManager.clearRoom] is
    missing from the source files.  The spec: clear deletes every element
    of the room. *)
Definition clearRoom (roomId : string) : Handler unit :=
  db_call (DatabaseManager.clearRoomElements roomId).

End WhiteboardManager.

(** ** The event handlers *)

Inductive ClientEvent : Type :=
  | JoinRoom (roomId : string) (password : jsopt) (userName : string)
  | LeaveRoom
  | DrawingStart (element : DrawingElement)
  | DrawingUpdate (element : DrawingElement)
  | DrawingEnd (element : DrawingElement)
  | TextAdded (element : DrawingElement)
  | ClearCanvas
  | CursorMove (position : Point)
  | Disconnect.

Definition on_join_room (env : Env) (socket roomId : string) (password : jsopt)
    (userName : string) : Handler unit :=
  try_catch
    (let* room := RoomManager.getRoom roomId in
     match room with
     | None => callback socket (JoinFailure "Room not found")
     | Some room =>
         if r_isPrivate room && negb (bool_decide (r_password room = password))
         then callback socket (JoinFailure "Invalid password")
         else
           let* user := AuthManager.createOrGetUser env socket userName in
           let* _ := socket_join socket roomId in
           let* _ := RoomManager.addUserToRoom env roomId user in
           let* _ := put_data socket {| sd_roomId := Some roomId;
                                        sd_userId := Some (user_id user) |} in
           let* elements := WhiteboardManager.getRoomElements roomId in
           let* _ := callback socket (JoinSuccess room user elements) in
           let* _ := socket_to_emit socket roomId (user_joined user) in
           let* roomUsers := RoomManager.getRoomUsers roomId in
           io_to_emit roomId (room_users_updated roomUsers)
     end)
    (fun error =>
       let* _ := console_error "Error joining room:" in
       callback socket (JoinFailure "Failed to join room")).

Definition handleUserLeave (socket roomId userId : string) : Handler unit :=
  try_catch
    (let* _ := RoomManager.removeUserFromRoom roomId userId in
     let* _ := socket_leave socket roomId in
     let* _ := socket_to_emit socket roomId (user_left userId) in
     let* roomUsers := RoomManager.getRoomUsers roomId in
     socket_to_emit socket roomId (room_users_updated roomUsers))
    (fun error => console_error "Error handling user leave:").

Definition on_leave_room (socket : string) : Handler unit :=
  let* d := get_data socket in
  if truthy (sd_roomId d) && truthy (sd_userId d)
  then handleUserLeave socket (str (sd_roomId d)) (str (sd_userId d))
  else ret tt.

Definition on_drawing_start (socket : string) (element : DrawingElement) : Handler unit :=
  let* d := get_data socket in
  if negb (truthy (sd_roomId d)) || negb (truthy (sd_userId d)) then ret tt
  else
    let* _ := WhiteboardManager.addElement (str (sd_roomId d)) element in
    socket_to_emit socket (str (sd_roomId d))
                   (drawing_start element (str (sd_userId d))).

Definition on_drawing_update (socket : string) (element : DrawingElement) : Handler unit :=
  let* d := get_data socket in
  if negb (truthy (sd_roomId d)) || negb (truthy (sd_userId d)) then ret tt
  else
    let* _ := WhiteboardManager.updateElement (str (sd_roomId d)) element in
    socket_to_emit socket (str (sd_roomId d))
                   (drawing_update element (str (sd_userId d))).

Definition on_drawing_end (socket : string) (element : DrawingElement) : Handler unit :=
  let* d := get_data socket in
  if negb (truthy (sd_roomId d)) || negb (truthy (sd_userId d)) then ret tt
  else
    let* _ := WhiteboardManager.updateElement (str (sd_roomId d)) element in
    socket_to_emit socket (str (sd_roomId d))
                   (drawing_end element (str (sd_userId d))).

Definition on_text_added (socket : string) (element : DrawingElement) : Handler unit :=
  let* d := get_data socket in
  if negb (truthy (sd_roomId d)) || negb (truthy (sd_userId d)) then ret tt
  else
    let* _ := WhiteboardManager.addElement (str (sd_roomId d)) element in
    socket_to_emit socket (str (sd_roomId d))
                   (text_added element (str (sd_userId d))).

Definition on_clear_canvas (socket : string) : Handler unit :=
  let* d := get_data socket in
  if negb (truthy (sd_roomId d)) then ret tt
  else
    let* _ := WhiteboardManager.clearRoom (str (sd_roomId d)) in
    socket_to_emit socket (str (sd_roomId d)) canvas_cleared.

Definition on_cursor_move (socket : string) (position : Point) : Handler unit :=
  let* d := get_data socket in
  if negb (truthy (sd_roomId d)) || negb (truthy (sd_userId d)) then ret tt
  else socket_to_emit socket (str (sd_roomId d))
                      (cursor_moved (str (sd_userId d)) position).

Definition on_disconnect (socket : string) : Handler unit :=
  let* _ := socket_leave_all socket in
  let* d := get_data socket in
  if truthy (sd_roomId d) && truthy (sd_userId d)
  then handleUserLeave socket (str (sd_roomId d)) (str (sd_userId d))
  else ret tt.

Definition handler (env : Env) (socket : string) (ev : ClientEvent) : Handler unit :=
  match ev with
  | JoinRoom roomId password userName => on_join_room env socket roomId password userName
  | LeaveRoom => on_leave_room socket
  | DrawingStart element => on_drawing_start socket element
  | DrawingUpdate element => on_drawing_update socket element
  | DrawingEnd element => on_drawing_end socket element
  | TextAdded element => on_text_added socket element
  | ClearCanvas => on_clear_canvas socket
  | CursorMove position => on_cursor_move socket position
  | Disconnect => on_disconnect socket
  end.

(** One inbound event, handled to completion: the world afterwards and the
    trace of the run.  An exception that no handler catches surfaces as an
    unhandled rejection. *)
Definition handle (env : Env) (socket : string) (ev : ClientEvent) (w : World)
  : World * list Effect :=
  match handler env socket ev w with
  | (Ok _, w', tr) => (w', tr)
  | (Throw e, w', tr) => (w', tr ++ [UnhandledRejection e])
  end.

(** [app.post('/api/rooms', ...)]: [isPrivate || false],
    [isPrivate ? password : undefined], [permissions || 'edit']. *)
Definition post_api_rooms (env : Env) (name : string) (isPrivate : bool)
    (password : jsopt) (permissions : string) : Handler unit :=
  try_catch
    (let* room := RoomManager.createRoom env
                    {| crd_name := name;
                       crd_isPrivate := isPrivate;
                       crd_password := if isPrivate then password else JsUndefined;
                       crd_permissions :=
                         if bool_decide (permissions = "") then "edit"
                         else permissions |} in
     tell (Respond 200 (RoomCreated room)))
    (fun error =>
       let* _ := console_error "Error creating room:" in
       tell (Respond 500 (ApiFailure "Failed to create room"))).

(** One request to create a room, served to completion. *)
Definition serve_create (env : Env) (name : string) (isPrivate : bool)
    (password : jsopt) (permissions : string) (w : World) : World * list Effect :=
  match post_api_rooms env name isPrivate password permissions w with
  | (_, w', tr) => (w', tr)
  end.

(** ** Runs of the element store *)

(** What reaches the element store: a drawing or text event commits an
    element to a room, a clear empties a room. *)
Inductive StoreOp : Type :=
  | Commit (roomId : string) (element : DrawingElement)
  | Clear (roomId : string).

#[global] Instance StoreOp_eq_dec : EqDecision StoreOp.
Proof. solve_decision. Defined.

Definition store_op (op : StoreOp) : DatabaseManager.M unit :=
  match op with
  | Commit roomId element => DatabaseManager.saveElement roomId element
  | Clear roomId => DatabaseManager.clearRoomElements roomId
  end.

Fixpoint store_ops (ops : list StoreOp) : DatabaseManager.M unit :=
  match ops with
  | [] => ret tt
  | op :: rest => let* _ := store_op op in store_ops rest
  end.

(** The value a program returns from a given state. *)
Definition value {St A} (m : Prog St A) (s : St) : result A := (m s).1.1.

(** The state a program leaves. *)
Definition state_after {St A} (m : Prog St A) (s : St) : St := (m s).1.2.

(** The trace of a program. *)
Definition trace_of {St A} (m : Prog St A) (s : St) : list Effect := (m s).2.

Definition opened (tb : Tables) : DatabaseManager.t :=
  {| DatabaseManager.db := Some tb |}.

(** The snapshot of a room after a run of the store that started on a new
    database. *)
Definition snapshot (ops : list StoreOp) (roomId : string)
  : result (list DrawingElement) :=
  value (let* _ := store_ops ops in DatabaseManager.getRoomElements roomId)
        (opened empty_tables).

(** The most recent commit of an element id that no clear of its room has
    followed: the room it went to and the version committed. *)
Definition last_commit_step (id : string)
    (cur : option (string * DrawingElement)) (op : StoreOp)
  : option (string * DrawingElement) :=
  match op with
  | Commit roomId element =>
      if bool_decide (el_id element = id) then Some (roomId, element) else cur
  | Clear roomId =>
      match cur with
      | Some (r, element) => if bool_decide (r = roomId) then None else cur
      | None => None
      end
  end.

Definition last_commit_from (cur : option (string * DrawingElement))
    (ops : list StoreOp) (id : string) : option (string * DrawingElement) :=
  fold_left (last_commit_step id) ops cur.

Definition last_commit (ops : list StoreOp) (id : string)
  : option (string * DrawingElement) :=
  last_commit_from None ops id.

Definition timestamp_order (a b : DrawingElement) : Prop :=
  (el_timestamp a <= el_timestamp b)%Z.

(** The snapshot in the words of the specification: the elements committed
    to the room since its last clear, one per id in its latest version, in
    the order of the timestamps the ids were first committed with. *)
Record Entry := {
  en_created : Z;
  en_element : DrawingElement;
}.

Definition created_le (a b : Entry) : Prop := (en_created a <= en_created b)%Z.

#[global] Instance created_le_dec a b : Decision (created_le a b).
Proof. unfold created_le. apply _. Defined.

Definition claimed_step (roomId : string) (acc : list Entry) (op : StoreOp)
  : list Entry :=
  match op with
  | Commit r element =>
      if bool_decide (r = roomId) then
        if existsb (fun x => bool_decide (el_id (en_element x) = el_id element)) acc
        then map (fun x =>
                    if bool_decide (el_id (en_element x) = el_id element)
                    then {| en_created := en_created x; en_element := element |}
                    else x) acc
        else acc ++ [{| en_created := el_timestamp element; en_element := element |}]
      else acc
  | Clear r => if bool_decide (r = roomId) then [] else acc
  end.

Definition claimed_snapshot (ops : list StoreOp) (roomId : string)
  : list DrawingElement :=
  map en_element (merge_sort created_le (fold_left (claimed_step roomId) ops [])).

(** ** Membership and join outcomes *)

(** The membership relation: the pairs held by [room_users]. *)
Definition is_member (tb : Tables) (roomId userId : string) : bool :=
  existsb (same_member roomId userId) (room_users tb).

Definition is_join_success (e : Effect) : bool :=
  match e with
  | Callback _ (JoinSuccess _ _ _) => true
  | _ => false
  end.

(** A join has succeeded when its trace holds a success acknowledgment. *)
Definition join_succeeds (tr : list Effect) : bool := existsb is_join_success tr.

(** The events that only a joined session may submit. *)
Definition session_event (ev : ClientEvent) : bool :=
  match ev with
  | DrawingStart _ | DrawingUpdate _ | DrawingEnd _ | TextAdded _
  | ClearCanvas | CursorMove _ => true
  | _ => false
  end.

(** The rows a room holds, in table order. *)
Definition rows_of (roomId : string) (tb : Tables) : list ElementRow :=
  List.filter (fun x => bool_decide (er_roomId x = roomId)) (whiteboard_elements tb).

Definition element_row (roomId : string) (element : DrawingElement) : ElementRow :=
  {| er_id := el_id element; er_roomId := roomId;
     er_elementData := element; er_timestamp := el_timestamp element |}.

(** The statement a store operation runs, and the tables it leaves. *)
Definition op_statement (op : StoreOp) : Statement :=
  match op with
  | Commit roomId element => InsertOrReplaceElement (element_row roomId element)
  | Clear roomId => DeleteElements roomId
  end.

Definition after_statement (tb : Tables) (s : Statement) : Tables :=
  match exec s tb with
  | Ok tb' => tb'
  | Throw _ => tb
  end.

Definition after_op (tb : Tables) (op : StoreOp) : Tables :=
  after_statement tb (op_statement op).

(** The room and version stored under an element id. *)
Definition stored_version (id : string) (tb : Tables)
  : option (string * DrawingElement) :=
  (fun x => (er_roomId x, er_elementData x))
    <$> List.find (fun x => bool_decide (er_id x = id)) (whiteboard_elements tb).

(** A row as [saveElement] writes it: its key and sort columns repeat the
    id and the timestamp of the element it holds. *)
Definition row_ok (x : ElementRow) : Prop :=
  er_id x = el_id (er_elementData x) /\
  er_timestamp x = el_timestamp (er_elementData x).

(** The primary key of [whiteboard_elements]. *)
Definition key_ok (tb : Tables) : Prop :=
  NoDup (map er_id (whiteboard_elements tb)).

(** The tables of the server, when the database is open. *)
Definition tables (w : World) : option Tables := DatabaseManager.db (dbManager w).

(** What the snapshot of a room is, after a run of the store: one entry per
    element id, in the order of the timestamps of the stored versions, and
    holding exactly the versions that are the last commit of their id, went
    to this room and were not cleared since. *)
Definition latest_commits_in_order (ops : list StoreOp) (roomId : string)
    (l : list DrawingElement) : Prop :=
  NoDup (map el_id l) /\
  StronglySorted timestamp_order l /\
  forall e, e ∈ l <-> last_commit ops (el_id e) = Some (roomId, e).

(** ** Reasoning about programs *)

(** Every effect of the program satisfies [Q], whatever the state. *)
Definition emits {St A} (Q : Effect -> Prop) (m : Prog St A) : Prop :=
  forall s, Forall Q (trace_of m s).

(** The program returns [a] from [s], leaving [s'] and the trace [tr]. *)
Definition runs {St A} (m : Prog St A) (s : St) (a : A) (s' : St)
    (tr : list Effect) : Prop :=
  m s = (Ok a, s', tr).

(** Nothing but completed statements comes out of [DatabaseManager]. *)
Definition not_sent (e : Effect) : Prop :=
  match e with
  | SqlRun _ => True
  | _ => False
  end.

(** An effect that does not reach [socket]. *)
Definition spares (socket : string) (e : Effect) : Prop :=
  match e with
  | Emit recipients _ => socket ∉ recipients
  | _ => True
  end.

(** An effect that does not reach [socket], unless it is a user list. *)
Definition spares_or_user_list (socket : string) (e : Effect) : Prop :=
  match e with
  | Emit recipients ev =>
      socket ∈ recipients -> exists l, ev = room_users_updated l
  | _ => True
  end.

(** The state does not change under the reading [f], whatever the program
    returns. *)
Definition keeps {St A B} (f : St -> B) (m : Prog St A) : Prop :=
  forall s, f (state_after m s) = f s.

(** The room descriptors of the database. *)
Definition stored_rooms (d : DatabaseManager.t) : option (list RoomRow) :=
  rooms <$> DatabaseManager.db d.

Definition touches_rooms (s : Statement) : bool :=
  match s with
  | InsertRoom _ => true
  | _ => false
  end.

(** ** The worlds the server can be in *)

(** The room ids of a database written by this server are not empty: they
    are [room-...]. *)
Definition well_named (tb : Tables) : Prop :=
  Forall (fun row => room_id row <> "") (rooms tb).

Inductive reachable : World -> Prop :=
  | reach_start stored :
      from_option well_named True stored ->
      reachable (initial_world stored)
  | reach_create w env name isPrivate password permissions :
      reachable w ->
      reachable (serve_create env name isPrivate password permissions w).1
  | reach_handle w env socket ev :
      reachable w ->
      reachable (handle env socket ev w).1.

(** What the session guard depends on: the room descriptors, the users
    given to the connections and the session data. *)
Definition core (w : World)
  : option (list RoomRow) * gmap string User * gmap string SocketData :=
  (rooms <$> tables w, auth_users w, socket_data w).

(** No room gains a socket. *)
Definition narrows {A} (m : Handler A) : Prop :=
  forall w room, members (state_after m w) room ⊆ members w room.

(** The database is open, every stored room and every user given out has
    a name that is not empty, a session that records anything records a
    room and a user, and every socket in a room has such a session. *)
Definition session_invariant (w : World) : Prop :=
  (exists l, rooms <$> tables w = Some l /\
             Forall (fun row => room_id row <> "") l) /\
  (forall s u, auth_users w !! s = Some u -> user_id u <> "") /\
  (forall s d, socket_data w !! s = Some d ->
               truthy (sd_roomId d) = true /\ truthy (sd_userId d) = true) /\
  (forall room s, s ∈ members w room -> is_Some (socket_data w !! s)).

(** ** Sample data *)

Definition e_a : DrawingElement :=
  {| el_id := "a"; el_type := "stroke"; el_payload := "M0,0";
     el_userId := "u1"; el_timestamp := 10 |}.

Definition e_b : DrawingElement :=
  {| el_id := "b"; el_type := "stroke"; el_payload := "M5,5";
     el_userId := "u1"; el_timestamp := 20 |}.

(** An update of [e_a] that carries a later timestamp. *)
Definition e_a2 : DrawingElement :=
  {| el_id := "a"; el_type := "stroke"; el_payload := "M0,0 L9,9";
     el_userId := "u1"; el_timestamp := 30 |}.

(** Two versions of one element, from two users. *)
Definition e_late : DrawingElement :=
  {| el_id := "a"; el_type := "stroke"; el_payload := "late";
     el_userId := "u1"; el_timestamp := 20 |}.

Definition e_early : DrawingElement :=
  {| el_id := "a"; el_type := "stroke"; el_payload := "early";
     el_userId := "u2"; el_timestamp := 10 |}.

Definition public_room : RoomRow :=
  {| room_id := "room-1"; room_name := "Sketches"; room_isPrivate := 0;
     room_password := None; room_permissions := "edit"; room_createdAt := 1000 |}.

Definition private_room : RoomRow :=
  {| room_id := "room-2"; room_name := "Board"; room_isPrivate := 1;
     room_password := Some "hunter2"; room_permissions := "edit";
     room_createdAt := 1001 |}.

Definition two_rooms : Tables :=
  {| rooms := [public_room; private_room]; users := []; room_users := [];
     whiteboard_elements := [] |}.

Definition env0 : Env := {| now := 200; rand_suffix := "k3j9x1q0z"; rand_raw := 4 |}.

Definition ann : User :=
  {| user_id := "user-200-k3j9x1q0z"; user_name := "Ann";
     user_color := "#EF4444"; user_socketId := JsStr "s1" |}.

Definition tb_member : Tables :=
  {| rooms := [public_room]; users := [];
     room_users := [{| ru_roomId := "room-1"; ru_userId := "user-1";
                       ru_joinedAt := 100 |}];
     whiteboard_elements := [] |}.

(** Both rooms hold an element, and Ann has joined the first from socket
    [s1]. *)
Definition drawn : Tables :=
  fold_left after_op [Commit "room-1" e_a; Commit "room-2" e_b] two_rooms.

Definition w_joined : World :=
  (handle env0 "s1" (JoinRoom "room-1" JsUndefined "Ann")
          (initial_world (Some drawn))).1.

Definition drawn_joined : Tables :=
  after_statement drawn
    (InsertOrReplaceRoomUser
       {| ru_roomId := "room-1"; ru_userId := "user-200-k3j9x1q0z";
          ru_joinedAt := 200 |}).

(** Then Bob joins the same room from socket [s2]. *)
Definition env1 : Env := {| now := 300; rand_suffix := "p0o9i8u7y"; rand_raw := 1 |}.

Definition w_two : World :=
  (handle env1 "s2" (JoinRoom "room-1" JsUndefined "Bob") w_joined).1.

Definition drawn_two : Tables :=
  after_statement drawn_joined
    (InsertOrReplaceRoomUser
       {| ru_roomId := "room-1"; ru_userId := "user-300-p0o9i8u7y";
          ru_joinedAt := 300 |}).

(** ** The access check and the session states of the specification *)

(** A password in the words of the specification, the stored one and the
    supplied one alike: a string, or absent. *)
Definition password_of (v : jsopt) : option string :=
  match v with
  | JsStr s => Some s
  | JsUndefined | JsNull => None
  end.

(** The access check in the words of the specification: a public room
    always allows, a private room requires the supplied password to be
    exactly the stored one. *)
Definition claimed_access (row : RoomRow) (password : jsopt) : bool :=
  (room_isPrivate row =? 0)%Z
  || bool_decide (password_of password = room_password row).

(** The session states of the specification. *)
Inductive SessionState : Type :=
  | Disconnected
  | Joined.

(** The session state in the words of the specification: a join that
    succeeds leads to [Joined], a join that fails, a leave and the close of
    the connection lead to [Disconnected]. *)
Definition session_step (st : SessionState) (ev : ClientEvent) (tr : list Effect)
  : SessionState :=
  match ev with
  | JoinRoom _ _ _ => if join_succeeds tr then Joined else Disconnected
  | LeaveRoom | Disconnect => Disconnected
  | _ => st
  end.

(** A private room created without a password, through the creation
    endpoint. *)
Definition w_vault : World :=
  (serve_create env0 "Vault" true JsUndefined "" (initial_world None)).1.

Definition vault_row : RoomRow :=
  {| room_id := "room-200-k3j9x1q0z"; room_name := "Vault"; room_isPrivate := 1;
     room_password := None; room_permissions := "edit"; room_createdAt := 200 |}.

(** Ann and Bob are in the first room; then Ann leaves it. *)
Definition w_left : World := (handle env1 "s1" LeaveRoom w_two).1.

(** ** The rest of the server *)

(** [app.get('/api/rooms/:roomId', ...)].  The body [{success: true, room}]
    is the one of the creation endpoint, [RoomCreated room]. *)
Definition get_api_room (roomId : string) : Handler unit :=
  try_catch
    (let* room := RoomManager.getRoom roomId in
     match room with
     | None => tell (Respond 404 (ApiFailure "Room not found"))
     | Some room => tell (Respond 200 (RoomCreated room))
     end)
    (fun error =>
       let* _ := console_error "Error getting room:" in
       tell (Respond 500 (ApiFailure "Failed to get room"))).

(** One lookup request, served to completion. *)
Definition serve_get (roomId : string) (w : World) : World * list Effect :=
  match get_api_room roomId w with
  | (_, w', tr) => (w', tr)
  end.

(** The ids that [createRoom] and [createUser] generate. *)
Definition new_room_id (env : Env) : string :=
  "room-" +:+ pretty (now env) +:+ "-" +:+ rand_suffix env.

Definition new_user_id (env : Env) : string :=
  "user-" +:+ pretty (now env) +:+ "-" +:+ rand_suffix env.


(** The primary keys of the four tables. *)
Definition member_key (r : RoomUserRow) : string * string :=
  (ru_roomId r, ru_userId r).

Definition keys_ok (tb : Tables) : Prop :=
  NoDup (map room_id (rooms tb)) /\
  NoDup (map ur_id (users tb)) /\
  NoDup (map member_key (room_users tb)) /\
  NoDup (map er_id (whiteboard_elements tb)).

(** The sockets of a room once [socket] is taken out. *)
Definition others (w : World) (room socket : string) : gset string :=
  members w room ∖ {[socket]}.


(** A users table with Ann and Bob, both members of the first room, and a
    membership pair whose user has no row. *)
Definition ann_row : UserRow :=
  {| ur_id := "user-1"; ur_name := "Ann"; ur_color := "#3B82F6";
     ur_socketId := Some "s1"; ur_createdAt := 100 |}.

Definition bob_row : UserRow :=
  {| ur_id := "user-2"; ur_name := "Bob"; ur_color := "#10B981";
     ur_socketId := None; ur_createdAt := 101 |}.

Definition tb_users : Tables :=
  {| rooms := [public_room; private_room];
     users := [ann_row; bob_row];
     room_users := [{| ru_roomId := "room-1"; ru_userId := "user-1"; ru_joinedAt := 110 |};
                    {| ru_roomId := "room-1"; ru_userId := "user-9"; ru_joinedAt := 111 |};
                    {| ru_roomId := "room-2"; ru_userId := "user-2"; ru_joinedAt := 112 |}];
     whiteboard_elements := [element_row "room-1" e_a; element_row "room-2" e_b] |}.

(** [UPDATE users SET socketId = ? WHERE id = ?] on one row. *)
Definition with_socket (socketId userId : string) (x : UserRow) : UserRow :=
  if bool_decide (ur_id x = userId)
  then {| ur_id := ur_id x; ur_name := ur_name x; ur_color := ur_color x;
          ur_socketId := Some socketId; ur_createdAt := ur_createdAt x |}
  else x.

(** The statements of a trace, in the order they completed. *)
Definition statements (tr : list Effect) : list Statement :=
  flat_map (fun e => match e with SqlRun s => [s] | _ => [] end) tr.

(** The tables once a list of completed statements has run on them. *)
Definition replay (l : list Statement) (tb : Tables) : Tables :=
  fold_left after_statement l tb.

(** The database a program leaves is the one it found with the statements
    of its trace run on it: it changes under no other cause. *)
Definition logged {St A} (f : St -> option Tables) (m : Prog St A) : Prop :=
  forall s, f (state_after m s) = replay (statements (trace_of m s)) <$> f s.

(** The world [handleUserLeave] leaves when the database is open: the
    membership pair is deleted, the user is taken off the presence list and
    the socket out of the room. *)
Definition after_leave (socket roomId userId : string) (tb : Tables) (w : World)
  : World :=
  parted socket roomId
    (RoomManager.absent roomId userId
       (set_dbManager (opened (after_statement tb (DeleteRoomUser roomId userId))) w)).

(** The row that [POST /api/rooms] inserts. *)
Definition created_row (env : Env) (name : string) (isPrivate : bool)
    (password : jsopt) (permissions : string) : RoomRow :=
  {| room_id := new_room_id env;
     room_name := name;
     room_isPrivate := if isPrivate then 1 else 0;
     room_password := bind_text (if isPrivate then password else JsUndefined);
     room_permissions := if bool_decide (permissions = "") then "edit" else permissions;
     room_createdAt := now env |}.


(** * Properties *)

(** ** Lists *)

Lemma filter_none {A} (p : A -> bool) (l : list A) :
  (forall x, In x l -> p x = false) -> List.filter p l = [].
Proof.
  induction l as [|x l IH]; cbn [List.filter]; [done|]. intros Hp.
  rewrite (Hp x) by (by left). apply IH. intros y Hy. apply Hp. by right.
Qed.

Lemma filter_all {A} (p : A -> bool) (l : list A) :
  (forall x, In x l -> p x = true) -> List.filter p l = l.
Proof.
  induction l as [|x l IH]; cbn [List.filter]; [done|]. intros Hp.
  rewrite (Hp x) by (by left). f_equal. apply IH. intros y Hy. apply Hp. by right.
Qed.

Lemma NoDup_map_filter {A B} (f : A -> B) (p : A -> bool) (l : list A) :
  NoDup (map f l) -> NoDup (map f (List.filter p l)).
Proof.
  induction l as [|x l IH]; cbn [map List.filter]; [done|].
  intros Hnd. apply NoDup_cons in Hnd as [Hx Hnd].
  destruct (p x); [|by apply IH]. cbn [map]. apply NoDup_cons. split; [|by apply IH].
  intros Hin. apply Hx. apply list_elem_of_In in Hin. apply list_elem_of_In.
  apply in_map_iff in Hin as (y & <- & Hy). apply filter_In in Hy as [Hy _].
  by apply in_map.
Qed.

Lemma filter_key_singleton {A} (f : A -> string) (l : list A) x :
  NoDup (map f l) -> In x l ->
  List.filter (fun y => bool_decide (f y = f x)) l = [x].
Proof.
  induction l as [|y l IH]; cbn [map List.filter]; [intros _ []|].
  intros Hnd. apply NoDup_cons in Hnd as [Hy Hnd]. intros [-> | Hin].
  - rewrite bool_decide_eq_true_2 by done. f_equal.
    apply filter_none. intros z Hz.
    apply bool_decide_eq_false. intros Hfz. apply Hy.
    rewrite <- Hfz. by apply list_elem_of_In, in_map.
  - rewrite bool_decide_eq_false_2; [by apply IH|].
    intros Hfy. apply Hy. rewrite Hfy. by apply list_elem_of_In, in_map.
Qed.

Lemma StronglySorted_map_in {A B} (R : relation A) (R' : relation B)
    (f : A -> B) (l : list A) :
  (forall x y, In x l -> In y l -> R x y -> R' (f x) (f y)) ->
  StronglySorted R l -> StronglySorted R' (map f l).
Proof.
  intros Hf Hs. induction Hs as [|x l Hs IH Hall]; cbn [map]; constructor.
  - apply IH. intros y z Hy Hz. apply Hf; by right.
  - apply Forall_forall. intros y Hy. apply list_elem_of_In in Hy.
    apply in_map_iff in Hy as (z & <- & Hz).
    apply Hf; [by left | by right |].
    rewrite Forall_forall in Hall. by apply Hall, list_elem_of_In.
Qed.

(** ** The element store *)

Lemma store_op_opened tb op :
  store_op op (opened tb)
  = (Ok tt, opened (after_op tb op), [SqlRun (op_statement op)]).
Proof. destruct op; reflexivity. Qed.

(** A run of the store on an open database never throws. *)
Lemma store_ops_opened ops : forall tb,
  store_ops ops (opened tb)
  = (Ok tt, opened (fold_left after_op ops tb),
     map (fun op => SqlRun (op_statement op)) ops).
Proof.
  induction ops as [|op ops IH]; intros tb; [reflexivity|].
  cbn [store_ops]. unfold bind. rewrite store_op_opened, IH. reflexivity.
Qed.

Lemma clearRoomElements_opened tb roomId :
  DatabaseManager.clearRoomElements roomId (opened tb)
  = (Ok tt, opened (after_op tb (Clear roomId)), [SqlRun (DeleteElements roomId)]).
Proof. reflexivity. Qed.

Lemma getRoomElements_opened tb roomId :
  DatabaseManager.getRoomElements roomId (opened tb)
  = (Ok (map er_elementData (select_elements roomId tb)), opened tb, []).
Proof. reflexivity. Qed.

Lemma snapshot_eq ops roomId :
  snapshot ops roomId
  = Ok (map er_elementData
          (select_elements roomId (fold_left after_op ops empty_tables))).
Proof.
  unfold snapshot, value, bind. rewrite store_ops_opened.
  rewrite getRoomElements_opened. reflexivity.
Qed.

Lemma elements_after_commit tb roomId element :
  whiteboard_elements (after_op tb (Commit roomId element))
  = List.filter (fun x => negb (bool_decide (er_id x = el_id element)))
                (whiteboard_elements tb) ++ [element_row roomId element].
Proof. reflexivity. Qed.

Lemma elements_after_clear tb roomId :
  whiteboard_elements (after_op tb (Clear roomId))
  = List.filter (fun x => negb (bool_decide (er_roomId x = roomId)))
                (whiteboard_elements tb).
Proof. reflexivity. Qed.

(** *** Lookup by primary key *)

Section PrimaryKey.
Context (l : list ElementRow) (Hkey : NoDup (map er_id l)).

Lemma key_unique x y : In x l -> In y l -> er_id x = er_id y -> x = y.
Proof using Hkey.
  revert Hkey. induction l as [|z l' IH]; cbn [map]; [intros _ []|].
  intros Hnd. apply NoDup_cons in Hnd as [Hz Hnd].
  intros [-> | Hx] [-> | Hy] Hid; [done| | |by apply IH].
  - exfalso. apply Hz. rewrite Hid. apply list_elem_of_In, in_map, Hy.
  - exfalso. apply Hz. rewrite <- Hid. apply list_elem_of_In, in_map, Hx.
Qed.

Lemma find_some_key id x :
  List.find (fun y => bool_decide (er_id y = id)) l = Some x
  <-> In x l /\ er_id x = id.
Proof using Hkey.
  split.
  - intros Hf. apply find_some in Hf as [Hin Hid].
    by apply bool_decide_eq_true in Hid.
  - intros [Hin Hid].
    destruct (List.find _ l) as [y|] eqn:Hf.
    + apply find_some in Hf as [Hy Hyid]. apply bool_decide_eq_true in Hyid.
      f_equal. apply key_unique; congruence.
    + apply (find_none _ _ Hf) in Hin. apply bool_decide_eq_false in Hin. done.
Qed.
End PrimaryKey.

Lemma find_none_key (l : list ElementRow) id :
  List.find (fun y => bool_decide (er_id y = id)) l = None <->
  forall x, In x l -> er_id x <> id.
Proof.
  split.
  - intros Hf x Hin Hx. apply (find_none _ _ Hf) in Hin.
    now apply bool_decide_eq_false in Hin.
  - intros Hall. destruct (List.find _ l) as [x|] eqn:Hf; [|done].
    apply find_some in Hf as [Hin Hx]. apply bool_decide_eq_true in Hx.
    now apply Hall in Hin.
Qed.

Lemma stored_version_some tb id r e :
  key_ok tb ->
  stored_version id tb = Some (r, e) <->
  exists x, In x (whiteboard_elements tb) /\ er_id x = id /\
            er_roomId x = r /\ er_elementData x = e.
Proof.
  intros Hk. unfold stored_version. split.
  - destruct (List.find _ _) as [x|] eqn:Hf; [|discriminate].
    intros [= <- <-]. apply find_some_key in Hf as [Hin Hid]; [|done].
    by exists x.
  - intros (x & Hin & Hid & <- & <-).
    assert (List.find (fun y => bool_decide (er_id y = id)) (whiteboard_elements tb)
            = Some x) as -> by (by apply find_some_key).
    reflexivity.
Qed.

Lemma stored_version_none tb id :
  stored_version id tb = None <->
  forall x, In x (whiteboard_elements tb) -> er_id x <> id.
Proof.
  unfold stored_version. rewrite <- find_none_key.
  destruct (List.find _ _); cbn; split; congruence.
Qed.

(** *** The invariants of the table, and the simulation *)

Lemma key_ok_after_op tb op : key_ok tb -> key_ok (after_op tb op).
Proof.
  unfold key_ok. intros Hk. destruct op as [roomId element | roomId].
  - rewrite elements_after_commit, map_app. cbn [map element_row er_id].
    apply NoDup_app. split; [by apply NoDup_map_filter|]. split.
    + intros y Hy Hy'. apply list_elem_of_In in Hy.
      apply list_elem_of_singleton in Hy'. subst y.
      apply in_map_iff in Hy as (x & Hid & Hx).
      apply filter_In in Hx as [_ Hx]. apply negb_true_iff in Hx.
      by apply bool_decide_eq_false in Hx.
    + apply NoDup_singleton.
  - rewrite elements_after_clear. by apply NoDup_map_filter.
Qed.

Lemma rows_ok_after_op tb op :
  Forall row_ok (whiteboard_elements tb) ->
  Forall row_ok (whiteboard_elements (after_op tb op)).
Proof.
  intros Hr. destruct op as [roomId element | roomId].
  - rewrite elements_after_commit. apply Forall_app. split.
    + rewrite Forall_forall in Hr |- *. intros x Hx. apply Hr.
      apply list_elem_of_In in Hx. apply list_elem_of_In.
      by apply filter_In in Hx as [Hx _].
    + apply Forall_singleton. by split.
  - rewrite elements_after_clear.
    rewrite Forall_forall in Hr |- *. intros x Hx. apply Hr.
    apply list_elem_of_In in Hx. apply list_elem_of_In.
    by apply filter_In in Hx as [Hx _].
Qed.

(** One statement of the store moves the stored version of every id as
    [last_commit_step] says. *)
Lemma stored_version_after_op tb op id :
  key_ok tb ->
  stored_version id (after_op tb op) = last_commit_step id (stored_version id tb) op.
Proof.
  intros Hk. pose proof (key_ok_after_op tb op Hk) as Hk'.
  destruct op as [roomId element | roomId]; cbn [last_commit_step].
  - case_bool_decide as Hid.
    + apply stored_version_some; [done|]. exists (element_row roomId element).
      rewrite elements_after_commit, in_app_iff. cbn. tauto.
    + destruct (stored_version id tb) as [[r e]|] eqn:Hs.
      * apply stored_version_some in Hs as (x & Hin & Hx & Hr & He); [|done].
        apply stored_version_some; [done|]. exists x.
        rewrite elements_after_commit, in_app_iff, filter_In.
        repeat split; try done. left. split; [done|].
        apply negb_true_iff, bool_decide_eq_false. congruence.
      * apply stored_version_none. intros x.
        rewrite elements_after_commit, in_app_iff, filter_In.
        intros [[Hin _] | [<- | []]]; [|cbn; congruence].
        by eapply stored_version_none.
  - destruct (stored_version id tb) as [[r e]|] eqn:Hs.
    + apply stored_version_some in Hs as (x & Hin & Hx & Hr & He); [|done].
      case_bool_decide as Hroom.
      * apply stored_version_none. intros y.
        rewrite elements_after_clear, filter_In. intros [Hy Hyr] Hyid.
        assert (y = x) as -> by (eapply key_unique; [exact Hk|done|done|congruence]).
        apply negb_true_iff, bool_decide_eq_false in Hyr. congruence.
      * apply stored_version_some; [done|]. exists x.
        rewrite elements_after_clear, filter_In. repeat split; try done.
        apply negb_true_iff, bool_decide_eq_false. congruence.
    + apply stored_version_none. intros x.
      rewrite elements_after_clear, filter_In. intros [Hin _].
      by eapply stored_version_none.
Qed.

Lemma key_ok_run ops : forall tb, key_ok tb -> key_ok (fold_left after_op ops tb).
Proof.
  induction ops as [|op ops IH]; intros tb Hk; [done|].
  cbn [fold_left]. by apply IH, key_ok_after_op.
Qed.

Lemma rows_ok_run ops : forall tb,
  Forall row_ok (whiteboard_elements tb) ->
  Forall row_ok (whiteboard_elements (fold_left after_op ops tb)).
Proof.
  induction ops as [|op ops IH]; intros tb Hk; [done|].
  cbn [fold_left]. by apply IH, rows_ok_after_op.
Qed.

Lemma stored_version_run ops id : forall tb,
  key_ok tb ->
  stored_version id (fold_left after_op ops tb)
  = last_commit_from (stored_version id tb) ops id.
Proof.
  induction ops as [|op ops IH]; intros tb Hk; [reflexivity|].
  cbn [fold_left]. unfold last_commit_from. cbn [fold_left].
  rewrite IH by (by apply key_ok_after_op).
  by rewrite stored_version_after_op.
Qed.

(** *** The snapshot query *)

Lemma select_elements_perm roomId tb :
  Permutation (select_elements roomId tb) (rows_of roomId tb).
Proof. apply merge_sort_Permutation. Qed.

Lemma select_elements_sorted roomId tb :
  StronglySorted timestamp_le (select_elements roomId tb).
Proof. apply StronglySorted_merge_sort; apply _. Qed.

Lemma in_select_elements roomId tb x :
  In x (select_elements roomId tb) <->
  In x (whiteboard_elements tb) /\ er_roomId x = roomId.
Proof.
  rewrite <- !list_elem_of_In, (select_elements_perm roomId tb), !list_elem_of_In.
  unfold rows_of. rewrite filter_In, bool_decide_eq_true. tauto.
Qed.

Lemma snapshot_of_tables tb roomId :
  key_ok tb -> Forall row_ok (whiteboard_elements tb) ->
  let l := map er_elementData (select_elements roomId tb) in
  NoDup (map el_id l) /\
  StronglySorted timestamp_order l /\
  forall e, In e l <-> stored_version (el_id e) tb = Some (roomId, e).
Proof.
  intros Hk Hr l. rewrite Forall_forall in Hr.
  assert (Hrow : forall x, In x (select_elements roomId tb) -> row_ok x).
  { intros x Hx. apply Hr, list_elem_of_In. by apply in_select_elements in Hx as [Hx _]. }
  split; [|split].
  - subst l. rewrite map_map.
    rewrite (map_ext_in _ er_id).
    2:{ intros x Hx. symmetry. by apply Hrow. }
    rewrite (Permutation_map er_id (select_elements_perm roomId tb)).
    by apply NoDup_map_filter.
  - subst l. eapply StronglySorted_map_in; [|apply select_elements_sorted].
    intros x y Hx Hy. unfold timestamp_le, timestamp_order.
    destruct (Hrow x Hx) as [_ <-], (Hrow y Hy) as [_ <-]. done.
  - intros e. subst l. rewrite in_map_iff, stored_version_some by done. split.
    + intros (x & He & Hx). exists x. apply in_select_elements in Hx as [Hin Hroom].
      repeat split; try done. destruct (Hr x) as [-> _]; [by apply list_elem_of_In|].
      by rewrite He.
    + intros (x & Hin & _ & Hroom & He). exists x. split; [done|].
      by apply in_select_elements.
Qed.

(** What a room reads back after a run that started on an empty element
    table. *)
Lemma latest_commits_of_run ops tb roomId :
  whiteboard_elements tb = [] ->
  latest_commits_in_order ops roomId
    (map er_elementData (select_elements roomId (fold_left after_op ops tb))).
Proof.
  intros Hempty.
  assert (Hk : key_ok tb) by (unfold key_ok; rewrite Hempty; apply NoDup_nil_2).
  assert (Hr : Forall row_ok (whiteboard_elements tb)) by (rewrite Hempty; constructor).
  destruct (snapshot_of_tables (fold_left after_op ops tb) roomId)
    as (Hnd & Hs & Hin); [by apply key_ok_run | by apply rows_ok_run |].
  split; [done|]. split; [done|].
  intros e. rewrite list_elem_of_In, Hin, stored_version_run by done.
  unfold last_commit, stored_version. by rewrite Hempty.
Qed.

Lemma rows_after_run ops : forall tb x,
  In x (whiteboard_elements (fold_left after_op ops tb)) ->
  In x (whiteboard_elements tb) \/
  exists roomId element, In (Commit roomId element) ops /\ x = element_row roomId element.
Proof.
  induction ops as [|op ops IH]; intros tb x; cbn [fold_left]; [by left|].
  intros Hx. apply IH in Hx as [Hx | (r & e & Hin & ->)].
  - destruct op as [r e | r].
    + rewrite elements_after_commit, in_app_iff, filter_In in Hx.
      destruct Hx as [[Hx _] | [<- | []]]; [by left|].
      right. exists r, e. split; [by left | done].
    + rewrite elements_after_clear, filter_In in Hx. left. tauto.
  - right. exists r, e. split; [by right | done].
Qed.

Lemma rows_of_after_clear tb roomId other :
  roomId <> other ->
  rows_of other (after_op tb (Clear roomId)) = rows_of other tb.
Proof.
  intros Hne. unfold rows_of. rewrite elements_after_clear.
  induction (whiteboard_elements tb) as [|x l IH]; [done|].
  cbn [List.filter].
  destruct (bool_decide (er_roomId x = roomId)) eqn:Hx; cbn [negb List.filter].
  - apply bool_decide_eq_true in Hx.
    rewrite bool_decide_eq_false_2 by congruence. apply IH.
  - destruct (bool_decide (er_roomId x = other)); [by rewrite IH | apply IH].
Qed.

(** *** Membership *)

Lemma same_member_true roomId userId r :
  same_member roomId userId r = true <-> ru_roomId r = roomId /\ ru_userId r = userId.
Proof.
  unfold same_member. by rewrite andb_true_iff, !bool_decide_eq_true.
Qed.

Lemma is_member_true tb roomId userId :
  is_member tb roomId userId = true <->
  exists r, In r (room_users tb) /\ ru_roomId r = roomId /\ ru_userId r = userId.
Proof.
  unfold is_member. rewrite existsb_exists.
  split; intros (r & Hin & Hr); exists r; (split; [done|]); by apply same_member_true.
Qed.

Lemma addUserToRoom_opened env tb roomId userId :
  DatabaseManager.addUserToRoom env roomId userId (opened tb)
  = (Ok tt,
     opened (with_room_users tb
               (List.filter (fun x => negb (same_member roomId userId x)) (room_users tb)
                ++ [{| ru_roomId := roomId; ru_userId := userId;
                       ru_joinedAt := now env |}])),
     [SqlRun (InsertOrReplaceRoomUser
                {| ru_roomId := roomId; ru_userId := userId; ru_joinedAt := now env |})]).
Proof. reflexivity. Qed.

Lemma removeUserFromRoom_opened tb roomId userId :
  DatabaseManager.removeUserFromRoom roomId userId (opened tb)
  = (Ok tt,
     opened (with_room_users tb
               (List.filter (fun x => negb (same_member roomId userId x)) (room_users tb))),
     [SqlRun (DeleteRoomUser roomId userId)]).
Proof. reflexivity. Qed.

(** ** What programs emit *)

Section Emits.
Context {St : Type} (Q : Effect -> Prop).

Lemma emits_ret {A} (a : A) : emits Q (ret a : Prog St A).
Proof. intros s. constructor. Qed.

Lemma emits_modify (f : St -> St) : emits Q (modify f).
Proof. intros s. constructor. Qed.

Lemma emits_tell e : Q e -> emits Q (tell e : Prog St unit).
Proof. intros He s. by constructor. Qed.

Lemma emits_bind {A B} (m : Prog St A) (k : A -> Prog St B) :
  emits Q m -> (forall a, emits Q (k a)) -> emits Q (bind m k).
Proof.
  intros Hm Hk s. specialize (Hm s). unfold trace_of, bind in *.
  destruct (m s) as [[[a|e] s1] tr1]; [|done].
  specialize (Hk a s1). unfold trace_of in Hk.
  destruct (k a s1) as [[r s2] tr2]. cbn in *. by apply Forall_app.
Qed.

Lemma emits_try_catch {A} (m : Prog St A) (h : string -> Prog St A) :
  emits Q m -> (forall e, emits Q (h e)) -> emits Q (try_catch m h).
Proof.
  intros Hm Hh s. specialize (Hm s). unfold trace_of, try_catch in *.
  destruct (m s) as [[[a|e] s1] tr1]; [done|].
  specialize (Hh e s1). unfold trace_of in Hh.
  destruct (h e s1) as [[r s2] tr2]. cbn in *. by apply Forall_app.
Qed.

Lemma emits_zoom {Sub A} (proj : St -> Sub) (upd : Sub -> St -> St)
    (m : Prog Sub A) :
  emits Q m -> emits Q (zoom proj upd m).
Proof.
  intros Hm s. specialize (Hm (proj s)). unfold trace_of, zoom in *.
  by destruct (m (proj s)) as [[r sub] tr].
Qed.
End Emits.

Lemma emits_weaken {St A} (Q Q' : Effect -> Prop) (m : Prog St A) :
  (forall e, Q e -> Q' e) -> emits Q m -> emits Q' m.
Proof. intros HQ Hm s. eapply Forall_impl; [apply Hm | done]. Qed.

Lemma emits_connection : emits not_sent DatabaseManager.connection.
Proof.
  intros d. unfold trace_of, DatabaseManager.connection.
  destruct (DatabaseManager.db d); constructor.
Qed.

Lemma emits_run s : emits not_sent (DatabaseManager.run s).
Proof.
  intros d. unfold trace_of, DatabaseManager.run.
  destruct (DatabaseManager.db d) as [tb|]; [|constructor].
  destruct (exec s tb); repeat constructor.
Qed.

Lemma emits_db_call {A} (Q : Effect -> Prop) (m : DatabaseManager.M A) :
  (forall e, not_sent e -> Q e) -> emits not_sent m -> emits Q (db_call m).
Proof. intros HQ Hm. apply emits_zoom. by eapply emits_weaken. Qed.

Ltac db_quiet :=
  repeat first
    [ apply emits_connection | apply emits_run | apply emits_ret
    | apply emits_bind; [|intros ?]
    | match goal with |- emits _ (match ?x with _ => _ end) => destruct x end ].

Lemma emits_getRoom roomId : emits not_sent (DatabaseManager.getRoom roomId).
Proof. unfold DatabaseManager.getRoom. db_quiet. Qed.

Lemma emits_addUserToRoom env roomId userId :
  emits not_sent (DatabaseManager.addUserToRoom env roomId userId).
Proof. unfold DatabaseManager.addUserToRoom. db_quiet. Qed.

Lemma emits_removeUserFromRoom roomId userId :
  emits not_sent (DatabaseManager.removeUserFromRoom roomId userId).
Proof. unfold DatabaseManager.removeUserFromRoom. db_quiet. Qed.

Lemma emits_saveElement roomId element :
  emits not_sent (DatabaseManager.saveElement roomId element).
Proof. unfold DatabaseManager.saveElement. db_quiet. Qed.

Lemma emits_getRoomElements roomId :
  emits not_sent (DatabaseManager.getRoomElements roomId).
Proof. unfold DatabaseManager.getRoomElements. db_quiet. Qed.

Lemma emits_clearRoomElements roomId :
  emits not_sent (DatabaseManager.clearRoomElements roomId).
Proof. unfold DatabaseManager.clearRoomElements. db_quiet. Qed.

Lemma spares_user_list socket e : spares socket e -> spares_or_user_list socket e.
Proof. destruct e; cbn; try done. Qed.

Lemma not_sent_spares socket e : not_sent e -> spares socket e.
Proof. by destruct e. Qed.

(** [socket.to(room)] never reaches the socket it is called on. *)
Lemma emits_socket_to_emit socket room ev :
  emits (spares socket) (socket_to_emit socket room ev).
Proof.
  intros w. unfold trace_of, socket_to_emit. cbn. repeat constructor.
  unfold spares. rewrite elem_of_difference, elem_of_singleton. tauto.
Qed.

Lemma emits_io_to_emit_user_list socket room l :
  emits (spares_or_user_list socket) (io_to_emit room (room_users_updated l)).
Proof.
  intros w. unfold trace_of, io_to_emit. cbn. repeat constructor. by exists l.
Qed.

Lemma emits_get_data Q socket : emits Q (get_data socket).
Proof. intros w. constructor. Qed.

Lemma emits_getRoomUsers Q roomId : emits Q (RoomManager.getRoomUsers roomId).
Proof. intros w. constructor. Qed.

Lemma emits_createOrGetUser Q env socketId userName :
  emits Q (AuthManager.createOrGetUser env socketId userName).
Proof.
  intros w. unfold trace_of, AuthManager.createOrGetUser.
  destruct (auth_users w !! socketId); constructor.
Qed.

Create HintDb quiet.
#[local] Hint Resolve emits_getRoom emits_addUserToRoom emits_removeUserFromRoom
  emits_saveElement emits_getRoomElements emits_clearRoomElements
  not_sent_spares : quiet.

Ltac quiet_step :=
  first
    [ apply emits_ret | apply emits_modify | apply emits_get_data
    | apply emits_getRoomUsers | apply emits_createOrGetUser
    | apply emits_socket_to_emit
    | apply emits_tell; exact I
    | apply emits_db_call; [eauto with quiet | eauto with quiet]
    | apply emits_bind; [|intros ?]
    | apply emits_try_catch; [|intros ?]
    | match goal with
      | |- emits _ (if ?c then _ else _) => destruct c
      | |- emits _ (match ?x with _ => _ end) => destruct x
      end ].

Lemma emits_handleUserLeave socket roomId userId :
  emits (spares socket) (handleUserLeave socket roomId userId).
Proof.
  unfold handleUserLeave, RoomManager.removeUserFromRoom, socket_leave, console_error.
  repeat quiet_step.
Qed.

(** Every handler but the join sends to the other sockets only. *)
Lemma emits_session_handlers env socket ev :
  (forall roomId password userName, ev <> JoinRoom roomId password userName) ->
  emits (spares socket) (handler env socket ev).
Proof.
  intros Hev. destruct ev; cbn [handler]; [by edestruct Hev| | | | | | | |].
  all: unfold on_leave_room, on_drawing_start, on_drawing_update, on_drawing_end,
         on_text_added, on_clear_canvas, on_cursor_move, on_disconnect,
         WhiteboardManager.addElement, WhiteboardManager.updateElement,
         WhiteboardManager.clearRoom, socket_leave_all.
  all: repeat first [apply emits_handleUserLeave | quiet_step].
Qed.

(** The join sends to the other sockets, and the user list to the room. *)
Lemma emits_on_join_room env socket roomId password userName :
  emits (spares_or_user_list socket)
        (on_join_room env socket roomId password userName).
Proof.
  unfold on_join_room.
  apply emits_try_catch.
  2:{ intros e. apply (emits_weaken (spares socket)); [apply spares_user_list|].
      unfold console_error, callback. repeat quiet_step. }
  apply emits_bind.
  { apply (emits_weaken (spares socket)); [apply spares_user_list|].
    unfold RoomManager.getRoom. repeat quiet_step. }
  intros [room|].
  2:{ apply emits_tell. exact I. }
  destruct (_ && _); [apply emits_tell; exact I|].
  apply emits_bind; [apply emits_createOrGetUser|]. intros user.
  apply emits_bind; [apply emits_modify|]. intros _.
  apply emits_bind.
  { apply (emits_weaken (spares socket)); [apply spares_user_list|].
    unfold RoomManager.addUserToRoom. repeat quiet_step. }
  intros _.
  apply emits_bind; [apply emits_modify|]. intros _.
  apply emits_bind.
  { apply (emits_weaken (spares socket)); [apply spares_user_list|].
    unfold WhiteboardManager.getRoomElements. repeat quiet_step. }
  intros elements.
  apply emits_bind; [apply emits_tell; exact I|]. intros _.
  apply emits_bind.
  { apply (emits_weaken (spares socket)); [apply spares_user_list|].
    apply emits_socket_to_emit. }
  intros _.
  apply emits_bind; [apply emits_getRoomUsers|]. intros roomUsers.
  apply emits_io_to_emit_user_list.
Qed.

Lemma handle_emits (Q : Effect -> Prop) env socket ev w :
  (forall e, Q (UnhandledRejection e)) ->
  emits Q (handler env socket ev) ->
  Forall Q (handle env socket ev w).2.
Proof.
  intros Hu Hm. specialize (Hm w). unfold trace_of, handle in *.
  destruct (handler env socket ev w) as [[[a|e] w'] tr]; [done|].
  cbn in *. apply Forall_app. split; [done|]. by repeat constructor.
Qed.

(** ** Runs that return *)

Section Runs.
Context {St : Type}.

Lemma runs_modify (f : St -> St) s : runs (modify f) s tt (f s) [].
Proof. reflexivity. Qed.

Lemma runs_tell e (s : St) : runs (tell e) s tt s [e].
Proof. reflexivity. Qed.

Lemma runs_bind {A B} (m : Prog St A) (k : A -> Prog St B) s a s1 tr1 b s2 tr2 :
  runs m s a s1 tr1 -> runs (k a) s1 b s2 tr2 ->
  runs (bind m k) s b s2 (tr1 ++ tr2).
Proof. unfold runs, bind. by intros -> ->. Qed.

Lemma runs_try_catch {A} (m : Prog St A) h s a s' tr :
  runs m s a s' tr -> runs (try_catch m h) s a s' tr.
Proof. unfold runs, try_catch. by intros ->. Qed.
End Runs.

Lemma handle_runs env socket ev w w' tr :
  runs (handler env socket ev) w tt w' tr -> handle env socket ev w = (w', tr).
Proof. unfold runs, handle. by intros ->. Qed.

Lemma dbManager_opened w tb : tables w = Some tb -> dbManager w = opened tb.
Proof. destruct w as [[d] ? ? ? ?]. unfold tables. cbn. by intros ->. Qed.

Lemma set_dbManager_same w : set_dbManager (dbManager w) w = w.
Proof. by destruct w. Qed.

Lemma runs_db_call {A} (m : DatabaseManager.M A) w tb a tb' tr :
  tables w = Some tb ->
  runs m (opened tb) a (opened tb') tr ->
  runs (db_call m) w a (set_dbManager (opened tb') w) tr.
Proof.
  unfold runs, db_call, zoom. intros Hdb Hm.
  by rewrite (dbManager_opened w tb Hdb), Hm.
Qed.

Lemma runs_db_read {A} (m : DatabaseManager.M A) w tb a tr :
  tables w = Some tb ->
  runs m (opened tb) a (opened tb) tr ->
  runs (db_call m) w a w tr.
Proof.
  intros Hdb Hm. pose proof (runs_db_call m w tb a tb tr Hdb Hm) as Hr.
  by rewrite <- (dbManager_opened w tb Hdb), set_dbManager_same in Hr.
Qed.

Lemma runs_store w tb op :
  tables w = Some tb ->
  runs (db_call (store_op op)) w tt (set_dbManager (opened (after_op tb op)) w)
       [SqlRun (op_statement op)].
Proof.
  intros Hdb. eapply runs_db_call; [done|]. unfold runs. apply store_op_opened.
Qed.

Lemma runs_getRoom roomId w tb :
  tables w = Some tb ->
  runs (RoomManager.getRoom roomId) w
       ((fun row => room_of_row row (select_room_users roomId tb))
          <$> select_room roomId tb) w [].
Proof.
  intros Hdb. eapply runs_db_read; [done|].
  unfold runs, DatabaseManager.getRoom, bind. cbn.
  by destruct (select_room roomId tb).
Qed.

Lemma runs_createOrGetUser env socket userName w :
  exists user au,
    runs (AuthManager.createOrGetUser env socket userName) w user
         (set_auth_users au w) [] /\
    ((auth_users w !! socket = Some user /\ au = auth_users w) \/
     (user = AuthManager.new_user env socket userName /\
      au = <[socket := user]> (auth_users w))).
Proof.
  unfold runs, AuthManager.createOrGetUser.
  destruct (auth_users w !! socket) as [u|] eqn:Hu.
  - exists u, (auth_users w). split; [by destruct w | by left].
  - eexists _, _. split; [reflexivity | by right].
Qed.

Lemma truthy_some s : s <> "" -> truthy (Some s) = true.
Proof. intros Hs. cbn. by rewrite bool_decide_eq_false_2. Qed.

(** *** The sockets of a room across the steps of a join *)

Lemma present_frame roomId user w :
  dbManager (RoomManager.present roomId user w) = dbManager w /\
  adapter_rooms (RoomManager.present roomId user w) = adapter_rooms w /\
  socket_data (RoomManager.present roomId user w) = socket_data w /\
  auth_users (RoomManager.present roomId user w) = auth_users w.
Proof. unfold RoomManager.present. by destruct (existsb _ _). Qed.

Lemma members_joined socket room w :
  members (joined socket room w) room = {[socket]} ∪ members w room.
Proof. unfold members at 1, joined. cbn. by rewrite lookup_insert_eq. Qed.

Lemma members_set_socket_data m w room :
  members (set_socket_data m w) room = members w room.
Proof. reflexivity. Qed.

Lemma members_set_dbManager d w room :
  members (set_dbManager d w) room = members w room.
Proof. reflexivity. Qed.

Lemma members_set_auth_users m w room :
  members (set_auth_users m w) room = members w room.
Proof. reflexivity. Qed.

Lemma members_present roomId user w room :
  members (RoomManager.present roomId user w) room = members w room.
Proof. unfold members. by rewrite (proj1 (proj2 (present_frame roomId user w))). Qed.

Ltac members_simpl :=
  rewrite ?members_set_socket_data, ?members_present, ?members_set_dbManager,
          ?members_joined, ?members_set_auth_users.

(** ** The ways a join ends *)

Lemma join_uninitialised env socket roomId password userName w :
  tables w = None ->
  handle env socket (JoinRoom roomId password userName) w
  = (w, [ConsoleError "Error joining room:";
         Callback socket (JoinFailure "Failed to join room")]).
Proof.
  destruct w as [[d] au pr sd ar]. unfold tables. cbn. intros ->. reflexivity.
Qed.

Lemma join_room_not_found env socket roomId password userName w tb :
  tables w = Some tb ->
  select_room roomId tb = None ->
  handle env socket (JoinRoom roomId password userName) w
  = (w, [Callback socket (JoinFailure "Room not found")]).
Proof.
  intros Hdb Hroom. apply handle_runs. cbn [handler]. unfold on_join_room.
  apply runs_try_catch.
  eapply (runs_bind _ _ _ _ _ []); [by apply runs_getRoom|].
  rewrite Hroom. apply runs_tell.
Qed.

Lemma join_wrong_password env socket roomId password userName w tb row :
  tables w = Some tb ->
  select_room roomId tb = Some row ->
  (room_isPrivate row =? 0)%Z = false ->
  read_text (room_password row) <> password ->
  handle env socket (JoinRoom roomId password userName) w
  = (w, [Callback socket (JoinFailure "Invalid password")]).
Proof.
  intros Hdb Hroom Hpriv Hpw. apply handle_runs. cbn [handler]. unfold on_join_room.
  apply runs_try_catch.
  eapply (runs_bind _ _ _ _ _ []); [by apply runs_getRoom|].
  rewrite Hroom. cbn [fmap option_fmap option_map room_of_row r_isPrivate r_password].
  rewrite Hpriv, bool_decide_eq_false_2 by done. apply runs_tell.
Qed.

(** A join that passes the access check: its trace, and the world it
    leaves. *)
Lemma join_admitted env socket roomId password userName w tb row :
  tables w = Some tb ->
  select_room roomId tb = Some row ->
  negb (room_isPrivate row =? 0)%Z
    && negb (bool_decide (read_text (room_password row) = password)) = false ->
  exists w' user roomUsers,
    handle env socket (JoinRoom roomId password userName) w
    = (w',
       [SqlRun (InsertOrReplaceRoomUser
                  {| ru_roomId := roomId; ru_userId := user_id user;
                     ru_joinedAt := now env |});
        Callback socket
          (JoinSuccess (room_of_row row (select_room_users roomId tb)) user
                       (map er_elementData (select_elements roomId tb)));
        Emit (({[socket]} ∪ members w roomId) ∖ {[socket]}) (user_joined user);
        Emit ({[socket]} ∪ members w roomId) (room_users_updated roomUsers)]) /\
    socket_data w'
    = <[socket := {| sd_roomId := Some roomId; sd_userId := Some (user_id user) |}]>
        (socket_data w) /\
    rooms <$> tables w' = rooms <$> tables w /\
    ((auth_users w !! socket = Some user /\ auth_users w' = auth_users w) \/
     (user = AuthManager.new_user env socket userName /\
      auth_users w' = <[socket := user]> (auth_users w))) /\
    adapter_rooms w' = <[roomId := {[socket]} ∪ members w roomId]> (adapter_rooms w).
Proof.
  intros Hdb Hroom Hpw.
  destruct (runs_createOrGetUser env socket userName w) as (user & au & Huser & Hau).
  eexists _, user, _. split; [|split; [|split; [|split]]].
  - apply handle_runs. cbn [handler]. unfold on_join_room.
    apply runs_try_catch.
    eapply (runs_bind _ _ _ _ _ []); [by apply runs_getRoom|].
    rewrite Hroom. cbn [fmap option_fmap option_map room_of_row r_isPrivate r_password].
    rewrite Hpw.
    eapply (runs_bind _ _ _ _ _ []); [exact Huser|].
    eapply (runs_bind _ _ _ _ _ []); [apply runs_modify|].
    eapply (runs_bind _ _ _ _ _ [_] _ _ [_; _; _]).
    { unfold RoomManager.addUserToRoom.
      eapply (runs_bind _ _ _ _ _ [_] _ _ []); [|apply runs_modify].
      eapply runs_db_call; [exact Hdb | reflexivity]. }
    eapply (runs_bind _ _ _ _ _ []); [apply runs_modify|].
    eapply (runs_bind _ _ _ _ _ []).
    { unfold WhiteboardManager.getRoomElements. eapply runs_db_read.
      - unfold tables. cbn [set_socket_data dbManager].
        rewrite (proj1 (present_frame _ _ _)). reflexivity.
      - reflexivity. }
    eapply (runs_bind _ _ _ _ _ [_] _ _ [_; _]); [apply runs_tell|].
    eapply (runs_bind _ _ _ _ _ [_] _ _ [_]).
    { unfold runs, socket_to_emit. members_simpl. reflexivity. }
    eapply (runs_bind _ _ _ _ _ [] _ _ [_]); [reflexivity|].
    unfold runs, io_to_emit. members_simpl. reflexivity.
  - cbn [set_socket_data socket_data].
    by rewrite (proj1 (proj2 (proj2 (present_frame _ _ _)))).
  - unfold tables in *. cbn [set_socket_data dbManager].
    rewrite (proj1 (present_frame _ _ _)). cbn. by rewrite Hdb.
  - cbn [set_socket_data auth_users].
    rewrite (proj2 (proj2 (proj2 (present_frame _ _ _)))). cbn.
    destruct Hau as [[? ->] | [? ->]]; [by left | by right].
  - cbn [set_socket_data adapter_rooms].
    by rewrite (proj1 (proj2 (present_frame _ _ _))).
Qed.

Lemma join_outcomes env socket roomId password userName w :
  let out := handle env socket (JoinRoom roomId password userName) w in
  (exists error, out = (w, [Callback socket (JoinFailure error)])) \/
  (exists error, out = (w, [ConsoleError "Error joining room:";
                            Callback socket (JoinFailure error)])) \/
  (exists w' tb stmt room user roomUsers,
     tables w = Some tb /\
     out = (w', [SqlRun stmt;
                 Callback socket
                   (JoinSuccess room user
                      (map er_elementData (select_elements roomId tb)));
                 Emit (({[socket]} ∪ members w roomId) ∖ {[socket]}) (user_joined user);
                 Emit ({[socket]} ∪ members w roomId) (room_users_updated roomUsers)])).
Proof.
  intros out. subst out.
  destruct (tables w) as [tb|] eqn:Hdb.
  2:{ right. left. eexists. by apply join_uninitialised. }
  destruct (select_room roomId tb) as [row|] eqn:Hroom.
  2:{ left. eexists. by eapply join_room_not_found. }
  destruct (negb (room_isPrivate row =? 0)%Z
            && negb (bool_decide (read_text (room_password row) = password))) eqn:Hpw.
  - left. eexists. apply andb_true_iff in Hpw as [Hpriv Hne].
    apply negb_true_iff in Hpriv. apply negb_true_iff, bool_decide_eq_false in Hne.
    by eapply join_wrong_password.
  - right. right.
    destruct (join_admitted env socket roomId password userName w tb row Hdb Hroom Hpw)
      as (w' & user & roomUsers & Hout & _).
    by eexists _, tb, _, _, _, _.
Qed.

(** The elements of a success acknowledgment are the snapshot query of the
    room. *)
Lemma join_ack_elements env socket roomId password userName w tb room user l :
  tables w = Some tb ->
  Callback socket (JoinSuccess room user l)
    ∈ (handle env socket (JoinRoom roomId password userName) w).2 ->
  l = map er_elementData (select_elements roomId tb).
Proof.
  intros Hdb Hin.
  destruct (join_outcomes env socket roomId password userName w)
    as [(e & Hout) | [(e & Hout) | (w' & tb' & stmt & room' & user' & l' & Hdb' & Hout)]];
    rewrite Hout in Hin; cbn [snd] in Hin; apply list_elem_of_In in Hin; cbn in Hin.
  - destruct Hin as [Hin | []]. discriminate.
  - destruct Hin as [Hin | [Hin | []]]; discriminate.
  - rewrite Hdb in Hdb'. injection Hdb' as <-.
    destruct Hin as [Hin | [Hin | [Hin | [Hin | []]]]]; try discriminate.
    by injection Hin as _ _ <-.
Qed.

(** ** What programs leave alone *)

Section Keeps.
Context {St B : Type} (f : St -> B).

Lemma keeps_still {A} (m : Prog St A) :
  (forall s, state_after m s = s) -> keeps f m.
Proof. intros Hm s. by rewrite Hm. Qed.

Lemma keeps_modify (g : St -> St) : (forall s, f (g s) = f s) -> keeps f (modify g).
Proof. intros Hg s. apply Hg. Qed.

Lemma keeps_bind {A C} (m : Prog St A) (k : A -> Prog St C) :
  keeps f m -> (forall a, keeps f (k a)) -> keeps f (bind m k).
Proof.
  intros Hm Hk s. specialize (Hm s). unfold state_after, bind in *.
  destruct (m s) as [[[a|e] s1] tr1]; [|done].
  specialize (Hk a s1). unfold state_after in Hk.
  destruct (k a s1) as [[r s2] tr2]. cbn in *. congruence.
Qed.

Lemma keeps_try_catch {A} (m : Prog St A) (h : string -> Prog St A) :
  keeps f m -> (forall e, keeps f (h e)) -> keeps f (try_catch m h).
Proof.
  intros Hm Hh s. specialize (Hm s). unfold state_after, try_catch in *.
  destruct (m s) as [[[a|e] s1] tr1]; [done|].
  specialize (Hh e s1). unfold state_after in Hh.
  destruct (h e s1) as [[r s2] tr2]. cbn in *. congruence.
Qed.
End Keeps.

Lemma keeps_connection : keeps stored_rooms DatabaseManager.connection.
Proof.
  intros d. unfold state_after, DatabaseManager.connection.
  by destruct (DatabaseManager.db d).
Qed.

Lemma keeps_run s :
  touches_rooms s = false -> keeps stored_rooms (DatabaseManager.run s).
Proof.
  intros Hs d. unfold state_after, DatabaseManager.run, stored_rooms.
  destruct (DatabaseManager.db d) as [tb|] eqn:Hdb; [|cbn; by rewrite Hdb].
  destruct s; try discriminate Hs; cbn;
    try match goal with |- context [existsb ?p ?l] => destruct (existsb p l) end;
    cbn; rewrite ?Hdb; reflexivity.
Qed.

Lemma keeps_db_call {A} (m : DatabaseManager.M A) :
  keeps stored_rooms m -> keeps core (db_call m).
Proof.
  intros Hm w. specialize (Hm (dbManager w)).
  unfold state_after, db_call, zoom, core, tables, stored_rooms in *.
  destruct (m (dbManager w)) as [[r d] tr]. cbn in *. by rewrite Hm.
Qed.

Ltac db_still :=
  repeat first
    [ apply keeps_connection | apply keeps_run; reflexivity
    | apply keeps_still; reflexivity
    | apply keeps_bind; [|intros ?]
    | match goal with |- keeps _ (match ?x with _ => _ end) => destruct x end ].

Lemma keeps_getRoom roomId : keeps stored_rooms (DatabaseManager.getRoom roomId).
Proof. unfold DatabaseManager.getRoom. db_still. Qed.

Lemma keeps_addUserToRoom env roomId userId :
  keeps stored_rooms (DatabaseManager.addUserToRoom env roomId userId).
Proof. unfold DatabaseManager.addUserToRoom. db_still. Qed.

Lemma keeps_removeUserFromRoom roomId userId :
  keeps stored_rooms (DatabaseManager.removeUserFromRoom roomId userId).
Proof. unfold DatabaseManager.removeUserFromRoom. db_still. Qed.

Lemma keeps_saveElement roomId element :
  keeps stored_rooms (DatabaseManager.saveElement roomId element).
Proof. unfold DatabaseManager.saveElement. db_still. Qed.

Lemma keeps_getRoomElements roomId :
  keeps stored_rooms (DatabaseManager.getRoomElements roomId).
Proof. unfold DatabaseManager.getRoomElements. db_still. Qed.

Lemma keeps_clearRoomElements roomId :
  keeps stored_rooms (DatabaseManager.clearRoomElements roomId).
Proof. unfold DatabaseManager.clearRoomElements. db_still. Qed.

Lemma core_present roomId user w : core (RoomManager.present roomId user w) = core w.
Proof. unfold RoomManager.present. by destruct (existsb _ _). Qed.

Lemma core_absent roomId userId w : core (RoomManager.absent roomId userId w) = core w.
Proof. unfold RoomManager.absent. by destruct (presence w !! roomId). Qed.

Lemma core_joined socket room w : core (joined socket room w) = core w.
Proof. reflexivity. Qed.

Lemma core_parted socket room w : core (parted socket room w) = core w.
Proof. unfold parted. by destruct (adapter_rooms w !! room). Qed.

Create HintDb still.
#[local] Hint Resolve keeps_getRoom keeps_addUserToRoom keeps_removeUserFromRoom
  keeps_saveElement keeps_getRoomElements keeps_clearRoomElements
  core_present core_absent core_joined core_parted : still.

Ltac still_step :=
  first
    [ apply keeps_still; reflexivity
    | apply keeps_modify; solve [eauto with still | reflexivity]
    | apply keeps_db_call; solve [eauto with still]
    | apply keeps_bind; [|intros ?]
    | apply keeps_try_catch; [|intros ?]
    | match goal with
      | |- keeps _ (if ?c then _ else _) => destruct c
      | |- keeps _ (match ?x with _ => _ end) => destruct x
      end ].

Lemma keeps_handleUserLeave socket roomId userId :
  keeps core (handleUserLeave socket roomId userId).
Proof.
  unfold handleUserLeave, RoomManager.removeUserFromRoom, socket_leave, console_error.
  repeat still_step.
Qed.

(** No handler but the join touches what the session guard depends on. *)
Lemma keeps_session_handlers env socket ev :
  (forall roomId password userName, ev <> JoinRoom roomId password userName) ->
  keeps core (handler env socket ev).
Proof.
  intros Hev. destruct ev; cbn [handler]; [by edestruct Hev| | | | | | | |].
  all: unfold on_leave_room, on_drawing_start, on_drawing_update, on_drawing_end,
         on_text_added, on_clear_canvas, on_cursor_move, on_disconnect,
         WhiteboardManager.addElement, WhiteboardManager.updateElement,
         WhiteboardManager.clearRoom, socket_leave_all.
  all: repeat first [apply keeps_handleUserLeave | still_step].
Qed.

(** ** What handlers do to the rooms of the adapter *)

Lemma narrows_still {A} (m : Handler A) :
  (forall w, state_after m w = w) -> narrows m.
Proof. intros Hm w room. by rewrite Hm. Qed.

Lemma narrows_modify (g : World -> World) :
  (forall w room, members (g w) room ⊆ members w room) -> narrows (modify g).
Proof. intros Hg w room. apply Hg. Qed.

Lemma narrows_bind {A C} (m : Handler A) (k : A -> Handler C) :
  narrows m -> (forall a, narrows (k a)) -> narrows (bind m k).
Proof.
  intros Hm Hk w room. specialize (Hm w room). unfold state_after, bind in *.
  destruct (m w) as [[[a|e] w1] tr1]; [|done].
  specialize (Hk a w1 room). unfold state_after in Hk.
  destruct (k a w1) as [[r w2] tr2]. cbn in *. by etrans.
Qed.

Lemma narrows_try_catch {A} (m : Handler A) (h : string -> Handler A) :
  narrows m -> (forall e, narrows (h e)) -> narrows (try_catch m h).
Proof.
  intros Hm Hh w room. specialize (Hm w room). unfold state_after, try_catch in *.
  destruct (m w) as [[[a|e] w1] tr1]; [done|].
  specialize (Hh e w1 room). unfold state_after in Hh.
  destruct (h e w1) as [[r w2] tr2]. cbn in *. by etrans.
Qed.

Lemma narrows_db_call {A} (m : DatabaseManager.M A) : narrows (db_call m).
Proof.
  intros w room. unfold state_after, db_call, zoom.
  by destruct (m (dbManager w)) as [[r d] tr].
Qed.

Lemma without_subseteq socket m m' : without socket m = Some m' -> m' ⊆ m.
Proof.
  unfold without. case_decide; [done|]. intros [= <-].
  intros x. rewrite elem_of_difference. tauto.
Qed.

Lemma members_parted socket room w room' :
  members (parted socket room w) room' ⊆ members w room'.
Proof.
  unfold parted. destruct (adapter_rooms w !! room) as [m|] eqn:Hm; [|done].
  unfold members. cbn [set_adapter_rooms adapter_rooms].
  destruct (decide (room = room')) as [<-|Hne].
  - destruct (without socket m) as [m'|] eqn:Hw.
    + rewrite lookup_insert_eq, Hm. cbn. by eapply without_subseteq.
    + rewrite lookup_delete_eq. cbn. apply empty_subseteq.
  - destruct (without socket m) as [m'|] eqn:Hw.
    + by rewrite lookup_insert_ne.
    + by rewrite lookup_delete_ne.
Qed.

Lemma members_left_all socket w room :
  members (set_adapter_rooms (omap (without socket) (adapter_rooms w)) w) room
  ⊆ members w room.
Proof.
  unfold members. cbn [set_adapter_rooms adapter_rooms]. rewrite lookup_omap.
  destruct (adapter_rooms w !! room) as [m|]; cbn; [|done].
  destruct (without socket m) as [m'|] eqn:Hw; cbn.
  - by eapply without_subseteq.
  - apply empty_subseteq.
Qed.

Lemma members_absent roomId userId w room :
  members (RoomManager.absent roomId userId w) room ⊆ members w room.
Proof. unfold RoomManager.absent. by destruct (presence w !! roomId). Qed.

Ltac narrow_step :=
  first
    [ apply narrows_still; reflexivity
    | apply narrows_db_call
    | apply narrows_modify;
      first [ apply members_parted | apply members_left_all | apply members_absent ]
    | apply narrows_bind; [|intros ?]
    | apply narrows_try_catch; [|intros ?]
    | match goal with
      | |- narrows (if ?c then _ else _) => destruct c
      | |- narrows (match ?x with _ => _ end) => destruct x
      end ].

Lemma narrows_handleUserLeave socket roomId userId :
  narrows (handleUserLeave socket roomId userId).
Proof.
  unfold handleUserLeave, RoomManager.removeUserFromRoom, socket_leave, console_error.
  repeat narrow_step.
Qed.

(** No handler but the join puts a socket in a room. *)
Lemma narrows_session_handlers env socket ev :
  (forall roomId password userName, ev <> JoinRoom roomId password userName) ->
  narrows (handler env socket ev).
Proof.
  intros Hev. destruct ev; cbn [handler]; [by edestruct Hev| | | | | | | |].
  all: unfold on_leave_room, on_drawing_start, on_drawing_update, on_drawing_end,
         on_text_added, on_clear_canvas, on_cursor_move, on_disconnect,
         WhiteboardManager.addElement, WhiteboardManager.updateElement,
         WhiteboardManager.clearRoom, socket_leave_all.
  all: repeat first [apply narrows_handleUserLeave | narrow_step].
Qed.

(** ** The session invariant *)

Lemma invariant_of_core w w' :
  core w' = core w ->
  (forall room, members w' room ⊆ members w room) ->
  session_invariant w -> session_invariant w'.
Proof.
  unfold core. intros [= Hr Ha Hs] Hm (Hrooms & Husers & Hdata & Hmem).
  unfold session_invariant. rewrite Hr, Ha, Hs.
  split; [done|]. split; [done|]. split; [done|].
  intros room s Hin. eapply Hmem. by apply Hm.
Qed.

Lemma new_user_named env socket userName :
  user_id (AuthManager.new_user env socket userName) <> "".
Proof. discriminate. Qed.

Lemma select_room_in roomId tb row :
  select_room roomId tb = Some row -> In row (rooms tb) /\ room_id row = roomId.
Proof.
  unfold select_room. intros Hf. apply find_some in Hf as [Hin Hf].
  by apply bool_decide_eq_true in Hf.
Qed.

Lemma invariant_join env socket roomId password userName w :
  session_invariant w ->
  session_invariant (handle env socket (JoinRoom roomId password userName) w).1.
Proof.
  intros Hinv.
  destruct (tables w) as [tb|] eqn:Hdb.
  2:{ by rewrite join_uninitialised. }
  destruct (select_room roomId tb) as [row|] eqn:Hroom.
  2:{ by erewrite join_room_not_found. }
  destruct (negb (room_isPrivate row =? 0)%Z
            && negb (bool_decide (read_text (room_password row) = password))) eqn:Hpw.
  { apply andb_true_iff in Hpw as [Hpriv Hne].
    apply negb_true_iff in Hpriv. apply negb_true_iff, bool_decide_eq_false in Hne.
    by erewrite join_wrong_password. }
  destruct (join_admitted env socket roomId password userName w tb row Hdb Hroom Hpw)
    as (w' & user & roomUsers & -> & Hsd & Hrooms & Hau & Har).
  destruct Hinv as ((l & Hl & Hnamed) & Husers & Hdata & Hmem). cbn [fst].
  assert (Huser : user_id user <> "").
  { destruct Hau as [[Hu _] | [-> _]]; [by eapply Husers | apply new_user_named]. }
  assert (Hrid : roomId <> "").
  { apply select_room_in in Hroom as [Hin <-].
    rewrite Hdb in Hl. injection Hl as <-.
    rewrite Forall_forall in Hnamed. by apply Hnamed, list_elem_of_In. }
  split; [|split; [|split]].
  - exists l. by rewrite Hrooms.
  - intros s u. destruct Hau as [[_ ->] | [-> ->]]; [apply Husers|].
    destruct (decide (socket = s)) as [->|Hne].
    + rewrite lookup_insert_eq. intros [= <-]. apply new_user_named.
    + rewrite lookup_insert_ne by done. apply Husers.
  - intros s d. rewrite Hsd.
    destruct (decide (socket = s)) as [->|Hne].
    + rewrite lookup_insert_eq. intros [= <-]. cbn [sd_roomId sd_userId].
      split; by apply truthy_some.
    + rewrite lookup_insert_ne by done. apply Hdata.
  - intros room s. unfold members at 1. rewrite Har, Hsd.
    destruct (decide (socket = s)) as [->|Hne];
      [by rewrite lookup_insert_eq | rewrite (lookup_insert_ne _ socket s) by done].
    destruct (decide (roomId = room)) as [->|Hroom'].
    + rewrite lookup_insert_eq. cbn. rewrite elem_of_union, elem_of_singleton.
      intros [? | Hin]; [done | by eapply Hmem].
    + rewrite lookup_insert_ne by done. apply Hmem.
Qed.

Lemma invariant_handle env socket ev w :
  session_invariant w -> session_invariant (handle env socket ev w).1.
Proof.
  intros Hinv.
  assert (Hcase : (exists roomId password userName,
                     ev = JoinRoom roomId password userName) \/
                  (forall roomId password userName,
                     ev <> JoinRoom roomId password userName)).
  { destruct ev; [left; eauto | right; discriminate ..]. }
  destruct Hcase as [(roomId & password & userName & ->) | Hev].
  - by apply invariant_join.
  - pose proof (keeps_session_handlers env socket ev Hev w) as Hk.
    pose proof (narrows_session_handlers env socket ev Hev w) as Hn.
    unfold state_after in Hk, Hn. unfold handle.
    destruct (handler env socket ev w) as [[[a|e] w'] tr];
      by apply (invariant_of_core w).
Qed.

Lemma invariant_create env name isPrivate password permissions w :
  session_invariant w ->
  session_invariant (serve_create env name isPrivate password permissions w).1.
Proof.
  intros ((l & Hl & Hnamed) & Husers & Hdata & Hmem).
  destruct w as [[[tb|]] au pr sd ar]; [|discriminate Hl].
  cbn in Hl. injection Hl as <-.
  unfold serve_create, post_api_rooms, try_catch, bind, RoomManager.createRoom,
    db_call, zoom, DatabaseManager.createRoom, bind, DatabaseManager.connection,
    DatabaseManager.run.
  cbn [dbManager DatabaseManager.db exec].
  destruct (existsb _ (rooms tb)); cbn.
  - split; [|done]. by exists (rooms tb).
  - split; [|done]. eexists. split; [reflexivity|].
    apply Forall_app. split; [done|]. apply Forall_singleton. discriminate.
Qed.

Lemma invariant_start stored :
  from_option well_named True stored -> session_invariant (initial_world stored).
Proof.
  intros Hs. split; [|split; [|split]].
  - destruct stored as [tb|]; cbn; eexists; (split; [reflexivity|]).
    + exact Hs.
    + constructor.
  - intros s u. unfold initial_world. cbn [auth_users]. by rewrite lookup_empty.
  - intros s d. unfold initial_world. cbn [socket_data]. by rewrite lookup_empty.
  - intros room s. unfold members, initial_world. cbn [adapter_rooms].
    rewrite lookup_empty. cbn. by rewrite elem_of_empty.
Qed.

Lemma reachable_invariant w : reachable w -> session_invariant w.
Proof.
  induction 1 as [stored Hs | w env name isPrivate password permissions _ IH
                  | w env socket ev _ IH].
  - by apply invariant_start.
  - by apply invariant_create.
  - by apply invariant_handle.
Qed.

(** In a reachable world a session records a room exactly when it records
    a user. *)
Lemma session_data_paired w socket :
  reachable w ->
  truthy (sd_roomId (data_of w socket)) = truthy (sd_userId (data_of w socket)).
Proof.
  intros Hr. destruct (reachable_invariant w Hr) as (_ & _ & Hdata & _).
  unfold data_of. destruct (socket_data w !! socket) as [d|] eqn:Hd; [|reflexivity].
  cbn. by destruct (Hdata socket d Hd) as [-> ->].
Qed.

(** In a reachable world every socket in a room has a joined session. *)
Lemma members_have_sessions w room socket :
  reachable w -> socket ∈ members w room ->
  truthy (sd_roomId (data_of w socket)) && truthy (sd_userId (data_of w socket))
  = true.
Proof.
  intros Hr Hin. destruct (reachable_invariant w Hr) as (_ & _ & Hdata & Hmem).
  destruct (Hmem room socket Hin) as [d Hd]. unfold data_of. rewrite Hd. cbn.
  by destruct (Hdata socket d Hd) as [-> ->].
Qed.

(** * The claims *)

(** C1, as the code has it.  The snapshot of a room, read from the store
    or returned in the acknowledgment of a successful join, has no two
    entries with one id, is in the order of the timestamps stored with
    the elements, and holds exactly the latest committed version of every
    id whose latest commit went to this room and was not followed by a
    clear of the room.  The stored timestamp is the one of the latest
    version: it is not the timestamp the element was created with. *)
Theorem join_snapshot_is_latest_commits ops roomId :
  (exists l, snapshot ops roomId = Ok l /\ latest_commits_in_order ops roomId l) /\
  (forall env socket password userName w tb room user l,
     whiteboard_elements tb = [] ->
     tables w = Some (fold_left after_op ops tb) ->
     Callback socket (JoinSuccess room user l)
       ∈ (handle env socket (JoinRoom roomId password userName) w).2 ->
     latest_commits_in_order ops roomId l).
Proof.
  split.
  - eexists. split; [apply snapshot_eq|]. by apply latest_commits_of_run.
  - intros env socket password userName w tb room user l Hempty Hdb Hack.
    rewrite (join_ack_elements _ _ _ _ _ _ _ _ _ _ Hdb Hack).
    by apply latest_commits_of_run.
Qed.

Lemma join_snapshot_is_latest_commits_witness :
  latest_commits_in_order [Commit "room-1" e_a; Commit "room-2" e_b] "room-1" [e_a].
Proof.
  apply (proj2 (join_snapshot_is_latest_commits
                  [Commit "room-1" e_a; Commit "room-2" e_b] "room-1")
               env0 "s1" JsUndefined "Ann" (initial_world (Some drawn)) two_rooms
               (room_of_row public_room []) ann [e_a]).
  - reflexivity.
  - reflexivity.
  - apply list_elem_of_In. vm_compute. right. left. reflexivity.
Defined.

(** C1 as stated fails: an update that carries a new timestamp moves its
    element in the snapshot; and an element id committed to another room
    afterwards leaves the snapshot of the first, the id being the key of
    the whole table. *)
Lemma snapshot_order_counterexample :
  let ops := [Commit "R" e_a; Commit "R" e_b; Commit "R" e_a2] in
  let moved := [Commit "R" e_a; Commit "Q" e_a2] in
  snapshot (take 2 ops) "R" = Ok [e_a; e_b] /\
  snapshot ops "R" = Ok [e_b; e_a2] /\
  claimed_snapshot ops "R" = [e_a2; e_b] /\
  snapshot ops "R" <> Ok (claimed_snapshot ops "R") /\
  snapshot moved "R" = Ok [] /\
  claimed_snapshot moved "R" = [e_a].
Proof. vm_compute. repeat split; congruence. Qed.

(** C2, as the code has it.  Of two writes of one element id to one room,
    the one applied last is what the room reads back under that id, whole;
    the other is gone.  The timestamps play no part. *)
Theorem last_applied_write_wins ops roomId e1 e2 :
  el_id e1 = el_id e2 ->
  exists l,
    snapshot (ops ++ [Commit roomId e1; Commit roomId e2]) roomId = Ok l /\
    List.filter (fun e => bool_decide (el_id e = el_id e2)) l = [e2] /\
    (e1 <> e2 -> e1 ∉ l).
Proof.
  intros Hid. set (run := ops ++ [Commit roomId e1; Commit roomId e2]).
  eexists. split; [apply snapshot_eq|].
  destruct (latest_commits_of_run run empty_tables roomId eq_refl)
    as (Hnd & _ & Hin).
  assert (Hlast : last_commit run (el_id e2) = Some (roomId, e2)).
  { unfold run, last_commit, last_commit_from. rewrite fold_left_app.
    cbn [fold_left last_commit_step].
    by rewrite (bool_decide_eq_true_2 (el_id e2 = el_id e2)). }
  split.
  - apply filter_key_singleton; [done|]. by apply list_elem_of_In, Hin.
  - intros Hne He1. apply Hin in He1. rewrite Hid, Hlast in He1. congruence.
Qed.

Lemma last_applied_write_wins_witness :
  el_id e_late = el_id e_early /\
  exists l,
    snapshot ([] ++ [Commit "R" e_late; Commit "R" e_early]) "R" = Ok l /\
    List.filter (fun e => bool_decide (el_id e = el_id e_early)) l = [e_early] /\
    (e_late <> e_early -> e_late ∉ l).
Proof.
  split; [reflexivity|].
  apply (last_applied_write_wins [] "R" e_late e_early). reflexivity.
Defined.

(** C2 as stated fails: when the write with the later timestamp is applied
    first, the earlier-stamped write replaces it. *)
Lemma later_timestamp_loses_counterexample :
  el_id e_early = el_id e_late /\
  (el_timestamp e_early < el_timestamp e_late)%Z /\
  snapshot [Commit "R" e_late; Commit "R" e_early] "R" = Ok [e_early] /\
  snapshot [Commit "R" e_early; Commit "R" e_late] "R" = Ok [e_late].
Proof. vm_compute. repeat split. Qed.

(** C3, as the code has it.  An event emitted while a client event is
    handled reaches the socket that sent the client event in one case
    only: the [room-users-updated] list of a join, which goes to the whole
    room; and after a successful join that list does reach the joining
    socket. *)
Theorem only_the_user_list_of_a_join_reaches_the_sender env socket ev w :
  (forall recipients sev,
     Emit recipients sev ∈ (handle env socket ev w).2 -> socket ∈ recipients ->
     (exists roomId password userName, ev = JoinRoom roomId password userName) /\
     (exists l, sev = room_users_updated l)) /\
  (forall roomId password userName,
     ev = JoinRoom roomId password userName ->
     join_succeeds (handle env socket ev w).2 = true ->
     exists recipients l,
       Emit recipients (room_users_updated l) ∈ (handle env socket ev w).2 /\
       socket ∈ recipients).
Proof.
  split.
  - intros recipients sev Hin Hs.
    assert (Hcase : (exists roomId password userName,
                       ev = JoinRoom roomId password userName) \/
                    (forall roomId password userName,
                       ev <> JoinRoom roomId password userName)).
    { destruct ev; [left; eauto | right; discriminate ..]. }
    destruct Hcase as [Hj|Hj].
    + split; [done|]. destruct Hj as (roomId & password & userName & ->).
      pose proof (handle_emits (spares_or_user_list socket) env socket
                    (JoinRoom roomId password userName) w (fun _ => I)
                    (emits_on_join_room env socket roomId password userName)) as Hall.
      rewrite Forall_forall in Hall. by apply (Hall _ Hin).
    + exfalso.
      pose proof (handle_emits (spares socket) env socket ev w (fun _ => I)) as Hall.
      rewrite Forall_forall in Hall.
      apply (Hall (emits_session_handlers env socket ev Hj) _ Hin Hs).
  - intros roomId password userName -> Hok.
    destruct (join_outcomes env socket roomId password userName w)
      as [(e & Hout) | [(e & Hout) | (w' & tb & stmt & room & user & l & _ & Hout)]];
      rewrite Hout in Hok |- *; cbn in Hok; try discriminate.
    eexists _, l. cbn [snd]. split.
    + apply list_elem_of_In. cbn. tauto.
    + apply elem_of_union_l, elem_of_singleton. reflexivity.
Qed.

Lemma only_the_user_list_of_a_join_reaches_the_sender_witness :
  exists recipients l,
    Emit recipients (room_users_updated l)
      ∈ (handle env0 "s1" (JoinRoom "room-1" JsUndefined "Ann")
                (initial_world (Some two_rooms))).2 /\
    "s1" ∈ recipients.
Proof.
  apply (proj2 (only_the_user_list_of_a_join_reaches_the_sender env0 "s1"
                  (JoinRoom "room-1" JsUndefined "Ann")
                  (initial_world (Some two_rooms)))
               "room-1" JsUndefined "Ann" eq_refl).
  reflexivity.
Defined.

(** C3 as stated fails: the user list sent after a successful join goes to
    the joining socket too. *)
Lemma sender_receives_user_list_counterexample :
  (handle env0 "s1" (JoinRoom "room-1" JsUndefined "Ann")
          (initial_world (Some two_rooms))).2
  = [SqlRun (InsertOrReplaceRoomUser
               {| ru_roomId := "room-1"; ru_userId := "user-200-k3j9x1q0z";
                  ru_joinedAt := 200 |});
     Callback "s1" (JoinSuccess (room_of_row public_room []) ann []);
     Emit ∅ (user_joined ann);
     Emit {["s1"]} (room_users_updated [ann])] /\
  "s1" ∈ ({["s1"]} : gset string).
Proof.
  split; [vm_compute; reflexivity | apply elem_of_singleton; reflexivity].
Qed.

(** C4.  A join to a room id that the store does not hold answers the
    requesting socket with "Room not found" and does nothing else: the
    world is the same afterwards (no user, no membership pair, no session
    data) and nothing is emitted. *)
Theorem join_unknown_room_is_refused env socket roomId password userName w tb :
  tables w = Some tb ->
  select_room roomId tb = None ->
  handle env socket (JoinRoom roomId password userName) w
  = (w, [Callback socket (JoinFailure "Room not found")]).
Proof. apply join_room_not_found. Qed.

Lemma join_unknown_room_is_refused_witness :
  handle env0 "s1" (JoinRoom "room-9" JsUndefined "Ann") (initial_world (Some two_rooms))
  = (initial_world (Some two_rooms), [Callback "s1" (JoinFailure "Room not found")]).
Proof.
  apply (join_unknown_room_is_refused env0 "s1" "room-9" JsUndefined "Ann"
           (initial_world (Some two_rooms)) two_rooms); reflexivity.
Defined.

(** C5, as the code has it.  A join to a stored private room succeeds
    exactly when the value supplied is strictly equal ([===]) to the
    password as it is read back from the store: for a room stored with a
    password, when that very string is supplied; for a room stored without
    one, which reads back as [null], when [null] is supplied, and not when
    the password is absent ([undefined]).  A join to a stored public room
    succeeds whatever is supplied. *)
Theorem join_access_check env socket roomId password userName w tb row :
  tables w = Some tb ->
  select_room roomId tb = Some row ->
  let tr := (handle env socket (JoinRoom roomId password userName) w).2 in
  (room_isPrivate row <> 0%Z ->
   (join_succeeds tr = true <-> password = read_text (room_password row)) /\
   (forall stored, room_password row = Some stored ->
                   (join_succeeds tr = true <-> password = JsStr stored)) /\
   (room_password row = None ->
    (join_succeeds tr = true <-> password = JsNull))) /\
  (room_isPrivate row = 0%Z -> join_succeeds tr = true).
Proof.
  intros Hdb Hroom tr. subst tr.
  cut ((room_isPrivate row <> 0%Z ->
        (join_succeeds (handle env socket (JoinRoom roomId password userName) w).2
         = true <-> password = read_text (room_password row))) /\
       (room_isPrivate row = 0%Z ->
        join_succeeds (handle env socket (JoinRoom roomId password userName) w).2
        = true)).
  { intros [Hpriv Hpub]. split; [|exact Hpub]. intros Hp. specialize (Hpriv Hp).
    split; [exact Hpriv|]. split.
    - intros stored Hs. by rewrite Hs in Hpriv.
    - intros Hs. by rewrite Hs in Hpriv. }
  assert (Hin : forall pw,
    negb (room_isPrivate row =? 0)%Z
      && negb (bool_decide (read_text (room_password row) = pw)) = false ->
    join_succeeds (handle env socket (JoinRoom roomId pw userName) w).2 = true).
  { intros pw Hpw.
    destruct (join_admitted env socket roomId pw userName w tb row Hdb Hroom Hpw)
      as (w' & user & roomUsers & -> & _). reflexivity. }
  split.
  - intros Hpriv. apply Z.eqb_neq in Hpriv. split.
    + intros Hok. destruct (decide (read_text (room_password row) = password))
        as [Heq|Hne]; [done|].
      rewrite (join_wrong_password env socket roomId password userName w tb row)
        in Hok by done. discriminate.
    + intros ->. apply Hin. rewrite bool_decide_eq_true_2 by done.
      apply andb_false_r.
  - intros Hpub. apply Hin. by rewrite Hpub.
Qed.

Lemma join_access_check_witness :
  let w := initial_world (Some two_rooms) in
  (join_succeeds (handle env0 "s1" (JoinRoom "room-2" (JsStr "hunter2") "Ann") w).2 = true
   <-> JsStr "hunter2" = read_text (room_password private_room)) /\
  join_succeeds (handle env0 "s1" (JoinRoom "room-1" JsUndefined "Ann") w).2 = true.
Proof.
  split.
  - refine (proj1 (proj1 (join_access_check env0 "s1" "room-2" (JsStr "hunter2")
                             "Ann" (initial_world (Some two_rooms)) two_rooms
                             private_room eq_refl eq_refl) _)).
    discriminate.
  - apply (proj2 (join_access_check env0 "s1" "room-1" JsUndefined "Ann"
                    (initial_world (Some two_rooms)) two_rooms public_room
                    eq_refl eq_refl)).
    reflexivity.
Defined.

(** C5 as stated fails: a private room created without a password has no
    stored password, and a join that supplies none is refused; only an
    explicit [null] is let in. *)
Lemma absent_password_is_refused_counterexample :
  (select_room "room-200-k3j9x1q0z" <$> tables w_vault) = Some (Some vault_row) /\
  room_isPrivate vault_row <> 0%Z /\
  password_of JsUndefined = room_password vault_row /\
  claimed_access vault_row JsUndefined = true /\
  handle env1 "s1" (JoinRoom "room-200-k3j9x1q0z" JsUndefined "Ann") w_vault
  = (w_vault, [Callback "s1" (JoinFailure "Invalid password")]) /\
  join_succeeds
    (handle env1 "s1" (JoinRoom "room-200-k3j9x1q0z" JsUndefined "Ann") w_vault).2
  = false /\
  join_succeeds
    (handle env1 "s1" (JoinRoom "room-200-k3j9x1q0z" JsNull "Ann") w_vault).2
  = true.
Proof.
  split; [vm_compute; reflexivity|]. split; [discriminate|].
  split; [reflexivity|]. split; [reflexivity|].
  split; [vm_compute; reflexivity|]. split; vm_compute; reflexivity.
Qed.

(** Read [socket.data] and pass the guard of a joined session. *)
Ltac past_guard :=
  eapply (runs_bind _ _ _ _ _ [] _ _ [_; _]); [reflexivity|];
  match goal with
  | Hdata : data_of _ _ = _, Htr : truthy (Some _) = true |- _ =>
      rewrite Hdata; cbn [sd_roomId sd_userId str default];
      rewrite ?Htr
  end;
  repeat match goal with
         | Htu : truthy (Some _) = true |- _ => rewrite Htu
         end;
  cbn [negb orb].

(** C6.  A mutation event from a joined socket first runs its statement on
    the store, and only then emits its broadcast; the broadcast goes to
    the sockets that are in the room of the session (those that joined it
    and have not left), the sender excepted; in a world the server can
    reach each of them has a joined session. *)
Theorem mutation_is_stored_then_broadcast env socket w tb roomId userId :
  tables w = Some tb ->
  data_of w socket = {| sd_roomId := Some roomId; sd_userId := Some userId |} ->
  roomId <> "" -> userId <> "" ->
  let peers := members w roomId ∖ {[socket]} in
  let stored op := set_dbManager (opened (after_op tb op)) w in
  (forall element,
     handle env socket (DrawingStart element) w
     = (stored (Commit roomId element),
        [SqlRun (InsertOrReplaceElement (element_row roomId element));
         Emit peers (drawing_start element userId)])) /\
  (forall element,
     handle env socket (DrawingUpdate element) w
     = (stored (Commit roomId element),
        [SqlRun (InsertOrReplaceElement (element_row roomId element));
         Emit peers (drawing_update element userId)])) /\
  (forall element,
     handle env socket (DrawingEnd element) w
     = (stored (Commit roomId element),
        [SqlRun (InsertOrReplaceElement (element_row roomId element));
         Emit peers (drawing_end element userId)])) /\
  (forall element,
     handle env socket (TextAdded element) w
     = (stored (Commit roomId element),
        [SqlRun (InsertOrReplaceElement (element_row roomId element));
         Emit peers (text_added element userId)])) /\
  handle env socket ClearCanvas w
  = (stored (Clear roomId), [SqlRun (DeleteElements roomId); Emit peers canvas_cleared]) /\
  (socket ∉ peers) /\ (peers ⊆ members w roomId) /\
  (reachable w ->
   forall s, s ∈ peers ->
     truthy (sd_roomId (data_of w s)) && truthy (sd_userId (data_of w s)) = true).
Proof.
  intros Hdb Hdata Hroom Huser peers stored.
  pose proof (truthy_some roomId Hroom) as Htr.
  pose proof (truthy_some userId Huser) as Htu.
  assert (Hgo : forall (ev : ServerEvent) (op : StoreOp),
    runs (bind (db_call (store_op op))
               (fun _ => socket_to_emit socket roomId ev))
         w tt (stored op) [SqlRun (op_statement op); Emit peers ev]).
  { intros ev op.
    eapply (runs_bind _ _ _ _ _ [_] _ _ [_]); [by apply runs_store|].
    reflexivity. }
  split; [|split; [|split; [|split; [|split; [|split; [|split]]]]]];
    try (intros element; apply handle_runs; cbn [handler]).
  - unfold on_drawing_start. past_guard.
    apply (Hgo (drawing_start element userId) (Commit roomId element)).
  - unfold on_drawing_update. past_guard.
    apply (Hgo (drawing_update element userId) (Commit roomId element)).
  - unfold on_drawing_end. past_guard.
    apply (Hgo (drawing_end element userId) (Commit roomId element)).
  - unfold on_text_added. past_guard.
    apply (Hgo (text_added element userId) (Commit roomId element)).
  - apply handle_runs. cbn [handler]. unfold on_clear_canvas. past_guard.
    apply (Hgo canvas_cleared (Clear roomId)).
  - unfold peers. rewrite elem_of_difference, elem_of_singleton. tauto.
  - unfold peers. intros x. rewrite elem_of_difference. tauto.
  - intros Hr s Hs. apply (members_have_sessions w roomId s Hr).
    unfold peers in Hs. apply elem_of_difference in Hs. tauto.
Qed.

Lemma mutation_is_stored_then_broadcast_witness :
  members w_two "room-1" ∖ {["s1"]} = {["s2"]} /\
  handle env0 "s1" (DrawingUpdate e_a2) w_two
  = (set_dbManager (opened (after_op drawn_two (Commit "room-1" e_a2))) w_two,
     [SqlRun (InsertOrReplaceElement (element_row "room-1" e_a2));
      Emit (members w_two "room-1" ∖ {["s1"]})
           (drawing_update e_a2 "user-200-k3j9x1q0z")]).
Proof.
  split; [vm_compute; reflexivity|].
  apply (mutation_is_stored_then_broadcast env0 "s1" w_two drawn_two
           "room-1" "user-200-k3j9x1q0z");
    [vm_compute; reflexivity | vm_compute; reflexivity | discriminate | discriminate].
Defined.

(** The guards: with no room recorded every session event returns at
    once; with no user recorded every one but [clear-canvas], whose guard
    reads the room alone. *)
Lemma guard_drops env socket ev w :
  session_event ev = true ->
  (truthy (sd_roomId (data_of w socket)) = false ->
   handle env socket ev w = (w, [])) /\
  (truthy (sd_userId (data_of w socket)) = false -> ev <> ClearCanvas ->
   handle env socket ev w = (w, [])).
Proof.
  intros Hev. split.
  - intros Hroom.
    destruct ev; try discriminate Hev; unfold handle; cbn [handler];
      unfold on_drawing_start, on_drawing_update, on_drawing_end, on_text_added,
             on_clear_canvas, on_cursor_move, bind, get_data;
      rewrite Hroom; reflexivity.
  - intros Huser Hclear.
    destruct ev; try discriminate Hev; try done; unfold handle; cbn [handler];
      unfold on_drawing_start, on_drawing_update, on_drawing_end, on_text_added,
             on_cursor_move, bind, get_data;
      rewrite Huser, orb_true_r; reflexivity.
Qed.

(** C7, as the code has it.  In every world the server can reach, an
    event that only a joined session may submit, arriving on a socket whose
    data does not record both a room and a user, changes nothing and sends
    nothing: no statement runs, nothing is emitted, no error goes back.
    What the data records is written by a join and by nothing else: no
    other event, [leave-room] and [disconnect] included, changes the data
    of any socket, so a socket that has left its room is not among the
    sockets whose events are dropped. *)
Theorem events_outside_a_session_are_dropped env socket ev w :
  reachable w ->
  (session_event ev = true ->
   truthy (sd_roomId (data_of w socket)) && truthy (sd_userId (data_of w socket))
   = false ->
   handle env socket ev w = (w, [])) /\
  ((forall roomId password userName, ev <> JoinRoom roomId password userName) ->
   socket_data (handle env socket ev w).1 = socket_data w).
Proof.
  intros Hr. split.
  - intros Hev Hout.
    rewrite <- (session_data_paired w socket Hr), andb_diag in Hout.
    by apply (proj1 (guard_drops env socket ev w Hev)).
  - intros Hev. pose proof (keeps_session_handlers env socket ev Hev w) as Hk.
    unfold state_after, core in Hk. unfold handle.
    destruct (handler env socket ev w) as [[[a|e] w'] tr]; cbn [fst snd] in *;
      by injection Hk.
Qed.

Lemma events_outside_a_session_are_dropped_witness :
  handle env0 "s3" (DrawingStart e_b) w_two = (w_two, []) /\
  socket_data (handle env1 "s1" LeaveRoom w_two).1 = socket_data w_two.
Proof.
  assert (Hr : reachable w_two).
  { apply reach_handle, reach_handle, reach_start. repeat constructor; discriminate. }
  split.
  - apply (proj1 (events_outside_a_session_are_dropped env0 "s3" (DrawingStart e_b)
                    w_two Hr)).
    + reflexivity.
    + vm_compute. reflexivity.
  - apply (proj2 (events_outside_a_session_are_dropped env1 "s1" LeaveRoom w_two Hr)).
    discriminate.
Defined.

(** C7 as stated fails: by the state machine of the specification a
    session that has left its room is [Disconnected], and yet its drawing
    event is stored and sent to the room it left. *)
Lemma left_session_still_draws_counterexample :
  let joining :=
    handle env0 "s1" (JoinRoom "room-1" JsUndefined "Ann")
           (initial_world (Some drawn)) in
  let leaving := handle env1 "s1" LeaveRoom w_two in
  session_step Disconnected (JoinRoom "room-1" JsUndefined "Ann") joining.2 = Joined /\
  session_step Joined LeaveRoom leaving.2 = Disconnected /\
  leaving.1 = w_left /\
  members w_left "room-1" = {["s2"]} /\
  data_of w_left "s1"
  = {| sd_roomId := Some "room-1"; sd_userId := Some "user-200-k3j9x1q0z" |} /\
  (handle env1 "s1" (DrawingStart e_late) w_left).2
  = [SqlRun (InsertOrReplaceElement (element_row "room-1" e_late));
     Emit {["s2"]} (drawing_start e_late "user-200-k3j9x1q0z")] /\
  handle env1 "s1" (DrawingStart e_late) w_left <> (w_left, []).
Proof.
  assert (Htr : (handle env1 "s1" (DrawingStart e_late) w_left).2
                = [SqlRun (InsertOrReplaceElement (element_row "room-1" e_late));
                   Emit {["s2"]} (drawing_start e_late "user-200-k3j9x1q0z")])
    by (vm_compute; reflexivity).
  split; [vm_compute; reflexivity|]. split; [reflexivity|].
  split; [reflexivity|]. split; [vm_compute; reflexivity|].
  split; [vm_compute; reflexivity|]. split; [exact Htr|].
  intros Heq. rewrite Heq in Htr. discriminate Htr.
Qed.

(** C8.  Adding a pair that [room_users] already holds leaves the
    membership relation as it was (the row is written again, with a new
    [joinedAt]) and touches no other table; removing a pair that is not
    there leaves the tables as they were.  Neither throws. *)
Theorem membership_add_remove_idempotent env tb roomId userId :
  (is_member tb roomId userId = true ->
   exists tb',
     DatabaseManager.addUserToRoom env roomId userId (opened tb)
     = (Ok tt, opened tb',
        [SqlRun (InsertOrReplaceRoomUser
                   {| ru_roomId := roomId; ru_userId := userId;
                      ru_joinedAt := now env |})]) /\
     (forall r u, is_member tb' r u = is_member tb r u) /\
     rooms tb' = rooms tb /\ users tb' = users tb /\
     whiteboard_elements tb' = whiteboard_elements tb) /\
  (is_member tb roomId userId = false ->
   DatabaseManager.removeUserFromRoom roomId userId (opened tb)
   = (Ok tt, opened tb, [SqlRun (DeleteRoomUser roomId userId)])).
Proof.
  split.
  - intros Hm. eexists. split; [apply addUserToRoom_opened|].
    split; [|done]. intros r u. apply eq_iff_eq_true.
    rewrite !is_member_true. cbn [with_room_users room_users]. split.
    + intros (x & Hx & Hr & Hu). rewrite in_app_iff, filter_In in Hx.
      destruct Hx as [[Hx _] | [<- | []]]; [by exists x|].
      cbn in Hr, Hu. subst r u. by apply is_member_true.
    + intros (x & Hx & Hr & Hu).
      destruct (same_member roomId userId x) eqn:Hs.
      * apply same_member_true in Hs as [Hr' Hu'].
        eexists. rewrite in_app_iff. split; [right; by left|]. cbn. split; congruence.
      * exists x. rewrite in_app_iff, filter_In, Hs. tauto.
  - intros Hm. rewrite removeUserFromRoom_opened. do 2 f_equal.
    rewrite filter_all; [by destruct tb|].
    intros x Hx. apply negb_true_iff.
    destruct (same_member roomId userId x) eqn:Hs; [|done].
    apply same_member_true in Hs as [Hr Hu].
    assert (is_member tb roomId userId = true) by (apply is_member_true; by exists x).
    congruence.
Qed.

Lemma membership_add_remove_idempotent_witness :
  (exists tb',
     DatabaseManager.addUserToRoom env0 "room-1" "user-1" (opened tb_member)
     = (Ok tt, opened tb',
        [SqlRun (InsertOrReplaceRoomUser
                   {| ru_roomId := "room-1"; ru_userId := "user-1";
                      ru_joinedAt := now env0 |})]) /\
     (forall r u, is_member tb' r u = is_member tb_member r u) /\
     rooms tb' = rooms tb_member /\ users tb' = users tb_member /\
     whiteboard_elements tb' = whiteboard_elements tb_member) /\
  DatabaseManager.removeUserFromRoom "room-1" "user-2" (opened tb_member)
  = (Ok tt, opened tb_member, [SqlRun (DeleteRoomUser "room-1" "user-2")]).
Proof.
  split.
  - apply (proj1 (membership_add_remove_idempotent env0 tb_member "room-1" "user-1")).
    reflexivity.
  - apply (proj2 (membership_add_remove_idempotent env0 tb_member "room-1" "user-2")).
    reflexivity.
Defined.

(** C9.  Whatever the tables held, the snapshot of a room read right after
    its clear is empty, and every element in a later snapshot of the room
    was committed to it by an operation that came after the clear. *)
Theorem cleared_room_stays_clear tb roomId :
  value (let* _ := DatabaseManager.clearRoomElements roomId in
         DatabaseManager.getRoomElements roomId) (opened tb) = Ok [] /\
  forall ops, exists l,
    value (let* _ := DatabaseManager.clearRoomElements roomId in
           let* _ := store_ops ops in
           DatabaseManager.getRoomElements roomId) (opened tb) = Ok l /\
    forall e, e ∈ l -> Commit roomId e ∈ ops.
Proof.
  assert (Hrun : forall ops,
    value (let* _ := DatabaseManager.clearRoomElements roomId in
           let* _ := store_ops ops in
           DatabaseManager.getRoomElements roomId) (opened tb)
    = Ok (map er_elementData
            (select_elements roomId
               (fold_left after_op ops (after_op tb (Clear roomId)))))).
  { intros ops. unfold value, bind.
    rewrite clearRoomElements_opened, store_ops_opened, getRoomElements_opened.
    reflexivity. }
  assert (Hfrom : forall ops e,
    In e (map er_elementData
            (select_elements roomId
               (fold_left after_op ops (after_op tb (Clear roomId))))) ->
    In (Commit roomId e) ops).
  { intros ops e He. apply in_map_iff in He as (x & <- & Hx).
    apply in_select_elements in Hx as [Hx Hroom].
    apply rows_after_run in Hx as [Hx | (r & el & Hin & ->)].
    - rewrite elements_after_clear, filter_In in Hx. destruct Hx as [_ Hx].
      apply negb_true_iff, bool_decide_eq_false in Hx. done.
    - cbn in Hroom. by subst r. }
  split.
  - unfold value, bind.
    rewrite clearRoomElements_opened, getRoomElements_opened. cbn [fst].
    f_equal. destruct (map er_elementData _) as [|e l] eqn:Hl; [done|].
    exfalso. apply (Hfrom [] e). cbn [fold_left]. rewrite Hl. by left.
  - intros ops. eexists. split; [apply Hrun|].
    intros e He. apply list_elem_of_In. apply Hfrom. by apply list_elem_of_In.
Qed.

(** C10.  A [clear-canvas] on a room leaves alone everything but the
    elements of that room: the rows and the snapshot of every other room,
    the room descriptors, the users, the membership pairs, and the state
    the server keeps in memory. *)
Theorem clear_canvas_frame env socket w roomId other :
  sd_roomId (data_of w socket) = Some roomId ->
  roomId <> other ->
  let w' := (handle env socket ClearCanvas w).1 in
  rows_of other <$> tables w' = rows_of other <$> tables w /\
  select_elements other <$> tables w' = select_elements other <$> tables w /\
  rooms <$> tables w' = rooms <$> tables w /\
  users <$> tables w' = users <$> tables w /\
  room_users <$> tables w' = room_users <$> tables w /\
  auth_users w' = auth_users w /\
  presence w' = presence w /\
  socket_data w' = socket_data w /\
  adapter_rooms w' = adapter_rooms w.
Proof.
  intros Hdata Hne w'. subst w'.
  destruct w as [[[tb|]] au pr sd ar].
  - unfold handle, tables. cbn [handler]. unfold on_clear_canvas, bind, get_data.
    rewrite Hdata. cbn [sd_roomId str default].
    destruct (truthy (Some roomId)); cbn; [|done].
    repeat split. { f_equal. by apply (rows_of_after_clear tb). }
    unfold select_elements. f_equal. f_equal. by apply (rows_of_after_clear tb).
  - unfold handle, tables. cbn [handler]. unfold on_clear_canvas, bind, get_data.
    rewrite Hdata. cbn [sd_roomId str default].
    destruct (truthy (Some roomId)); cbn; done.
Qed.

Lemma clear_canvas_frame_witness :
  let w' := (handle env0 "s1" ClearCanvas w_two).1 in
  rows_of "room-1" <$> tables w_two = Some [element_row "room-1" e_a] /\
  rows_of "room-1" <$> tables w' = Some [] /\
  rows_of "room-2" <$> tables w' = rows_of "room-2" <$> tables w_two.
Proof.
  split; [vm_compute; reflexivity|]. split; [vm_compute; reflexivity|].
  apply (clear_canvas_frame env0 "s1" w_two "room-1" "room-2");
    [vm_compute; reflexivity | discriminate].
Defined.

(** * Further properties *)

(** ** DatabaseManager *)


Lemma existsb_find {A} (p : A -> bool) (l : list A) :
  existsb p l = false <-> List.find p l = None.
Proof.
  induction l as [|x l IH]; cbn; [done|]. destruct (p x); cbn; [|done].
  split; discriminate.
Qed.

Lemma find_app_none {A} (p : A -> bool) (l l' : list A) :
  List.find p l = None -> List.find p (l ++ l') = List.find p l'.
Proof.
  induction l as [|x l IH]; cbn; [done|]. destruct (p x); [discriminate | done].
Qed.

Lemma find_app_some {A} (p : A -> bool) (l l' : list A) x :
  List.find p l = Some x -> List.find p (l ++ l') = Some x.
Proof.
  induction l as [|y l IH]; cbn; [discriminate|]. destruct (p y); done.
Qed.

Lemma createRoom_fresh env data tb :
  select_room (new_room_id env) tb = None ->
  DatabaseManager.createRoom env data (opened tb)
  = (Ok {| r_id := new_room_id env;
           r_name := crd_name data;
           r_isPrivate := crd_isPrivate data;
           r_password := crd_password data;
           r_permissions := crd_permissions data;
           r_createdAt := now env;
           r_users := [] |},
     opened (after_statement tb
               (InsertRoom {| room_id := new_room_id env;
                              room_name := crd_name data;
                              room_isPrivate := if crd_isPrivate data then 1 else 0;
                              room_password := bind_text (crd_password data);
                              room_permissions := crd_permissions data;
                              room_createdAt := now env |})),
     [SqlRun (InsertRoom {| room_id := new_room_id env;
                            room_name := crd_name data;
                            room_isPrivate := if crd_isPrivate data then 1 else 0;
                            room_password := bind_text (crd_password data);
                            room_permissions := crd_permissions data;
                            room_createdAt := now env |})]).
Proof.
  intros Hfresh. apply existsb_find in Hfresh.
  unfold DatabaseManager.createRoom, bind, DatabaseManager.connection,
    DatabaseManager.run, after_statement, opened.
  cbn [DatabaseManager.db exec room_id]. fold (new_room_id env).
  rewrite Hfresh. reflexivity.
Qed.


Lemma after_insert_room tb row :
  select_room (room_id row) tb = None ->
  after_statement tb (InsertRoom row)
  = {| rooms := rooms tb ++ [row]; users := users tb; room_users := room_users tb;
       whiteboard_elements := whiteboard_elements tb |}.
Proof.
  intros Hfresh. apply existsb_find in Hfresh.
  unfold after_statement. cbn [exec]. by rewrite Hfresh.
Qed.

Lemma getRoom_value roomId tb :
  value (DatabaseManager.getRoom roomId) (opened tb)
  = Ok ((fun row => room_of_row row (select_room_users roomId tb))
          <$> select_room roomId tb).
Proof.
  unfold value, DatabaseManager.getRoom, bind. cbn.
  by destruct (select_room roomId tb).
Qed.



Lemma find_none_iff {A} (p : A -> bool) (l : list A) :
  List.find p l = None <-> forall x, In x l -> p x = false.
Proof.
  split; [apply find_none|]. intros Hall.
  destruct (List.find p l) as [x|] eqn:Hf; [|done].
  apply find_some in Hf as [Hin Hp]. rewrite (Hall x Hin) in Hp. discriminate.
Qed.

(** X3.  The four reading methods run no statement and leave the database
    as it was; a lookup that finds nothing does not throw: [getRoom] and
    [getUser] return nothing exactly when no row has the id, and
    [getRoomUsers] and [getRoomElements] return the empty list for a room
    without membership rows, without element rows. *)
Theorem lookups_read_only_and_miss_quietly tb roomId userId :
  (DatabaseManager.getRoom roomId (opened tb)).1.2 = opened tb /\
  (DatabaseManager.getRoom roomId (opened tb)).2 = [] /\
  DatabaseManager.getUser userId (opened tb)
  = (Ok (user_of_row <$> select_user userId tb), opened tb, []) /\
  DatabaseManager.getRoomUsers roomId (opened tb)
  = (Ok (map user_of_row (select_room_users roomId tb)), opened tb, []) /\
  DatabaseManager.getRoomElements roomId (opened tb)
  = (Ok (map er_elementData (select_elements roomId tb)), opened tb, []) /\
  (value (DatabaseManager.getRoom roomId) (opened tb) = Ok None
   <-> forall row, In row (rooms tb) -> room_id row <> roomId) /\
  (value (DatabaseManager.getUser userId) (opened tb) = Ok None
   <-> forall row, In row (users tb) -> ur_id row <> userId) /\
  ((forall r, In r (room_users tb) -> ru_roomId r <> roomId) ->
   value (DatabaseManager.getRoomUsers roomId) (opened tb) = Ok []) /\
  (value (DatabaseManager.getRoomElements roomId) (opened tb) = Ok []
   <-> forall x, In x (whiteboard_elements tb) -> er_roomId x <> roomId).
Proof.
  split; [|split; [|split; [|split; [|split; [|split; [|split; [|split]]]]]]].
  - unfold DatabaseManager.getRoom, bind. cbn. by destruct (select_room roomId tb).
  - unfold DatabaseManager.getRoom, bind. cbn. by destruct (select_room roomId tb).
  - reflexivity.
  - reflexivity.
  - reflexivity.
  - rewrite getRoom_value. unfold select_room.
    destruct (List.find _ (rooms tb)) as [row|] eqn:Hf; cbn.
    + split; [discriminate|]. intros Hall. apply find_some in Hf as [Hin Hid].
      apply bool_decide_eq_true in Hid. by apply Hall in Hin.
    + split; [|done]. intros _ row Hin. apply (find_none _ _ Hf) in Hin.
      by apply bool_decide_eq_false in Hin.
  - unfold value. cbn. unfold select_user.
    destruct (List.find _ (users tb)) as [row|] eqn:Hf; cbn.
    + split; [discriminate|]. intros Hall. apply find_some in Hf as [Hin Hid].
      apply bool_decide_eq_true in Hid. by apply Hall in Hin.
    + split; [|done]. intros _ row Hin. apply (find_none _ _ Hf) in Hin.
      by apply bool_decide_eq_false in Hin.
  - intros Hall. unfold value. cbn. f_equal. unfold select_room_users.
    induction (room_users tb) as [|r l IH]; [done|]. cbn [flat_map].
    rewrite bool_decide_eq_false_2 by (apply Hall; by left).
    apply IH. intros r' Hr'. apply Hall. by right.
  - unfold value. cbn. split.
    + intros [= Hnil] x Hin Hroom. apply map_eq_nil in Hnil.
      assert (Hx : In x (select_elements roomId tb)).
      { by apply in_select_elements. }
      rewrite Hnil in Hx. destruct Hx.
    + intros Hall. f_equal.
      destruct (select_elements roomId tb) as [|x l] eqn:Hs; [done|].
      assert (Hx : In x (select_elements roomId tb)) by (rewrite Hs; by left).
      apply in_select_elements in Hx as [Hin Hroom]. by apply Hall in Hin.
Qed.

Lemma palette_colour n : In (nth (n mod length DatabaseManager.colors)
                                 DatabaseManager.colors "") DatabaseManager.colors.
Proof. apply nth_In. apply Nat.mod_upper_bound. discriminate. Qed.

Lemma after_insert_user tb row :
  select_user (ur_id row) tb = None ->
  after_statement tb (InsertUser row)
  = {| rooms := rooms tb; users := users tb ++ [row]; room_users := room_users tb;
       whiteboard_elements := whiteboard_elements tb |}.
Proof.
  intros Hfresh. apply existsb_find in Hfresh.
  unfold after_statement. cbn [exec]. by rewrite Hfresh.
Qed.

(** X4.  [createUser] on an open database: when no user has the generated
    id, the user returned has that id, the name and the socket id given
    and a colour of the palette, [getUser] of the id returns that very
    user, and the lookup of every other id is as before.  When a user has
    the id already, the insert throws the constraint error and the tables
    are as they were. *)
Theorem createUser_then_getUser env socketId name tb :
  (select_user (new_user_id env) tb = None ->
   exists user tb' stmt,
     DatabaseManager.createUser env socketId name (opened tb)
     = (Ok user, opened tb', [SqlRun stmt]) /\
     user_id user = new_user_id env /\
     user_name user = name /\
     user_socketId user = JsStr socketId /\
     In (user_color user) DatabaseManager.colors /\
     value (DatabaseManager.getUser (user_id user)) (opened tb') = Ok (Some user) /\
     (forall other, other <> user_id user ->
        value (DatabaseManager.getUser other) (opened tb')
        = value (DatabaseManager.getUser other) (opened tb))) /\
  (is_Some (select_user (new_user_id env) tb) ->
   DatabaseManager.createUser env socketId name (opened tb)
   = (Throw "SQLITE_CONSTRAINT: UNIQUE constraint failed: users.id", opened tb, [])).
Proof.
  split.
  - intros Hfresh. pose proof Hfresh as Hex. apply existsb_find in Hex.
    eexists _, _, _. split.
    { unfold DatabaseManager.createUser, bind, DatabaseManager.connection,
        DatabaseManager.run, opened.
      cbn [DatabaseManager.db exec ur_id]. fold (new_user_id env).
      rewrite Hex. reflexivity. }
    cbn [user_id user_name user_socketId user_color].
    split; [done|]. split; [done|]. split; [done|]. split; [apply palette_colour|].
    unfold value. cbn [DatabaseManager.getUser]. unfold bind. cbn.
    unfold select_user. cbn [users]. split.
    + rewrite find_app_none by done. cbn [List.find ur_id].
      by rewrite bool_decide_eq_true_2.
    + intros other Hne.
      destruct (List.find _ (users tb)) as [row|] eqn:Hf.
      * by erewrite find_app_some.
      * rewrite find_app_none by done. cbn [List.find ur_id].
        by rewrite bool_decide_eq_false_2.
  - intros [row Hrow].
    assert (Hex : existsb (fun x => bool_decide (ur_id x = new_user_id env)) (users tb)
                  = true).
    { destruct (existsb _ _) eqn:He; [done|].
      apply existsb_find in He. unfold select_user in Hrow. congruence. }
    unfold DatabaseManager.createUser, bind, DatabaseManager.connection,
      DatabaseManager.run, opened.
    cbn [DatabaseManager.db exec ur_id]. fold (new_user_id env).
    rewrite Hex. reflexivity.
Qed.

Lemma createUser_then_getUser_witness :
  exists user tb' stmt,
    DatabaseManager.createUser env0 "s7" "Cy" (opened tb_users)
    = (Ok user, opened tb', [SqlRun stmt]) /\
    value (DatabaseManager.getUser (user_id user)) (opened tb') = Ok (Some user).
Proof.
  destruct (proj1 (createUser_then_getUser env0 "s7" "Cy" tb_users) eq_refl)
    as (user & tb' & stmt & Hrun & _ & _ & _ & _ & Hget & _).
  by exists user, tb', stmt.
Defined.

Lemma with_socket_id socketId userId x : ur_id (with_socket socketId userId x) = ur_id x.
Proof. unfold with_socket. by case_bool_decide. Qed.

Lemma find_user_map socketId userId k (l : list UserRow) :
  List.find (fun x => bool_decide (ur_id x = k)) (map (with_socket socketId userId) l)
  = with_socket socketId userId <$> List.find (fun x => bool_decide (ur_id x = k)) l.
Proof.
  induction l as [|x l IH]; [done|]. cbn [map List.find].
  rewrite with_socket_id. by destruct (bool_decide (ur_id x = k)).
Qed.

(** X5.  [updateUserSocketId] never throws on an open database: a user
    that is stored reads back with the new socket id and its other fields
    unchanged, an id that is not stored leaves the tables as they were,
    and in either case every other user and the other three tables are
    untouched. *)
Theorem updateUserSocketId_sets_one_user userId socketId tb :
  exists tb',
    DatabaseManager.updateUserSocketId userId socketId (opened tb)
    = (Ok tt, opened tb', [SqlRun (UpdateUserSocketId socketId userId)]) /\
    (forall u, value (DatabaseManager.getUser userId) (opened tb) = Ok (Some u) ->
       value (DatabaseManager.getUser userId) (opened tb')
       = Ok (Some {| user_id := user_id u; user_name := user_name u;
                     user_color := user_color u;
                     user_socketId := JsStr socketId |})) /\
    (value (DatabaseManager.getUser userId) (opened tb) = Ok None -> tb' = tb) /\
    (forall other, other <> userId ->
       value (DatabaseManager.getUser other) (opened tb')
       = value (DatabaseManager.getUser other) (opened tb)) /\
    rooms tb' = rooms tb /\ room_users tb' = room_users tb /\
    whiteboard_elements tb' = whiteboard_elements tb.
Proof.
  eexists. split; [reflexivity|].
  change (users (after_statement tb (UpdateUserSocketId socketId userId)))
    with (map (with_socket socketId userId) (users tb)).
  assert (Hval : forall k tb0,
    value (DatabaseManager.getUser k) (opened tb0)
    = Ok (user_of_row <$> List.find (fun x => bool_decide (ur_id x = k)) (users tb0))).
  { reflexivity. }
  split; [|split; [|split]]; [| | |done].
  - intros u. rewrite !Hval.
    change (users _) with (map (with_socket socketId userId) (users tb)) at 2.
    rewrite find_user_map.
    destruct (List.find _ (users tb)) as [row|] eqn:Hf; [|discriminate].
    intros [= <-]. cbn. do 2 f_equal.
    apply find_some in Hf as [_ Hid]. apply bool_decide_eq_true in Hid.
    unfold with_socket. by rewrite bool_decide_eq_true_2.
  - rewrite Hval. destruct (List.find _ (users tb)) as [row|] eqn:Hf; [discriminate|].
    intros _. destruct tb as [rs us ms es]. cbn in *. f_equal.
    rewrite <- (map_id us) at 2. apply map_ext_in. intros x Hx.
    apply (find_none _ _ Hf) in Hx. unfold with_socket. by rewrite Hx.
  - intros other Hne. rewrite !Hval.
    change (users _) with (map (with_socket socketId userId) (users tb)) at 1.
    rewrite find_user_map.
    destruct (List.find _ (users tb)) as [row|] eqn:Hf; [|done].
    cbn. do 3 f_equal.
    apply find_some in Hf as [_ Hid]. apply bool_decide_eq_true in Hid.
    unfold with_socket. rewrite bool_decide_eq_false_2; congruence.
Qed.

Lemma same_member_false roomId userId r :
  same_member roomId userId r = false <-> member_key r <> (roomId, userId).
Proof.
  unfold member_key. rewrite <- not_true_iff_false, same_member_true.
  split; intros H; [intros [= ? ?] | intros [? ?]]; apply H; by subst.
Qed.

(** X6.  [addUserToRoom] followed by [removeUserFromRoom] of the same
    pair: after the add the pair is a member and [room_users] holds exactly
    one row for it, stamped with the time of the add; after the remove it
    is no member; and neither step changes the membership of any other
    pair. *)
Theorem membership_add_then_remove env tb roomId userId :
  exists added removed,
    DatabaseManager.addUserToRoom env roomId userId (opened tb)
    = (Ok tt, opened added,
       [SqlRun (InsertOrReplaceRoomUser
                  {| ru_roomId := roomId; ru_userId := userId;
                     ru_joinedAt := now env |})]) /\
    DatabaseManager.removeUserFromRoom roomId userId (opened added)
    = (Ok tt, opened removed, [SqlRun (DeleteRoomUser roomId userId)]) /\
    is_member added roomId userId = true /\
    List.filter (same_member roomId userId) (room_users added)
    = [{| ru_roomId := roomId; ru_userId := userId; ru_joinedAt := now env |}] /\
    is_member removed roomId userId = false /\
    (forall r u, (r, u) <> (roomId, userId) ->
       is_member added r u = is_member tb r u /\
       is_member removed r u = is_member tb r u).
Proof.
  eexists _, _. split; [apply addUserToRoom_opened|].
  split; [apply removeUserFromRoom_opened|].
  cbn [with_room_users room_users].
  set (row := {| ru_roomId := roomId; ru_userId := userId; ru_joinedAt := now env |}).
  set (rest := List.filter (fun x => negb (same_member roomId userId x)) (room_users tb)).
  assert (Hrest : forall x, In x rest -> same_member roomId userId x = false).
  { intros x Hx. apply filter_In in Hx as [_ Hx]. by apply negb_true_iff. }
  assert (Hrow : same_member roomId userId row = true) by (by apply same_member_true).
  split; [|split; [|split]].
  - apply is_member_true. exists row. cbn [with_room_users room_users].
    rewrite in_app_iff. cbn. tauto.
  - rewrite List.filter_app. cbn [List.filter]. rewrite Hrow.
    rewrite filter_none; [done|]. exact Hrest.
  - unfold is_member. cbn [room_users]. rewrite List.filter_app. cbn [List.filter].
    rewrite Hrow. cbn [negb]. rewrite app_nil_r.
    destruct (existsb _ _) eqn:He; [|done].
    apply existsb_exists in He as (x & Hx & Hs).
    apply filter_In in Hx as [Hx _]. rewrite (Hrest x Hx) in Hs. discriminate.
  - intros r u Hne.
    assert (Hadd : is_member
                     (with_room_users tb (rest ++ [row])) r u = is_member tb r u).
    { apply eq_iff_eq_true. rewrite !is_member_true. cbn [with_room_users room_users].
      split.
      - intros (x & Hx & Hr & Hu). rewrite in_app_iff in Hx.
        destruct Hx as [Hx | [<- | []]].
        + apply filter_In in Hx as [Hx _]. by exists x.
        + cbn in Hr, Hu. subst. done.
      - intros (x & Hx & Hr & Hu). exists x. rewrite in_app_iff. split; [|done].
        left. apply filter_In. split; [done|]. apply negb_true_iff.
        apply same_member_false. unfold member_key. congruence. }
    split; [exact Hadd|]. rewrite <- Hadd.
    apply eq_iff_eq_true. rewrite !is_member_true. cbn [with_room_users room_users].
    split.
    + intros (x & Hx & Hr & Hu). apply filter_In in Hx as [Hx _]. by exists x.
    + intros (x & Hx & Hr & Hu). exists x. split; [|done].
      apply filter_In. split; [done|]. apply negb_true_iff.
      apply same_member_false. unfold member_key. congruence.
Qed.

Lemma in_select_room_users roomId tb x :
  In x (select_room_users roomId tb) <->
  In x (users tb) /\ is_member tb roomId (ur_id x) = true.
Proof.
  unfold select_room_users. rewrite in_flat_map, is_member_true. split.
  - intros (ru & Hru & Hx). case_bool_decide as Hroom; [|destruct Hx].
    apply filter_In in Hx as [Hx Hid]. apply bool_decide_eq_true in Hid.
    split; [done|]. by exists ru.
  - intros (Hx & ru & Hru & Hroom & Hid). exists ru. split; [done|].
    rewrite bool_decide_eq_true_2 by done. apply filter_In. split; [done|].
    by apply bool_decide_eq_true.
Qed.

(** X7.  [getRoomUsers] is the join of [room_users] with [users]: it lists
    exactly the stored users that have a membership row of the room, so a
    member whose user row is missing is not listed; and the users that
    [getRoom] puts in its descriptor are that same list. *)
Theorem getRoomUsers_joins_members_with_users roomId tb :
  exists l,
    value (DatabaseManager.getRoomUsers roomId) (opened tb) = Ok l /\
    (forall u, In u l <->
       exists row, In row (users tb) /\ user_of_row row = u /\
                   is_member tb roomId (ur_id row) = true) /\
    (forall userId,
       is_member tb roomId userId = true ->
       select_user userId tb = None ->
       forall u, In u l -> user_id u <> userId) /\
    (forall room,
       value (DatabaseManager.getRoom roomId) (opened tb) = Ok (Some room) ->
       r_users room = l).
Proof.
  eexists. split; [reflexivity|]. split; [|split].
  - intros u. rewrite in_map_iff. split.
    + intros (row & Hu & Hrow). apply in_select_room_users in Hrow as [Hin Hm].
      by exists row.
    + intros (row & Hin & Hu & Hm). exists row. split; [done|].
      by apply in_select_room_users.
  - intros userId _ Hnone u Hu Hid. apply in_map_iff in Hu as (row & <- & Hrow).
    apply in_select_room_users in Hrow as [Hin _].
    unfold select_user in Hnone. apply (find_none _ _ Hnone) in Hin.
    apply bool_decide_eq_false in Hin. by apply Hin.
  - intros room. rewrite getRoom_value.
    destruct (select_room roomId tb) as [row|]; [|discriminate].
    by intros [= <-].
Qed.

Lemma NoDup_map_snoc {A K} (f : A -> K) (p : A -> bool) (l : list A) x :
  NoDup (map f l) ->
  (forall y, In y l -> p y = true -> f y <> f x) ->
  NoDup (map f (List.filter p l ++ [x])).
Proof.
  intros Hnd Hfresh. rewrite map_app. apply NoDup_app.
  split; [by apply NoDup_map_filter|]. split; [|apply NoDup_singleton].
  intros k Hk Hx. apply list_elem_of_In in Hk. cbn in Hx.
  apply list_elem_of_In in Hx. destruct Hx as [<- | []].
  apply in_map_iff in Hk as (y & Hy & Hin). apply filter_In in Hin as [Hin Hp].
  by apply (Hfresh y).
Qed.

Lemma keys_ok_empty : keys_ok empty_tables.
Proof. repeat split; apply NoDup_nil_2. Qed.

Lemma exec_keys s tb tb' :
  keys_ok tb -> exec s tb = Ok tb' -> keys_ok tb'.
Proof.
  intros (Hr & Hu & Hm & He) Hexec. destruct s; cbn in Hexec.
  - destruct (existsb _ _) eqn:Hex; [discriminate|]. injection Hexec as <-.
    split; [|done]. cbn. rewrite <- (filter_all (fun _ => true) (rooms tb)) by done.
    apply NoDup_map_snoc; [done|]. intros y Hy _ Hid.
    apply not_true_iff_false in Hex. apply Hex. apply existsb_exists.
    exists y. split; [done|]. by apply bool_decide_eq_true.
  - destruct (existsb _ _) eqn:Hex; [discriminate|]. injection Hexec as <-.
    split; [done|]. split; [|done]. cbn.
    rewrite <- (filter_all (fun _ => true) (users tb)) by done.
    apply NoDup_map_snoc; [done|]. intros y Hy _ Hid.
    apply not_true_iff_false in Hex. apply Hex. apply existsb_exists.
    exists y. split; [done|]. by apply bool_decide_eq_true.
  - injection Hexec as <-. split; [done|]. split; [|done]. cbn.
    rewrite map_map. erewrite map_ext; [exact Hu|].
    intros x. cbn. by case_bool_decide.
  - injection Hexec as <-. split; [done|]. split; [done|]. split; [|done]. cbn.
    apply NoDup_map_snoc; [done|]. intros y Hy Hp Hk.
    apply negb_true_iff, same_member_false in Hp. apply Hp. rewrite Hk.
    reflexivity.
  - injection Hexec as <-. split; [done|]. split; [done|]. split; [|done]. cbn.
    by apply NoDup_map_filter.
  - injection Hexec as <-. split; [done|]. split; [done|]. split; [done|]. cbn.
    apply NoDup_map_snoc; [done|]. intros y Hy Hp Hk.
    apply negb_true_iff, bool_decide_eq_false in Hp. by apply Hp.
  - injection Hexec as <-. split; [done|]. split; [done|]. split; [done|]. cbn.
    by apply NoDup_map_filter.
Qed.

Lemma find_by_key {A} (f : A -> string) (l : list A) x :
  NoDup (map f l) -> In x l ->
  List.find (fun y => bool_decide (f y = f x)) l = Some x.
Proof.
  induction l as [|y l IH]; cbn [map List.find]; [intros _ []|].
  intros Hnd. apply NoDup_cons in Hnd as [Hy Hnd]. intros [-> | Hin].
  - by rewrite bool_decide_eq_true_2.
  - rewrite bool_decide_eq_false_2; [by apply IH|].
    intros Hfy. apply Hy. rewrite Hfy. by apply list_elem_of_In, in_map.
Qed.

Lemma select_room_users_ids roomId tb :
  keys_ok tb -> NoDup (map ur_id (select_room_users roomId tb)).
Proof.
  intros (_ & Hu & Hm & _). unfold select_room_users.
  induction (room_users tb) as [|ru l IH]; cbn [flat_map map]; [apply NoDup_nil_2|].
  cbn [map] in Hm. apply NoDup_cons in Hm as [Hru Hm]. specialize (IH Hm).
  rewrite map_app. apply NoDup_app. split; [|split; [|exact IH]].
  - case_bool_decide; [by apply NoDup_map_filter | apply NoDup_nil_2].
  - intros k Hk Hk'. apply list_elem_of_In in Hk, Hk'. apply Hru.
    case_bool_decide as Hroom; [|destruct Hk].
    apply in_map_iff in Hk as (x & <- & Hx). apply filter_In in Hx as [_ Hx].
    apply bool_decide_eq_true in Hx.
    apply in_map_iff in Hk' as (y & Hy & Hin).
    apply in_flat_map in Hin as (ru' & Hin & Hy').
    case_bool_decide as Hroom'; [|destruct Hy'].
    apply filter_In in Hy' as [_ Hy']. apply bool_decide_eq_true in Hy'.
    apply list_elem_of_In, in_map_iff. exists ru'. split; [|done].
    unfold member_key. congruence.
Qed.

(** X8.  When the primary keys of the tables are unique, [getRoom] and
    [getUser] of the id of a stored row return that row, and [getRoomUsers]
    lists no user id twice. *)
Theorem lookups_by_key_are_exact tb :
  keys_ok tb ->
  (forall row, In row (rooms tb) ->
     value (DatabaseManager.getRoom (room_id row)) (opened tb)
     = Ok (Some (room_of_row row (select_room_users (room_id row) tb)))) /\
  (forall row, In row (users tb) ->
     value (DatabaseManager.getUser (ur_id row)) (opened tb)
     = Ok (Some (user_of_row row))) /\
  (forall roomId l,
     value (DatabaseManager.getRoomUsers roomId) (opened tb) = Ok l ->
     NoDup (map user_id l)).
Proof.
  intros Hkeys. pose proof Hkeys as (Hr & Hu & Hm & He).
  split; [|split].
  - intros row Hin. rewrite getRoom_value. unfold select_room.
    by rewrite (find_by_key room_id _ _ Hr Hin).
  - intros row Hin. unfold value, DatabaseManager.getUser, bind. cbn.
    unfold select_user. by rewrite (find_by_key ur_id _ _ Hu Hin).
  - intros roomId l [= <-]. rewrite map_map.
    erewrite map_ext; [by apply select_room_users_ids|]. done.
Qed.

Lemma lookups_by_key_are_exact_witness :
  value (DatabaseManager.getUser "user-2") (opened tb_users)
  = Ok (Some (user_of_row bob_row)).
Proof.
  assert (Hok : keys_ok tb_users).
  { repeat split; apply (bool_decide_unpack _); vm_compute; exact I. }
  apply (proj1 (proj2 (lookups_by_key_are_exact tb_users Hok)) bob_row).
  cbn. tauto.
Defined.

(** X9.  [saveElement] never throws on an open database.  Afterwards the
    room holds the row of the element, every row of any room that had the
    same element id is gone, all other rows are kept, the element is in
    what [getRoomElements] returns for the room, and the other three
    tables are untouched. *)
Theorem saveElement_replaces_the_id_everywhere roomId element tb :
  exists tb',
    DatabaseManager.saveElement roomId element (opened tb)
    = (Ok tt, opened tb',
       [SqlRun (InsertOrReplaceElement (element_row roomId element))]) /\
    (forall room x,
       In x (rows_of room tb') <->
       (room = roomId /\ x = element_row roomId element) \/
       (In x (rows_of room tb) /\ er_id x <> el_id element)) /\
    (exists l, value (DatabaseManager.getRoomElements roomId) (opened tb') = Ok l /\
               In element l) /\
    rooms tb' = rooms tb /\ users tb' = users tb /\ room_users tb' = room_users tb.
Proof.
  eexists. split; [reflexivity|]. split; [|split; [|done]].
  - intros room x. unfold rows_of. cbn [with_elements whiteboard_elements].
    rewrite filter_In, in_app_iff, !filter_In, negb_true_iff, bool_decide_eq_false,
      bool_decide_eq_true.
    cbn [In er_id]. split.
    + intros [[[Hin Hid] | [<- | []]] Hroom]; [right; tauto|left]. cbn in Hroom. done.
    + intros [[-> ->] | [[Hin Hroom] Hid]]; [|tauto]. cbn. tauto.
  - eexists. split; [reflexivity|].
    apply in_map_iff. exists (element_row roomId element). split; [done|].
    apply list_elem_of_In. rewrite select_elements_perm. apply list_elem_of_In.
    unfold rows_of. cbn [with_elements whiteboard_elements].
    apply filter_In. split; [|by apply bool_decide_eq_true].
    rewrite in_app_iff. cbn. tauto.
Qed.

Lemma replay_nil (x : option Tables) : replay [] <$> x = x.
Proof. by destruct x. Qed.

Lemma replay_app l l' (x : option Tables) :
  replay (l ++ l') <$> x = replay l' <$> (replay l <$> x).
Proof. destruct x; cbn; [|done]. unfold replay. by rewrite fold_left_app. Qed.

Lemma statements_app tr tr' : statements (tr ++ tr') = statements tr ++ statements tr'.
Proof. apply flat_map_app. Qed.

Section Logged.
Context {St : Type} (f : St -> option Tables).

Lemma logged_quiet {A} (m : Prog St A) :
  (forall s, f (state_after m s) = f s) ->
  (forall s, statements (trace_of m s) = []) ->
  logged f m.
Proof. intros Hs Ht s. by rewrite Hs, Ht, replay_nil. Qed.

Lemma logged_modify (g : St -> St) : (forall s, f (g s) = f s) -> logged f (modify g).
Proof. intros Hg. by apply logged_quiet. Qed.

Lemma logged_bind {A C} (m : Prog St A) (k : A -> Prog St C) :
  logged f m -> (forall a, logged f (k a)) -> logged f (bind m k).
Proof.
  intros Hm Hk s. specialize (Hm s). unfold state_after, trace_of, bind in *.
  destruct (m s) as [[[a|e] s1] tr1]; [|done].
  specialize (Hk a s1). unfold state_after, trace_of in Hk.
  destruct (k a s1) as [[r s2] tr2]. cbn [fst snd] in *.
  by rewrite statements_app, replay_app, <- Hm.
Qed.

Lemma logged_try_catch {A} (m : Prog St A) (h : string -> Prog St A) :
  logged f m -> (forall e, logged f (h e)) -> logged f (try_catch m h).
Proof.
  intros Hm Hh s. specialize (Hm s). unfold state_after, trace_of, try_catch in *.
  destruct (m s) as [[[a|e] s1] tr1]; [done|].
  specialize (Hh e s1). unfold state_after, trace_of in Hh.
  destruct (h e s1) as [[r s2] tr2]. cbn [fst snd] in *.
  by rewrite statements_app, replay_app, <- Hm.
Qed.
End Logged.

Lemma logged_connection : logged DatabaseManager.db DatabaseManager.connection.
Proof.
  apply logged_quiet; intros d; unfold state_after, trace_of, DatabaseManager.connection;
    destruct (DatabaseManager.db d) eqn:Hdb; cbn; by rewrite ?Hdb.
Qed.

Lemma logged_run s : logged DatabaseManager.db (DatabaseManager.run s).
Proof.
  intros d. unfold state_after, trace_of, DatabaseManager.run.
  destruct (DatabaseManager.db d) as [tb|] eqn:Hdb; [|cbn; by rewrite Hdb].
  destruct (exec s tb) as [tb'|e] eqn:Hexec; cbn; rewrite ?Hdb; [|done].
  cbn. unfold after_statement. by rewrite Hexec.
Qed.

Lemma logged_db_call {A} (m : DatabaseManager.M A) :
  logged DatabaseManager.db m -> logged tables (db_call m).
Proof.
  intros Hm w. specialize (Hm (dbManager w)).
  unfold state_after, trace_of, db_call, zoom, tables in *.
  destruct (m (dbManager w)) as [[r d] tr]. exact Hm.
Qed.

Ltac db_logged :=
  repeat first
    [ apply logged_connection | apply logged_run
    | apply logged_quiet; reflexivity
    | apply logged_bind; [|intros ?]
    | match goal with |- logged _ (match ?x with _ => _ end) => destruct x end ].

Lemma logged_createRoom env data :
  logged DatabaseManager.db (DatabaseManager.createRoom env data).
Proof. unfold DatabaseManager.createRoom. db_logged. Qed.

Lemma logged_getRoom roomId : logged DatabaseManager.db (DatabaseManager.getRoom roomId).
Proof. unfold DatabaseManager.getRoom. db_logged. Qed.

Lemma logged_createUser env socketId name :
  logged DatabaseManager.db (DatabaseManager.createUser env socketId name).
Proof. unfold DatabaseManager.createUser. db_logged. Qed.

Lemma logged_getUser userId : logged DatabaseManager.db (DatabaseManager.getUser userId).
Proof. unfold DatabaseManager.getUser. db_logged. Qed.

Lemma logged_updateUserSocketId userId socketId :
  logged DatabaseManager.db (DatabaseManager.updateUserSocketId userId socketId).
Proof. unfold DatabaseManager.updateUserSocketId. db_logged. Qed.

Lemma logged_addUserToRoom env roomId userId :
  logged DatabaseManager.db (DatabaseManager.addUserToRoom env roomId userId).
Proof. unfold DatabaseManager.addUserToRoom. db_logged. Qed.

Lemma logged_removeUserFromRoom roomId userId :
  logged DatabaseManager.db (DatabaseManager.removeUserFromRoom roomId userId).
Proof. unfold DatabaseManager.removeUserFromRoom. db_logged. Qed.

Lemma logged_getRoomUsers roomId :
  logged DatabaseManager.db (DatabaseManager.getRoomUsers roomId).
Proof. unfold DatabaseManager.getRoomUsers. db_logged. Qed.

Lemma logged_saveElement roomId element :
  logged DatabaseManager.db (DatabaseManager.saveElement roomId element).
Proof. unfold DatabaseManager.saveElement. db_logged. Qed.

Lemma logged_getRoomElements roomId :
  logged DatabaseManager.db (DatabaseManager.getRoomElements roomId).
Proof. unfold DatabaseManager.getRoomElements. db_logged. Qed.

Lemma logged_clearRoomElements roomId :
  logged DatabaseManager.db (DatabaseManager.clearRoomElements roomId).
Proof. unfold DatabaseManager.clearRoomElements. db_logged. Qed.

Lemma tables_present roomId user w : tables (RoomManager.present roomId user w) = tables w.
Proof. unfold RoomManager.present. by destruct (existsb _ _). Qed.

Lemma tables_absent roomId userId w : tables (RoomManager.absent roomId userId w) = tables w.
Proof. unfold RoomManager.absent. by destruct (presence w !! roomId). Qed.

Lemma tables_parted socket room w : tables (parted socket room w) = tables w.
Proof. unfold parted. by destruct (adapter_rooms w !! room). Qed.

Lemma logged_createOrGetUser env socket userName :
  logged tables (AuthManager.createOrGetUser env socket userName).
Proof.
  apply logged_quiet; intros w;
    unfold state_after, trace_of, AuthManager.createOrGetUser;
    by destruct (auth_users w !! socket).
Qed.

Ltac logged_step :=
  first
    [ apply logged_quiet; reflexivity
    | apply logged_createOrGetUser
    | apply logged_modify;
      first [reflexivity | apply tables_present | apply tables_absent | apply tables_parted]
    | apply logged_db_call;
      first [ apply logged_createRoom | apply logged_getRoom
            | apply logged_addUserToRoom | apply logged_removeUserFromRoom
            | apply logged_saveElement | apply logged_getRoomElements
            | apply logged_clearRoomElements ]
    | apply logged_bind; [|intros ?]
    | apply logged_try_catch; [|intros ?]
    | match goal with
      | |- logged _ (if ?c then _ else _) => destruct c
      | |- logged _ (match ?x with _ => _ end) => destruct x
      end ].

Lemma logged_handler env socket ev : logged tables (handler env socket ev).
Proof.
  destruct ev; cbn [handler].
  all: unfold on_join_room, on_leave_room, on_drawing_start, on_drawing_update,
         on_drawing_end, on_text_added, on_clear_canvas, on_cursor_move,
         on_disconnect, handleUserLeave, callback, console_error,
         RoomManager.getRoom, RoomManager.addUserToRoom,
         RoomManager.removeUserFromRoom, WhiteboardManager.getRoomElements,
         WhiteboardManager.addElement, WhiteboardManager.updateElement,
         WhiteboardManager.clearRoom, socket_join, socket_leave, socket_leave_all,
         put_data.
  all: repeat logged_step.
Qed.

Lemma logged_post_api_rooms env name isPrivate password permissions :
  logged tables (post_api_rooms env name isPrivate password permissions).
Proof.
  unfold post_api_rooms, RoomManager.createRoom, console_error.
  repeat logged_step.
Qed.

Lemma logged_get_api_room roomId : logged tables (get_api_room roomId).
Proof.
  unfold get_api_room, RoomManager.getRoom, console_error.
  repeat logged_step.
Qed.

Lemma statements_rejection tr e :
  statements (tr ++ [UnhandledRejection e]) = statements tr.
Proof. rewrite statements_app. apply app_nil_r. Qed.

Lemma handle_logged env socket ev w :
  tables (handle env socket ev w).1
  = replay (statements (handle env socket ev w).2) <$> tables w.
Proof.
  pose proof (logged_handler env socket ev w) as H.
  unfold state_after, trace_of, handle in *.
  destruct (handler env socket ev w) as [[[a|e] w'] tr]; cbn [fst snd] in *;
    [done|]. by rewrite statements_rejection.
Qed.

Lemma serve_create_logged env name isPrivate password permissions w :
  tables (serve_create env name isPrivate password permissions w).1
  = replay (statements (serve_create env name isPrivate password permissions w).2)
      <$> tables w.
Proof.
  pose proof (logged_post_api_rooms env name isPrivate password permissions w) as H.
  unfold state_after, trace_of, serve_create in *.
  by destruct (post_api_rooms env name isPrivate password permissions w) as [[r w'] tr].
Qed.

Lemma exec_keeps_keys s tb : keys_ok tb -> keys_ok (after_statement tb s).
Proof.
  intros Hok. unfold after_statement.
  destruct (exec s tb) as [tb'|e] eqn:Hexec; [|done].
  revert Hok Hexec. apply exec_keys.
Qed.

Lemma replay_keeps_keys l tb : keys_ok tb -> keys_ok (replay l tb).
Proof.
  revert tb. induction l as [|s l IH]; intros tb Hok; [done|].
  apply IH. by apply exec_keeps_keys.
Qed.

(** X10.  Whatever the event and the state of the server, the database
    that a socket event or [POST /api/rooms] leaves is the database it
    found with the completed statements of its trace run on it, in order:
    nothing else changes the database, and a request that completes no
    statement leaves it as it was. *)
Theorem database_changes_are_logged env socket ev name isPrivate password permissions w :
  tables (handle env socket ev w).1
  = replay (statements (handle env socket ev w).2) <$> tables w /\
  tables (serve_create env name isPrivate password permissions w).1
  = replay (statements (serve_create env name isPrivate password permissions w).2)
      <$> tables w.
Proof. split; [apply handle_logged | apply serve_create_logged]. Qed.

(** X11.  The primary keys declared by [createTables] are kept: when the
    keys of the four tables are unique, they are unique after every
    statement that completes, hence after every socket event and every
    [POST /api/rooms]. *)
Theorem server_keeps_primary_keys w tb :
  tables w = Some tb ->
  keys_ok tb ->
  (forall s tb', exec s tb = Ok tb' -> keys_ok tb') /\
  (forall env socket ev,
     exists tb', tables (handle env socket ev w).1 = Some tb' /\ keys_ok tb') /\
  (forall env name isPrivate password permissions,
     exists tb',
       tables (serve_create env name isPrivate password permissions w).1 = Some tb' /\
       keys_ok tb').
Proof.
  intros Hdb Hok. split; [|split].
  - intros s tb'. by apply exec_keys.
  - intros env socket ev. rewrite handle_logged, Hdb. eexists. split; [reflexivity|].
    by apply replay_keeps_keys.
  - intros env name isPrivate password permissions.
    rewrite serve_create_logged, Hdb. eexists. split; [reflexivity|].
    by apply replay_keeps_keys.
Qed.

Lemma server_keeps_primary_keys_witness :
  exists tb',
    tables (handle env0 "s1" (JoinRoom "room-1" JsUndefined "Ann")
                   (initial_world (Some tb_users))).1 = Some tb' /\
    keys_ok tb'.
Proof.
  assert (Hok : keys_ok tb_users).
  { repeat split; apply (bool_decide_unpack _); vm_compute; exact I. }
  apply (proj1 (proj2 (server_keeps_primary_keys (initial_world (Some tb_users))
                         tb_users eq_refl Hok))).
Defined.



(** X13.  [cursor-move] never changes the server and never runs a
    statement: either nothing happens, or the session records a room and
    a user and the position goes, with that user id, to the sockets of
    that room other than the sender. *)
Theorem cursor_move_is_relayed_only env socket position w :
  (handle env socket (CursorMove position) w).1 = w /\
  ((handle env socket (CursorMove position) w).2 = [] \/
   exists roomId userId,
     data_of w socket = {| sd_roomId := Some roomId; sd_userId := Some userId |} /\
     roomId <> "" /\ userId <> "" /\
     (handle env socket (CursorMove position) w).2
     = [Emit (members w roomId ∖ {[socket]}) (cursor_moved userId position)]).
Proof.
  unfold handle. cbn [handler]. unfold on_cursor_move, bind, get_data.
  destruct (data_of w socket) as [[roomId|] [userId|]] eqn:Hdata;
    cbn [sd_roomId sd_userId truthy str default negb orb andb].
  2-4: cbn; rewrite ?orb_true_r; cbn; split; [done | by left].
  cbn [truthy]. destruct (bool_decide (roomId = "")) eqn:Hr; cbn [negb orb];
    [cbn; split; [done | by left]|].
  destruct (bool_decide (userId = "")) eqn:Hu; cbn [negb orb];
    [cbn; split; [done | by left]|].
  apply bool_decide_eq_false in Hr, Hu.
  cbn. split; [done|]. right. by exists roomId, userId.
Qed.

Lemma members_insert_subseteq (m : gset string) room room' w :
  members w room ⊆ m ->
  members w room' ⊆ default ∅ (<[room := m]> (adapter_rooms w) !! room').
Proof.
  intros Hm. destruct (decide (room = room')) as [<-|Hne].
  - by rewrite lookup_insert_eq.
  - by rewrite lookup_insert_ne.
Qed.

(** X14.  A join never takes a socket out of a room.  A join that
    succeeds adds the socket to the room joined and to no other, records
    the room and the user in the data of the socket, replacing what was
    recorded, and leaves that user a stored member of the room: a socket
    that joins a second room stays in the first. *)
Theorem join_adds_and_never_removes env socket roomId password userName w :
  let out := handle env socket (JoinRoom roomId password userName) w in
  (forall room, members w room ⊆ members out.1 room) /\
  (join_succeeds out.2 = true ->
   members out.1 roomId = {[socket]} ∪ members w roomId /\
   (forall room, room <> roomId -> members out.1 room = members w room) /\
   exists userId tb',
     socket_data out.1
     = <[socket := {| sd_roomId := Some roomId; sd_userId := Some userId |}]>
         (socket_data w) /\
     tables out.1 = Some tb' /\
     is_member tb' roomId userId = true).
Proof.
  intros out. subst out.
  destruct (tables w) as [tb|] eqn:Hdb.
  2:{ rewrite join_uninitialised by done. split; [done|]. discriminate. }
  destruct (select_room roomId tb) as [row|] eqn:Hroom.
  2:{ rewrite (join_room_not_found _ _ _ _ _ _ tb) by done.
      split; [done|]. discriminate. }
  destruct (negb (room_isPrivate row =? 0)%Z
            && negb (bool_decide (read_text (room_password row) = password))) eqn:Hpw.
  { apply andb_true_iff in Hpw as [Hpriv Hne].
    apply negb_true_iff in Hpriv. apply negb_true_iff, bool_decide_eq_false in Hne.
    rewrite (join_wrong_password _ _ _ _ _ _ tb row) by done.
    split; [done|]. discriminate. }
  pose proof (handle_logged env socket (JoinRoom roomId password userName) w) as Hlog.
  destruct (join_admitted env socket roomId password userName w tb row Hdb Hroom Hpw)
    as (w' & user & roomUsers & Hout & Hdata & _ & _ & Hrooms).
  rewrite Hout in *. cbn [fst snd] in *.
  assert (Hmem : forall room,
            members w' room
            = default ∅ (<[roomId := {[socket]} ∪ members w roomId]> (adapter_rooms w)
                           !! room)).
  { intros room. unfold members at 1. by rewrite Hrooms. }
  split.
  - intros room. rewrite Hmem. apply members_insert_subseteq, union_subseteq_r.
  - intros _. split; [|split].
    + by rewrite Hmem, lookup_insert_eq.
    + intros room Hne. by rewrite Hmem, lookup_insert_ne.
    + exists (user_id user). eexists. split; [exact Hdata|].
      rewrite Hdb in Hlog. split; [exact Hlog|].
      apply is_member_true.
      exists {| ru_roomId := roomId; ru_userId := user_id user;
                ru_joinedAt := now env |}.
      split; [|done]. cbn. rewrite in_app_iff. right. by left.
Qed.

Lemma join_adds_and_never_removes_witness :
  let out := handle env1 "s1" (JoinRoom "room-2" (JsStr "hunter2") "Ann") w_joined in
  join_succeeds out.2 = true /\
  members out.1 "room-1" = members w_joined "room-1" /\
  members w_joined "room-1" = {["s1"]} /\
  data_of out.1 "s1"
  = {| sd_roomId := Some "room-2"; sd_userId := Some "user-200-k3j9x1q0z" |}.
Proof.
  assert (Hok : join_succeeds
                  (handle env1 "s1" (JoinRoom "room-2" (JsStr "hunter2") "Ann")
                          w_joined).2 = true) by (vm_compute; reflexivity).
  split; [exact Hok|]. split; [|split; vm_compute; reflexivity].
  apply (proj1 (proj2 (proj2 (join_adds_and_never_removes env1 "s1" "room-2"
                                (JsStr "hunter2") "Ann" w_joined) Hok))).
  discriminate.
Defined.

(** X15.  [GET /api/rooms/:roomId] never changes the server.  It answers
    500 when the database is not open, 404 "Room not found" when no room
    has the id, and otherwise 200 with the descriptor that [getRoom]
    builds from the row and its joined users, the stored password
    included. *)
Theorem get_api_room_outcomes roomId w :
  (serve_get roomId w).1 = w /\
  (tables w = None ->
   (serve_get roomId w).2
   = [ConsoleError "Error getting room:";
      Respond 500 (ApiFailure "Failed to get room")]) /\
  (forall tb, tables w = Some tb ->
     match select_room roomId tb with
     | None =>
         (serve_get roomId w).2 = [Respond 404 (ApiFailure "Room not found")]
     | Some row =>
         (serve_get roomId w).2
         = [Respond 200 (RoomCreated (room_of_row row (select_room_users roomId tb)))]
     end).
Proof.
  unfold serve_get, get_api_room, try_catch, bind, RoomManager.getRoom, db_call, zoom,
    DatabaseManager.getRoom, bind, DatabaseManager.connection, tables,
    console_error, tell.
  destruct w as [[[tb|]] au pr sd ar]; cbn [dbManager DatabaseManager.db].
  - split; [|split; [discriminate|]].
    + by destruct (select_room roomId tb).
    + intros tb' [= <-]. by destruct (select_room roomId tb).
  - split; [done|]. split; [done|]. discriminate.
Qed.

Lemma handleUserLeave_runs socket roomId userId w tb :
  tables w = Some tb ->
  runs (handleUserLeave socket roomId userId) w tt
       (after_leave socket roomId userId tb w)
       [SqlRun (DeleteRoomUser roomId userId);
        Emit (members (after_leave socket roomId userId tb w) roomId ∖ {[socket]})
             (user_left userId);
        Emit (members (after_leave socket roomId userId tb w) roomId ∖ {[socket]})
             (room_users_updated
                (default [] (presence (after_leave socket roomId userId tb w)
                               !! roomId)))].
Proof.
  intros Hdb. unfold handleUserLeave. apply runs_try_catch.
  eapply (runs_bind _ _ _ _ _ [_] _ _ [_; _]).
  { unfold RoomManager.removeUserFromRoom.
    eapply (runs_bind _ _ _ _ _ [_] _ _ []); [|apply runs_modify].
    eapply runs_db_call; [exact Hdb | apply removeUserFromRoom_opened]. }
  eapply (runs_bind _ _ _ _ _ [] _ _ [_; _]); [apply runs_modify|].
  eapply (runs_bind _ _ _ _ _ [_] _ _ [_]); [reflexivity|].
  eapply (runs_bind _ _ _ _ _ [] _ _ [_]); [reflexivity|].
  reflexivity.
Qed.

Lemma handleUserLeave_closed socket roomId userId w :
  tables w = None ->
  handleUserLeave socket roomId userId w
  = (Ok tt, w, [ConsoleError "Error handling user leave:"]).
Proof.
  destruct w as [[d] au pr sd ar]. unfold tables. cbn. intros ->. reflexivity.
Qed.

Lemma difference_twice (m : gset string) socket :
  (m ∖ {[socket]}) ∖ {[socket]} = m ∖ {[socket]}.
Proof. apply set_eq. intros x. rewrite !elem_of_difference. tauto. Qed.

Lemma members_parted_same socket room w :
  members (parted socket room w) room = members w room ∖ {[socket]}.
Proof.
  unfold parted, members. destruct (adapter_rooms w !! room) as [m|] eqn:Hm.
  - cbn [set_adapter_rooms adapter_rooms default]. unfold without.
    destruct (decide (m ∖ {[socket]} = ∅)) as [He|He].
    + rewrite lookup_delete_eq. cbn. by rewrite He.
    + by rewrite lookup_insert_eq.
  - rewrite Hm. cbn. apply set_eq. intros x.
    rewrite elem_of_difference, elem_of_empty. tauto.
Qed.

Lemma members_parted_other socket room w room' :
  room' <> room -> members (parted socket room w) room' = members w room'.
Proof.
  intros Hne. unfold parted, members.
  destruct (adapter_rooms w !! room) as [m|] eqn:Hm; [|done].
  cbn [set_adapter_rooms adapter_rooms]. destruct (without socket m).
  - by rewrite lookup_insert_ne.
  - by rewrite lookup_delete_ne.
Qed.

Lemma members_absent_same roomId userId w room :
  members (RoomManager.absent roomId userId w) room = members w room.
Proof. unfold RoomManager.absent. by destruct (presence w !! roomId). Qed.

Lemma members_after_leave socket roomId userId tb w room :
  members (after_leave socket roomId userId tb w) room
  = if bool_decide (room = roomId) then members w room ∖ {[socket]}
    else members w room.
Proof.
  unfold after_leave. case_bool_decide as Hroom.
  - subst room. by rewrite members_parted_same, members_absent_same.
  - by rewrite members_parted_other, members_absent_same.
Qed.

Lemma after_leave_frame socket roomId userId tb w :
  socket_data (after_leave socket roomId userId tb w) = socket_data w /\
  auth_users (after_leave socket roomId userId tb w) = auth_users w /\
  tables (after_leave socket roomId userId tb w)
  = Some (after_statement tb (DeleteRoomUser roomId userId)).
Proof.
  unfold after_leave, parted, RoomManager.absent, tables.
  destruct (presence _ !! roomId); cbn;
    destruct (adapter_rooms w !! roomId); done.
Qed.

Lemma leave_room_runs env socket w tb roomId userId :
  tables w = Some tb ->
  data_of w socket = {| sd_roomId := Some roomId; sd_userId := Some userId |} ->
  roomId <> "" -> userId <> "" ->
  handle env socket LeaveRoom w
  = (after_leave socket roomId userId tb w,
     [SqlRun (DeleteRoomUser roomId userId);
      Emit (others w roomId socket) (user_left userId);
      Emit (others w roomId socket)
           (room_users_updated
              (default [] (presence (after_leave socket roomId userId tb w)
                             !! roomId)))]).
Proof.
  intros Hdb Hdata Hroom Huser. apply handle_runs. cbn [handler].
  unfold on_leave_room.
  eapply (runs_bind _ _ _ _ _ [] _ _ [_; _; _]); [reflexivity|].
  rewrite Hdata. cbn [sd_roomId sd_userId str default].
  rewrite (truthy_some roomId Hroom), (truthy_some userId Huser). cbn [andb].
  pose proof (handleUserLeave_runs socket roomId userId w tb Hdb) as Hrun.
  rewrite members_after_leave, bool_decide_eq_true_2, difference_twice in Hrun by done.
  exact Hrun.
Qed.

Lemma is_member_after_delete tb roomId userId r u :
  is_member (after_statement tb (DeleteRoomUser roomId userId)) r u
  = if bool_decide ((r, u) = (roomId, userId)) then false else is_member tb r u.
Proof.
  unfold after_statement. cbn [exec].
  case_bool_decide as Hp.
  - injection Hp as -> ->. apply not_true_iff_false. rewrite is_member_true.
    intros (x & Hx & Hr & Hu). cbn in Hx. apply filter_In in Hx as [_ Hx].
    apply negb_true_iff, same_member_false in Hx. apply Hx.
    unfold member_key. congruence.
  - apply eq_iff_eq_true. rewrite !is_member_true. cbn [with_room_users room_users].
    split.
    + intros (x & Hx & Hr & Hu). apply filter_In in Hx as [Hx _]. by exists x.
    + intros (x & Hx & Hr & Hu). exists x. split; [|done].
      apply filter_In. split; [done|]. apply negb_true_iff, same_member_false.
      unfold member_key. congruence.
Qed.

(** X16.  [leave-room] from a socket whose data records a room and a user,
    on an open database: the membership pair is deleted, the socket is
    taken out of the room, and [user-left] and then the user list go to the
    sockets that remain in it; no other room and no other membership pair
    changes.  The data of the socket is as it was, so a second
    [leave-room] runs the same statement and notifies the same sockets
    again. *)
Theorem leave_room_keeps_the_session env socket w tb roomId userId :
  tables w = Some tb ->
  data_of w socket = {| sd_roomId := Some roomId; sd_userId := Some userId |} ->
  roomId <> "" -> userId <> "" ->
  exists w' tb' roomUsers again,
    handle env socket LeaveRoom w
    = (w', [SqlRun (DeleteRoomUser roomId userId);
            Emit (others w roomId socket) (user_left userId);
            Emit (others w roomId socket) (room_users_updated roomUsers)]) /\
    members w' roomId = others w roomId socket /\
    (forall room, room <> roomId -> members w' room = members w room) /\
    tables w' = Some tb' /\
    is_member tb' roomId userId = false /\
    (forall r u, (r, u) <> (roomId, userId) -> is_member tb' r u = is_member tb r u) /\
    socket_data w' = socket_data w /\
    (handle env socket LeaveRoom w').2
    = [SqlRun (DeleteRoomUser roomId userId);
       Emit (others w roomId socket) (user_left userId);
       Emit (others w roomId socket) (room_users_updated again)].
Proof.
  intros Hdb Hdata Hroom Huser.
  destruct (after_leave_frame socket roomId userId tb w) as (Hsd & _ & Htb).
  pose proof (members_after_leave socket roomId userId tb w) as Hmem.
  eexists _, _, _, _. split; [by apply leave_room_runs|].
  split; [|split; [|split; [exact Htb|split; [|split; [|split; [exact Hsd|]]]]]].
  - by rewrite Hmem, bool_decide_eq_true_2.
  - intros room Hne. by rewrite Hmem, bool_decide_eq_false_2.
  - by rewrite is_member_after_delete, bool_decide_eq_true_2.
  - intros r u Hne. by rewrite is_member_after_delete, bool_decide_eq_false_2.
  - rewrite (leave_room_runs env socket _ _ roomId userId Htb); [|by unfold data_of in *; rewrite Hsd|done..].
    cbn [snd]. unfold others. rewrite Hmem, bool_decide_eq_true_2 by done.
    by rewrite difference_twice.
Qed.

Lemma leave_room_keeps_the_session_witness :
  exists w' roomUsers,
    handle env1 "s1" LeaveRoom w_two
    = (w', [SqlRun (DeleteRoomUser "room-1" "user-200-k3j9x1q0z");
            Emit (others w_two "room-1" "s1") (user_left "user-200-k3j9x1q0z");
            Emit (others w_two "room-1" "s1") (room_users_updated roomUsers)]) /\
    socket_data w' = socket_data w_two.
Proof.
  destruct (leave_room_keeps_the_session env1 "s1" w_two drawn_two "room-1"
              "user-200-k3j9x1q0z")
    as (w' & tb' & roomUsers & again & Hout & _ & _ & _ & _ & _ & Hsd & _).
  - vm_compute. reflexivity.
  - vm_compute. reflexivity.
  - discriminate.
  - discriminate.
  - by exists w', roomUsers.
Defined.

Lemma members_left_all_same socket w room :
  members (state_after (socket_leave_all socket) w) room = members w room ∖ {[socket]}.
Proof.
  unfold state_after, socket_leave_all, modify, members.
  cbn [fst snd set_adapter_rooms adapter_rooms]. rewrite lookup_omap.
  destruct (adapter_rooms w !! room) as [m|]; cbn.
  - unfold without. destruct (decide (m ∖ {[socket]} = ∅)) as [He|He]; cbn; [|done].
    by rewrite He.
  - apply set_eq. intros x. rewrite elem_of_difference, elem_of_empty. tauto.
Qed.

Lemma bind_modify {St A} (f : St -> St) (k : unit -> Prog St A) s :
  bind (modify f) k s = k tt (f s).
Proof. unfold bind, modify. by destruct (k tt (f s)) as [[r s'] tr]. Qed.

Lemma bind_get_data {A} socket (k : SocketData -> Handler A) w :
  bind (get_data socket) k w = k (data_of w socket) w.
Proof. unfold bind, get_data. by destruct (k (data_of w socket) w) as [[r s'] tr]. Qed.

(** X17.  [disconnect]: afterwards the socket is in no room, and every
    room holds the other sockets it held.  Without a recorded session
    nothing is run or sent; with one, on an open database, the membership
    pair is deleted and [user-left] and the user list go to the sockets
    that were in the room with it. *)
Theorem disconnect_leaves_every_room env socket w :
  let out := handle env socket Disconnect w in
  (forall room, members out.1 room = members w room ∖ {[socket]}) /\
  socket_data out.1 = socket_data w /\
  (truthy (sd_roomId (data_of w socket)) && truthy (sd_userId (data_of w socket))
   = false -> out.2 = []) /\
  (forall tb roomId userId,
     tables w = Some tb ->
     data_of w socket = {| sd_roomId := Some roomId; sd_userId := Some userId |} ->
     roomId <> "" -> userId <> "" ->
     exists roomUsers tb',
       out.2 = [SqlRun (DeleteRoomUser roomId userId);
                Emit (others w roomId socket) (user_left userId);
                Emit (others w roomId socket) (room_users_updated roomUsers)] /\
       tables out.1 = Some tb' /\
       is_member tb' roomId userId = false).
Proof.
  intros out. subst out.
  set (w1 := state_after (socket_leave_all socket) w).
  assert (Hstep : handler env socket Disconnect w
                  = (let* d := get_data socket in
                     if truthy (sd_roomId d) && truthy (sd_userId d)
                     then handleUserLeave socket (str (sd_roomId d)) (str (sd_userId d))
                     else ret tt) w1).
  { cbn [handler]. unfold on_disconnect, socket_leave_all. apply bind_modify. }
  assert (Hdata1 : data_of w1 socket = data_of w socket) by reflexivity.
  assert (Hsd1 : socket_data w1 = socket_data w) by reflexivity.
  assert (Htb1 : tables w1 = tables w) by reflexivity.
  assert (Hm1 : forall room, members w1 room = members w room ∖ {[socket]})
    by (intros room; apply members_left_all_same).
  unfold handle. rewrite Hstep, bind_get_data, Hdata1.
  clearbody w1. clear Hstep.
  destruct (truthy (sd_roomId (data_of w socket))
            && truthy (sd_userId (data_of w socket))) eqn:Hguard.
  - destruct (tables w) as [tb|] eqn:Hdb.
    + pose proof (handleUserLeave_runs socket (str (sd_roomId (data_of w socket)))
                    (str (sd_userId (data_of w socket))) w1 tb Htb1) as Hrun.
      unfold runs in Hrun. rewrite Hrun. cbn [fst snd app].
      destruct (after_leave_frame socket (str (sd_roomId (data_of w socket)))
                  (str (sd_userId (data_of w socket))) tb w1) as (Hsd & _ & Htb).
      split; [|split; [congruence|split; [discriminate|]]].
      * intros room. rewrite members_after_leave, Hm1.
        case_bool_decide; [apply difference_twice | done].
      * intros tb0 roomId userId [= <-] Hdata Hroom Huser.
        rewrite Hdata in *. cbn [sd_roomId sd_userId str default from_option id] in *.
        eexists _, _. split; [|split; [exact Htb|]].
        -- rewrite members_after_leave, bool_decide_eq_true_2, Hm1, !difference_twice
             by done.
           reflexivity.
        -- by rewrite is_member_after_delete, bool_decide_eq_true_2.
    + rewrite handleUserLeave_closed by congruence. cbn [fst snd app].
      split; [exact Hm1|]. split; [exact Hsd1|]. split; [discriminate|].
      intros tb roomId userId Hdb'. discriminate Hdb'.
  - cbn [fst snd app]. unfold ret. cbn [fst snd app].
    split; [exact Hm1|]. split; [exact Hsd1|]. split; [done|].
    intros tb roomId userId _ Hdata Hroom Huser. rewrite Hdata in Hguard.
    cbn [sd_roomId sd_userId] in Hguard.
    rewrite (truthy_some roomId Hroom), (truthy_some userId Huser) in Hguard.
    discriminate Hguard.
Qed.



Lemma serve_create_fresh env name isPrivate password permissions w tb :
  tables w = Some tb ->
  select_room (new_room_id env) tb = None ->
  serve_create env name isPrivate password permissions w
  = (set_dbManager
       (opened {| rooms := rooms tb
                           ++ [created_row env name isPrivate password permissions];
                  users := users tb; room_users := room_users tb;
                  whiteboard_elements := whiteboard_elements tb |}) w,
     [SqlRun (InsertRoom (created_row env name isPrivate password permissions));
      Respond 200
        (RoomCreated
           {| r_id := new_room_id env; r_name := name; r_isPrivate := isPrivate;
              r_password := if isPrivate then password else JsUndefined;
              r_permissions :=
                if bool_decide (permissions = "") then "edit" else permissions;
              r_createdAt := now env; r_users := [] |})]).
Proof.
  intros Hdb Hfresh. unfold serve_create, post_api_rooms, try_catch, bind at 1,
    RoomManager.createRoom, db_call, zoom.
  rewrite (dbManager_opened w tb Hdb), (createRoom_fresh _ _ _ Hfresh).
  cbn [crd_name crd_isPrivate crd_password crd_permissions].
  fold (created_row env name isPrivate password permissions).
  rewrite after_insert_room by exact Hfresh. reflexivity.
Qed.


Lemma select_created_room env name isPrivate password permissions tb :
  select_room (new_room_id env) tb = None ->
  select_room (new_room_id env)
    {| rooms := rooms tb ++ [created_row env name isPrivate password permissions];
       users := users tb; room_users := room_users tb;
       whiteboard_elements := whiteboard_elements tb |}
  = Some (created_row env name isPrivate password permissions).
Proof.
  intros Hfresh. unfold select_room in *. cbn [rooms].
  rewrite find_app_none by exact Hfresh. cbn. by rewrite bool_decide_eq_true_2.
Qed.

(** X19.  A room created through [POST /api/rooms] can be joined next,
    from any socket, exactly when it is not private or the password
    supplied is the one given at creation as the store hands it back: the
    same string, or [null] when none was given. *)
Theorem created_room_admits_its_password env name isPrivate password permissions
    w tb env' socket supplied userName :
  tables w = Some tb ->
  select_room (new_room_id env) tb = None ->
  join_succeeds
    (handle env' socket (JoinRoom (new_room_id env) supplied userName)
            (serve_create env name isPrivate password permissions w).1).2 = true
  <-> isPrivate = false \/ supplied = read_text (bind_text password).
Proof.
  intros Hdb Hfresh. rewrite (serve_create_fresh _ _ _ _ _ w tb Hdb Hfresh). cbn [fst].
  set (w1 := set_dbManager _ w).
  set (row := created_row env name isPrivate password permissions).
  assert (Hdb1 : tables w1 = Some {| rooms := rooms tb ++ [row]; users := users tb;
                                     room_users := room_users tb;
                                     whiteboard_elements := whiteboard_elements tb |})
    by reflexivity.
  pose proof (select_created_room env name isPrivate password permissions tb Hfresh)
    as Hrow. fold row in Hrow.
  destruct isPrivate.
  - destruct (decide (read_text (room_password row) = supplied)) as [Heq|Hne].
    + destruct (join_admitted env' socket (new_room_id env) supplied userName w1 _ row
                  Hdb1 Hrow) as (w' & user & l & -> & _).
      { rewrite bool_decide_eq_true_2 by done. apply andb_false_r. }
      split; [|done]. intros _. right. by rewrite <- Heq.
    + rewrite (join_wrong_password env' socket (new_room_id env) supplied userName
                 w1 _ row Hdb1 Hrow eq_refl Hne).
      split; [discriminate|]. intros [Hp | ->]; [discriminate|]. by destruct Hne.
  - destruct (join_admitted env' socket (new_room_id env) supplied userName w1 _ row
                Hdb1 Hrow eq_refl) as (w' & user & l & -> & _).
    split; [|done]. intros _. by left.
Qed.

Lemma created_room_admits_its_password_witness :
  join_succeeds
    (handle env1 "s1" (JoinRoom (new_room_id env0) (JsStr "pw") "Ann")
            (serve_create env0 "Vault" true (JsStr "pw") "" (initial_world None)).1).2
  = true.
Proof.
  apply (created_room_admits_its_password env0 "Vault" true (JsStr "pw") ""
           (initial_world None) empty_tables env1 "s1" (JsStr "pw") "Ann"
           eq_refl eq_refl).
  right. reflexivity.
Defined.
